(** * PlayFabManualTest.py: a trace semantics of the manual smoke test

    The script under [targets/PythonSdk/source/playfab/PlayFabManualTest.py]
    is a straight-line Python module: it assigns two fields of the vendor
    settings object, builds request dictionaries, defines four callbacks and
    hands them to six calls of the vendor API.

    The embedding is shallow.  Python values are a small inductive type, the
    module namespace and the settings object are finite maps, and every
    statement of the module is a computation in a state-and-exception monad.
    Each primitive operation appends what it did to a trace, so that the
    questions "which variable was read", "which setting was touched" and "in
    which order" are questions about the trace of a run.

    The vendor SDK is not part of this file: the answer of each API call,
    what the vendor does to the request dictionaries it is handed, the
    behaviour of the global exception logger, the content of the
    [PlayFabManualTestSettings] module and the names bound by
    [from playfab import *] are parameters of the development. *)

From stdpp Require Import base strings list gmap.

#[local] Set Warnings "-register-all".
#[local] Open Scope string_scope.
#[local] Open Scope list_scope.

(** ** Python values *)

(** The four functions the module defines. *)
Inductive Callback :=
| LoginCallback
| EntityTokenCallback
| EntityObjectCallback
| TitleDataReqCallback.

(** The four vendor entry points the module calls. *)
Inductive Api :=
| ClientAPI_LoginWithCustomID
| EntityAPI_GetEntityToken
| EntityAPI_GetObjects
| ServerAPI_GetTitleData.

(** Exceptions.  [PlayFabException] stands for an instance of
    [PlayFabErrors.PlayFabException] or of a subclass of it; [OtherException]
    for an instance of any class outside that hierarchy. *)
Inductive PyExc :=
| KeyError (key : string)
| TypeError (msg : string)
| NameError (name : string)
| AttributeError (name : string)
| PlayFabException (msg : string)
| OtherException (cls msg : string).

(** The values that reach the script: JSON-like payloads, instances of vendor
    classes (such as the error object handed to a callback), exception
    instances (the handler of line 67 binds one to a name) and the script's
    own function objects.  A dictionary is a finite map with string keys.

    Python dictionaries are mutable objects, and two kinds of them occur.

    The payloads a callback receives belong to the vendor.  The script looks
    at a payload when the callback receives it and never again, so a payload
    stands for its content at that moment.

    The dictionaries the module creates are objects of the script.  Four of
    them are handed to the vendor, which may keep them and change them, and
    two of these, [etRequest] and [titleDataRequest], are handed over twice:
    the second call receives whatever is in the object by then.  Each
    dictionary display of the module is evaluated once, and its object is
    bound to one name, which is bound to nothing else and copied nowhere.  So
    the entry of that name in the namespace stands for the object: an item
    assignment updates the entry (see [set_item]), and so does what the
    vendor does to the object (see [handed_back] and [vendor_done]). *)
Inductive Val :=
| VNone
| VBool (b : bool)
| VInt (n : Z)
| VStr (s : string)
| VList (l : list Val)
| VDict (d : gmap string Val)
| VObj (cls : string)
| VFun (cb : Callback)
| VExc (e : PyExc).

Inductive Result (A : Type) :=
| Ok (a : A)
| Raise (e : PyExc).
Arguments Ok {A} a.
Arguments Raise {A} e.

(** What a vendor API function does with its two arguments: raise, return
    without calling back, or invoke the callback once with a success and a
    failure payload.  [guarded] says whether the vendor catches what the
    callback raises. *)
Inductive ApiOutcome :=
| ApiRaise (e : PyExc)
| ApiReturn
| ApiCallback (success fail : Val) (guarded : bool).

(** ** Traces *)

Inductive Event :=
| EvGlobalRead (x : string)
| EvGlobalWrite (x : string) (v : Val)
| EvGlobalDelete (x : string)
| EvTestSettingsRead (f : string)
| EvSettingsRead (f : string)
| EvSettingsWrite (f : string) (v : Val)
| EvSettingsCall (f : string) (arg : Val)
| EvApiCall (api : Api) (req cb : Val)
| EvApiRaise (api : Api) (e : PyExc)
| EvCallback (cb : Callback) (success fail : Val)
| EvPrint (v : Val).

(** ** Machine state *)

Record State := mkState {
  globals : gmap string Val;     (* the module namespace *)
  settings : gmap string Val;    (* attributes of playfab.PlayFabSettings *)
  trace : list Event             (* oldest event first *)
}.

Definition M (A : Type) : Type := State → Result A * State.

Definition ret {A} (a : A) : M A := λ s, (Ok a, s).

Definition raise {A} (e : PyExc) : M A := λ s, (Raise e, s).

Definition bind {A B} (m : M A) (f : A → M B) : M B :=
  λ s, match m s with
       | (Ok a, s') => f a s'
       | (Raise e, s') => (Raise e, s')
       end.

Notation "'let!' x ':=' m 'in' k" := (bind m (λ x, k))
  (at level 10, x name, m at level 100, k at level 200, only parsing).
Notation "m ;; k" := (bind m (λ _, k))
  (at level 100, k at level 200, right associativity, only parsing).

Definition log (ev : Event) (s : State) : State :=
  mkState (globals s) (settings s) (trace s ++ [ev]).

(** ** Truth value testing and subscription *)

(** [bool(v)].  An instance of a vendor class or of an exception class is
    taken to define neither [__bool__] nor [__len__], so it is true. *)
Definition truthy (v : Val) : bool :=
  match v with
  | VNone => false
  | VBool b => b
  | VInt n => negb (n =? 0)%Z
  | VStr s => negb (String.eqb s "")
  | VList l => match l with [] => false | _ => true end
  | VDict d => negb (bool_decide (d = ∅))
  | VObj _ => true
  | VFun _ => true
  | VExc _ => true
  end.

(** [v[key]] for a string key. *)
Definition subscript (v : Val) (key : string) : Result Val :=
  match v with
  | VDict d =>
      match d !! key with
      | Some x => Ok x
      | None => Raise (KeyError key)
      end
  | VStr _ => Raise (TypeError "string indices must be integers")
  | VList _ => Raise (TypeError "list indices must be integers or slices, not str")
  | VNone | VBool _ | VInt _ | VObj _ | VFun _ | VExc _ =>
      Raise (TypeError "object is not subscriptable")
  end.

(** [v[key] = x], giving the updated container. *)
Definition store_subscript (v : Val) (key : string) (x : Val) : Result Val :=
  match v with
  | VDict d => Ok (VDict (<[key := x]> d))
  | _ => Raise (TypeError "object does not support item assignment")
  end.

Definition lift {A} (r : Result A) : M A := λ s, (r, s).

(** ** Primitive operations *)

(** Reading a module-level name.  The names the module binds itself are read
    through [gread]; the names bound by the imports ([PlayFabSettings], the
    API classes, [PlayFabErrors]) and the builtin [print] are part of the
    primitives that use them and leave no event of their own. *)
Definition gread (x : string) : M Val :=
  λ s, let s' := log (EvGlobalRead x) s in
       match globals s !! x with
       | Some v => (Ok v, s')
       | None => (Raise (NameError x), s')
       end.

(** Binding a module-level name. *)
Definition gwrite (x : string) (v : Val) : M unit :=
  λ s, (Ok tt, mkState (<[x := v]> (globals s)) (settings s)
                       (trace s ++ [EvGlobalWrite x v])).

(** [del x] at module level. *)
Definition gdelete (x : string) : M unit :=
  λ s, match globals s !! x with
       | Some _ => (Ok tt, mkState (delete x (globals s)) (settings s)
                                   (trace s ++ [EvGlobalDelete x]))
       | None => (Raise (NameError x), log (EvGlobalDelete x) s)
       end.

(** [x[key] = v]: the name [x] is read and the dictionary it denotes is
    updated in place; the entry of [x] stands for that object (see [Val]). *)
Definition set_item (x key : string) (v : Val) : M unit :=
  let! d := gread x in
  let! d' := lift (store_subscript d key v) in
  λ s, (Ok tt, mkState (<[x := d']> (globals s)) (settings s) (trace s)).

(** [PlayFabSettings.f] as an expression. *)
Definition settings_read (f : string) : M Val :=
  λ s, let s' := log (EvSettingsRead f) s in
       match settings s !! f with
       | Some v => (Ok v, s')
       | None => (Raise (AttributeError f), s')
       end.

(** [PlayFabSettings.f = v]. *)
Definition settings_write (f : string) (v : Val) : M unit :=
  λ s, (Ok tt, mkState (globals s) (<[f := v]> (settings s))
                       (trace s ++ [EvSettingsWrite f v])).

(** [print(v)]. *)
Definition print (v : Val) : M unit :=
  λ s, (Ok tt, log (EvPrint v) s).

Definition is_PlayFabException (e : PyExc) : bool :=
  match e with
  | PlayFabException _ => true
  | _ => false
  end.

(** [try: m finally: cleanup]: the cleanup runs however [m] ends, and the
    outcome of [m] stands unless the cleanup raises. *)
Definition finally {A} (m : M A) (cleanup : M unit) : M A :=
  λ s, match m s with
       | (r, s') =>
           match cleanup s' with
           | (Ok _, s'') => (r, s'')
           | (Raise e, s'') => (Raise e, s'')
           end
       end.

(** [try: body except PlayFabErrors.PlayFabException as x: handler] at module
    level.  The name [x] is a module-level name like any other: a matching
    exception is bound to it before the handler runs, and when the handler is
    left, whether it returns or raises, [x] is bound to [None] and deleted. *)
Definition try_except_PlayFabException (body : M unit) (x : string) (handler : M unit) :
    M unit :=
  λ s, match body s with
       | (Ok a, s') => (Ok a, s')
       | (Raise e, s') =>
           if is_PlayFabException e
           then (gwrite x (VExc e) ;;
                 finally handler (gwrite x VNone ;; gdelete x)) s'
           else (Raise e, s')
       end.

(** ** The callbacks (lines 24-28, 32-38, 43-47 and 58-62) *)

Definition loginCallback (success fail : Val) : M unit :=
  if truthy fail then
    print fail
  else
    print success.

Definition entityTokenCallback (success fail : Val) : M unit :=
  (* global EntityKey *)
  if truthy fail then
    print fail
  else
    (let! v := lift (subscript success "Entity") in
     gwrite "EntityKey" v) ;;
    print success.

Definition entityObjectCallback (success fail : Val) : M unit :=
  if truthy fail then
    print fail
  else
    print success.

Definition titleDataReqCallback (success fail : Val) : M unit :=
  if truthy fail then
    print fail
  else
    print success.

Definition code (cb : Callback) : Val → Val → M unit :=
  match cb with
  | LoginCallback => loginCallback
  | EntityTokenCallback => entityTokenCallback
  | EntityObjectCallback => entityObjectCallback
  | TitleDataReqCallback => titleDataReqCallback
  end.

(** Calling a value with two arguments, as the vendor does with the callback
    it was given. *)
Definition call_value (f success fail : Val) : M unit :=
  match f with
  | VFun cb => λ s, code cb success fail (log (EvCallback cb success fail) s)
  | _ => raise (TypeError "object is not callable")
  end.

(** Statements of a module run in order, up to the first one that raises. *)
Fixpoint run_module (stmts : list (M unit)) : M unit :=
  match stmts with
  | [] => ret tt
  | stmt :: rest => stmt ;; run_module rest
  end.

(** ** Dictionaries handed to the vendor *)

(** The names of the dictionaries the module passes to a call: [request]
    (line 30), [etRequest] (lines 41 and 51), [eoRequest2] (line 56) and
    [titleDataRequest] (lines 66 and 74).  No vendor code runs between the
    construction of one of them and the call that passes it, so whenever
    vendor code has run, the vendor holds every dictionary the script has
    bound to one of these names.  It never holds [eoRequest] or
    [titleDataRequest2]. *)
Definition passed_names : list string :=
  [ "request"; "etRequest"; "eoRequest2"; "titleDataRequest" ].

Definition is_passed (x : string) : bool := bool_decide (x ∈ passed_names).

(** What a namespace entry holds once vendor code has run, when [change x d]
    is what that code made of the dictionary [d] bound to [x]: only the
    dictionaries under the passed names can have changed. *)
Definition retouched (change : string → gmap string Val → gmap string Val)
    (x : string) (v : Val) : Val :=
  match v with
  | VDict d => if is_passed x then VDict (change x d) else v
  | _ => v
  end.

Definition handed_back (change : string → gmap string Val → gmap string Val)
    (g : gmap string Val) : gmap string Val :=
  map_imap (λ x v, Some (retouched change x v)) g.

(** ** The module body, against an arbitrary vendor *)

Section Script.

(** Attributes of the module [PlayFabManualTestSettings]. *)
Variable test_settings : gmap string Val.

(** The answer of the vendor to an API call, which may depend on everything
    that happened before (the state holds the trace) and on the request. *)
Variable vendor : Api → State → Val → ApiOutcome.

(** What vendor code does to the request dictionaries it holds: when it
    hands control back in state [s], the dictionary bound to the passed name
    [x], which held [d], holds [edit s x d].  A vendor that leaves its
    requests alone is [λ _ _ d, d]. *)
Variable edit : State → string → gmap string Val → gmap string Val.

(** [PlayFabSettings.GlobalExceptionLogger], applied to its argument:
    [Some e'] when the logger itself raises. *)
Variable exception_logger : State → Val → option PyExc.

(** The state in which vendor code hands control back to the script. *)
Definition vendor_done (s : State) : State :=
  mkState (handed_back (edit s) (globals s)) (settings s) (trace s).

(** [PlayFabManualTestSettings.f] as an expression. *)
Definition test_settings_read (f : string) : M Val :=
  λ s, let s' := log (EvTestSettingsRead f) s in
       match test_settings !! f with
       | Some v => (Ok v, s')
       | None => (Raise (AttributeError f), s')
       end.

(** [PlayFabSettings.f(arg)]. *)
Definition settings_call (f : string) (arg : Val) : M unit :=
  λ s, let s' := log (EvSettingsCall f arg) s in
       match exception_logger s' arg with
       | Some e' => (Raise e', vendor_done s')
       | None => (Ok tt, vendor_done s')
       end.

(** [api(req, cb)] for one of the vendor entry points.  [req] is the content
    of the request dictionary when the call is made. *)
Definition api_call (api : Api) (req cb : Val) : M unit :=
  λ s, let s1 := log (EvApiCall api req cb) s in
       match vendor api s1 req with
       | ApiRaise e => (Raise e, vendor_done (log (EvApiRaise api e) s1))
       | ApiReturn => (Ok tt, vendor_done s1)
       | ApiCallback success fail guarded =>
           match call_value cb success fail s1 with
           | (Ok a, s2) => (Ok a, vendor_done s2)
           | (Raise e, s2) =>
               if guarded then (Ok tt, vendor_done s2) else (Raise e, vendor_done s2)
           end
       end.

(* PlayFabSettings.TitleId = PlayFabManualTestSettings.TitleId *)
Definition line14 : M unit :=
  let! v := test_settings_read "TitleId" in
  settings_write "TitleId" v.

(* customId = PlayFabManualTestSettings.customId *)
Definition line15 : M unit :=
  let! v := test_settings_read "customId" in
  gwrite "customId" v.

(* request = {} *)
Definition line17 : M unit :=
  gwrite "request" (VDict ∅).

(* request["CreateAccount"] = True *)
Definition line19 : M unit :=
  set_item "request" "CreateAccount" (VBool true).

(* request["CustomId"] = customId *)
Definition line20 : M unit :=
  let! v := gread "customId" in
  set_item "request" "CustomId" v.

(* request["TitleId"] = PlayFabSettings.TitleId *)
Definition line21 : M unit :=
  let! v := settings_read "TitleId" in
  set_item "request" "TitleId" v.

(* request["LoginTitlePlayerAccountEntity"] = True *)
Definition line22 : M unit :=
  set_item "request" "LoginTitlePlayerAccountEntity" (VBool true).

(* def loginCallback(success, fail): ... *)
Definition line24 : M unit :=
  gwrite "loginCallback" (VFun LoginCallback).

(* PlayFabClientAPI.LoginWithCustomID(request, loginCallback) *)
Definition line30 : M unit :=
  let! req := gread "request" in
  let! cb := gread "loginCallback" in
  api_call ClientAPI_LoginWithCustomID req cb.

(* def entityTokenCallback(success, fail): ... *)
Definition line32 : M unit :=
  gwrite "entityTokenCallback" (VFun EntityTokenCallback).

(* etRequest = {} *)
Definition line40 : M unit :=
  gwrite "etRequest" (VDict ∅).

(* PlayFabEntityAPI.GetEntityToken(etRequest, entityTokenCallback) *)
Definition line41 : M unit :=
  let! req := gread "etRequest" in
  let! cb := gread "entityTokenCallback" in
  api_call EntityAPI_GetEntityToken req cb.

(* def entityObjectCallback(success, fail): ... *)
Definition line43 : M unit :=
  gwrite "entityObjectCallback" (VFun EntityObjectCallback).

(* eoRequest = {} *)
Definition line50 : M unit :=
  gwrite "eoRequest" (VDict ∅).

(* PlayFabEntityAPI.GetObjects(etRequest, entityObjectCallback) *)
Definition line51 : M unit :=
  let! req := gread "etRequest" in
  let! cb := gread "entityObjectCallback" in
  api_call EntityAPI_GetObjects req cb.

(* eoRequest2 = { "Entity" : EntityKey } *)
Definition line53 : M unit :=
  let! v := gread "EntityKey" in
  gwrite "eoRequest2" (VDict {["Entity" := v]}).

(* PlayFabEntityAPI.GetObjects(eoRequest2, entityObjectCallback) *)
Definition line56 : M unit :=
  let! req := gread "eoRequest2" in
  let! cb := gread "entityObjectCallback" in
  api_call EntityAPI_GetObjects req cb.

(* def titleDataReqCallback(success, fail): ... *)
Definition line58 : M unit :=
  gwrite "titleDataReqCallback" (VFun TitleDataReqCallback).

(* try:
       titleDataRequest = {}
       PlayFabServerAPI.GetTitleData(titleDataRequest, titleDataReqCallback)
   except PlayFabErrors.PlayFabException as e:
       print("Caught expected error")
       PlayFabSettings.GlobalExceptionLogger(e) *)
Definition line64 : M unit :=
  try_except_PlayFabException
    (gwrite "titleDataRequest" (VDict ∅) ;;
     let! req := gread "titleDataRequest" in
     let! cb := gread "titleDataReqCallback" in
     api_call ServerAPI_GetTitleData req cb)
    "e"
    (print (VStr "Caught expected error") ;;
     let! e := gread "e" in
     settings_call "GlobalExceptionLogger" e).

(* PlayFabSettings.DeveloperSecretKey = PlayFabManualTestSettings.DeveloperSeceretKey *)
Definition line71 : M unit :=
  let! v := test_settings_read "DeveloperSeceretKey" in
  settings_write "DeveloperSecretKey" v.

(* titleDataRequest2 = {} *)
Definition line73 : M unit :=
  gwrite "titleDataRequest2" (VDict ∅).

(* PlayFabServerAPI.GetTitleData(titleDataRequest, titleDataReqCallback) *)
Definition line74 : M unit :=
  let! req := gread "titleDataRequest" in
  let! cb := gread "titleDataReqCallback" in
  api_call ServerAPI_GetTitleData req cb.

Definition toplevel : list (M unit) :=
  [ line14; line15; line17; line19; line20; line21; line22; line24; line30;
    line32; line40; line41; line43; line50; line51; line53; line56; line58;
    line64; line71; line73; line74 ].

(** Running the module from the namespace the imports left behind and the
    vendor's initial settings. *)
Definition run (imported vendor_settings : gmap string Val) : Result unit * State :=
  run_module toplevel (mkState imported vendor_settings []).

End Script.

(** ** Views of a trace *)

(** What was written to standard output, in order. *)
Definition printed (tr : list Event) : list Val :=
  omap (λ ev, match ev with EvPrint v => Some v | _ => None end) tr.

(** The payload a callback is meant to print. *)
Definition selected (success fail : Val) : Val :=
  if truthy fail then fail else success.

(** The state a fresh interpreter starts the callbacks' tests from. *)
Definition blank : State := mkState ∅ ∅ [].

(** The vendor entry points called, in order. *)
Definition called (tr : list Event) : list Api :=
  omap (λ ev, match ev with EvApiCall api _ _ => Some api | _ => None end) tr.

(** The events that record an exception coming out of a vendor entry point. *)
Definition is_raise (ev : Event) : bool :=
  match ev with
  | EvApiRaise _ _ => true
  | _ => false
  end.

(** How the settings object of the vendor was touched. *)
Inductive Access := Reads | Writes | Invokes.

Definition settings_access (ev : Event) : option (Access * string) :=
  match ev with
  | EvSettingsRead f => Some (Reads, f)
  | EvSettingsWrite f _ => Some (Writes, f)
  | EvSettingsCall f _ => Some (Invokes, f)
  | _ => None
  end.

Definition settings_accesses (tr : list Event) : list (Access * string) :=
  omap settings_access tr.

(** The events of the top-level statements, without the values.  What
    happens during a call (callbacks, prints, exceptions, the assignment of
    [EntityKey] by the token callback) and in the handler (the print, the
    logger and what happens to the name [e]) has no label. *)
Inductive Label :=
| LRead (x : string)
| LWrite (x : string)
| LTestSettingsRead (f : string)
| LSettingsRead (f : string)
| LSettingsWrite (f : string)
| LCall (api : Api).

Definition label (ev : Event) : option Label :=
  match ev with
  | EvGlobalRead x => if String.eqb x "e" then None else Some (LRead x)
  | EvGlobalWrite x _ =>
      if String.eqb x "EntityKey" || String.eqb x "e" then None else Some (LWrite x)
  | EvTestSettingsRead f => Some (LTestSettingsRead f)
  | EvSettingsRead f => Some (LSettingsRead f)
  | EvSettingsWrite f _ => Some (LSettingsWrite f)
  | EvApiCall api _ _ => Some (LCall api)
  | EvGlobalDelete _ | EvSettingsCall _ _ | EvApiRaise _ _ | EvCallback _ _ _
  | EvPrint _ => None
  end.

Definition skeleton (tr : list Event) : list Label := omap label tr.

(** The order of configuration, dictionary construction and calls. *)
Inductive Step :=
| Config (f : string)
| Build (x : string)
| Invoke (api : Api).

Definition request_names : list string :=
  [ "request"; "etRequest"; "eoRequest"; "eoRequest2"; "titleDataRequest";
    "titleDataRequest2" ].

Definition step_of (ev : Event) : option Step :=
  match ev with
  | EvSettingsWrite f _ => Some (Config f)
  | EvGlobalWrite x _ => if bool_decide (x ∈ request_names) then Some (Build x) else None
  | EvApiCall api _ _ => Some (Invoke api)
  | _ => None
  end.

Definition steps (tr : list Event) : list Step := omap step_of tr.

Definition script_steps : list Step :=
  [ Config "TitleId"; Build "request"; Invoke ClientAPI_LoginWithCustomID;
    Build "etRequest"; Invoke EntityAPI_GetEntityToken;
    Build "eoRequest"; Invoke EntityAPI_GetObjects;
    Build "eoRequest2"; Invoke EntityAPI_GetObjects;
    Build "titleDataRequest"; Invoke ServerAPI_GetTitleData;
    Config "DeveloperSecretKey";
    Build "titleDataRequest2"; Invoke ServerAPI_GetTitleData ].

(** Which names are read for which call. *)
Inductive Use :=
| Name (x : string)
| Call (api : Api).

Definition use_of (ev : Event) : option Use :=
  match ev with
  | EvGlobalRead x => Some (Name x)
  | EvApiCall api _ _ => Some (Call api)
  | _ => None
  end.

Definition uses (tr : list Event) : list Use := omap use_of tr.

(** The names read in a complete run; the handler reads [e] (line 69) when
    the [try] statement caught something. *)
Definition script_uses (caught : bool) : list Use :=
  [ Name "request"; Name "customId"; Name "request"; Name "request"; Name "request";
    Name "request"; Name "loginCallback"; Call ClientAPI_LoginWithCustomID;
    Name "etRequest"; Name "entityTokenCallback"; Call EntityAPI_GetEntityToken;
    Name "etRequest"; Name "entityObjectCallback"; Call EntityAPI_GetObjects;
    Name "EntityKey";
    Name "eoRequest2"; Name "entityObjectCallback"; Call EntityAPI_GetObjects;
    Name "titleDataRequest"; Name "titleDataReqCallback"; Call ServerAPI_GetTitleData ] ++
  (if caught then [ Name "e" ] else []) ++
  [ Name "titleDataRequest"; Name "titleDataReqCallback"; Call ServerAPI_GetTitleData ].

(** What happens to [EntityKey] and to the requests for objects. *)
Inductive Flow :=
| TokenCalled (success fail : Val)
| KeyWritten (v : Val)
| KeyRead
| Built (req : Val)
| ObjectsCalled (req : Val).

Definition flow_of (ev : Event) : option Flow :=
  match ev with
  | EvCallback EntityTokenCallback success fail => Some (TokenCalled success fail)
  | EvGlobalWrite x v =>
      if String.eqb x "EntityKey" then Some (KeyWritten v)
      else if String.eqb x "eoRequest2" then Some (Built v)
      else None
  | EvGlobalRead x => if String.eqb x "EntityKey" then Some KeyRead else None
  | EvApiCall EntityAPI_GetObjects req _ => Some (ObjectsCalled req)
  | _ => None
  end.

Definition flow (tr : list Event) : list Flow := omap flow_of tr.

#[global] Instance Callback_eq_dec : EqDecision Callback.
Proof. solve_decision. Defined.

#[global] Instance Api_eq_dec : EqDecision Api.
Proof. solve_decision. Defined.

#[global] Instance Access_eq_dec : EqDecision Access.
Proof. solve_decision. Defined.

#[global] Instance Step_eq_dec : EqDecision Step.
Proof. solve_decision. Defined.

#[global] Instance Use_eq_dec : EqDecision Use.
Proof. solve_decision. Defined.

#[global] Instance Label_eq_dec : EqDecision Label.
Proof. solve_decision. Defined.

(** The labels of a complete run, line by line. *)
Definition script_skeleton : list Label :=
  [ (* 14 *) LTestSettingsRead "TitleId"; LSettingsWrite "TitleId";
    (* 15 *) LTestSettingsRead "customId"; LWrite "customId";
    (* 17 *) LWrite "request";
    (* 19 *) LRead "request";
    (* 20 *) LRead "customId"; LRead "request";
    (* 21 *) LSettingsRead "TitleId"; LRead "request";
    (* 22 *) LRead "request";
    (* 24 *) LWrite "loginCallback";
    (* 30 *) LRead "request"; LRead "loginCallback"; LCall ClientAPI_LoginWithCustomID;
    (* 32 *) LWrite "entityTokenCallback";
    (* 40 *) LWrite "etRequest";
    (* 41 *) LRead "etRequest"; LRead "entityTokenCallback"; LCall EntityAPI_GetEntityToken;
    (* 43 *) LWrite "entityObjectCallback";
    (* 50 *) LWrite "eoRequest";
    (* 51 *) LRead "etRequest"; LRead "entityObjectCallback"; LCall EntityAPI_GetObjects;
    (* 53 *) LRead "EntityKey"; LWrite "eoRequest2";
    (* 56 *) LRead "eoRequest2"; LRead "entityObjectCallback"; LCall EntityAPI_GetObjects;
    (* 58 *) LWrite "titleDataReqCallback";
    (* 65 *) LWrite "titleDataRequest";
    (* 66 *) LRead "titleDataRequest"; LRead "titleDataReqCallback";
             LCall ServerAPI_GetTitleData;
    (* 71 *) LTestSettingsRead "DeveloperSeceretKey"; LSettingsWrite "DeveloperSecretKey";
    (* 73 *) LWrite "titleDataRequest2";
    (* 74 *) LRead "titleDataRequest"; LRead "titleDataReqCallback";
             LCall ServerAPI_GetTitleData ].

(** The lengths of the skeleton at which a run can end. *)
Definition stops : list nat := [1; 3; 15; 20; 25; 26; 30; 35; 36; 41].

Definition step_of_label (l : Label) : option Step :=
  match l with
  | LSettingsWrite f => Some (Config f)
  | LWrite x => if bool_decide (x ∈ request_names) then Some (Build x) else None
  | LCall api => Some (Invoke api)
  | _ => None
  end.

(** The accesses to the settings object in a complete run; the logger is
    invoked only when the [try] statement caught something. *)
Definition script_settings_accesses (caught : bool) : list (Access * string) :=
  [ (Writes, "TitleId"); (Reads, "TitleId") ] ++
  (if caught then [ (Invokes, "GlobalExceptionLogger") ] else []) ++
  [ (Writes, "DeveloperSecretKey") ].

(** The requests passed to [GetObjects], in order. *)
Definition objects_requests (tr : list Event) : list Val :=
  omap (λ ev, match ev with
              | EvApiCall EntityAPI_GetObjects req _ => Some req
              | _ => None
              end) tr.



(** The part of the flow that comes from the token call. *)
Inductive token_flow : list Flow → option Val → Prop :=
| tflow_silent : token_flow [] None
| tflow_failure success fail :
    truthy fail = true →
    token_flow [TokenCalled success fail] None
| tflow_capture success fail v :
    truthy fail = false →
    subscript success "Entity" = Ok v →
    token_flow [TokenCalled success fail; KeyWritten v] (Some v)
| tflow_raised success fail e :
    truthy fail = false →
    subscript success "Entity" = Raise e →
    token_flow [TokenCalled success fail] None.

(** The part that comes from lines 51 to 56, given what the token callback
    captured, what [EntityKey] is bound to, the result of the run and the
    calls made.  A run that ends before line 51 has captured nothing; a run
    that ends between the first call and line 53 ends with an exception
    after three calls. *)
Inductive objects_flow (cap key : option Val) (r : Result unit) (calls : list Api) :
    list Flow → Prop :=
| oflow_before :
    cap = None →
    objects_flow cap key r calls []
| oflow_first req e :
    r = Raise e →
    calls = [ ClientAPI_LoginWithCustomID; EntityAPI_GetEntityToken;
              EntityAPI_GetObjects ] →
    objects_flow cap key r calls [ObjectsCalled req]
| oflow_unbound req :
    key = None →
    r = Raise (NameError "EntityKey") →
    calls = [ ClientAPI_LoginWithCustomID; EntityAPI_GetEntityToken;
              EntityAPI_GetObjects ] →
    objects_flow cap key r calls [ObjectsCalled req; KeyRead]
| oflow_second req v :
    key = Some v →
    objects_flow cap key r calls
      [ ObjectsCalled req; KeyRead; Built (VDict {["Entity" := v]});
        ObjectsCalled (VDict {["Entity" := v]}) ].

(** The claim that a callback prints exactly one payload, the selected one. *)
Definition prints_selected_payload (cb : Callback) (success fail : Val) (s : State) : Prop :=
  printed (trace (code cb success fail s).2) = printed (trace s) ++ [selected success fail].

(** [key in v] for a dictionary, false for anything else. *)
Definition has_key (v : Val) (key : string) : bool :=
  match v with
  | VDict d => bool_decide (is_Some (d !! key))
  | _ => false
  end.

(** The claim that [entityTokenCallback] raises [KeyError] and nothing else
    happens. *)
Definition raises_key_error (success fail : Val) (s : State) : Prop :=
  entityTokenCallback success fail s = (Raise (KeyError "Entity"), s).

(** Whether an exception raised by the vendor after the events [before] is
    one the [try] statement handles: it comes out of the fifth call and is a
    [PlayFabException]. *)
Definition handled_by_try (before : list Event) (e : PyExc) : bool :=
  (List.length (called before) =? 5)%nat && is_PlayFabException e.

Definition no_raise (tr : list Event) : Prop :=
  Forall (λ ev, is_raise ev = false) tr.

(** What the claim about the handler says of one exception in the trace. *)
Definition raise_outcome (r : Result unit) (tr1 : list Event) api e (tr2 : list Event) :
    Prop :=
  if handled_by_try tr1 e
  then api = ServerAPI_GetTitleData ∧
       ∃ tr3, tr2 = EvGlobalWrite "e" (VExc e) ::
                    EvPrint (VStr "Caught expected error") ::
                    EvGlobalRead "e" ::
                    EvSettingsCall "GlobalExceptionLogger" (VExc e) :: tr3
  else tr2 = [] ∧ r = Raise e.

(** The claim that every configuration assignment comes before every call. *)
Definition config_precedes_calls (tr : list Event) : Prop :=
  ∀ i j f v api req cb,
    tr !! i = Some (EvSettingsWrite f v) →
    tr !! j = Some (EvApiCall api req cb) →
    i < j.

(** ** Sample vendors *)

Definition demo_test_settings : gmap string Val :=
  {[ "TitleId" := VStr "6195"; "customId" := VStr "tester";
     "DeveloperSeceretKey" := VStr "secret" ]}.

Definition demo_entity : Val :=
  VDict {[ "Id" := VStr "A1B2"; "Type" := VStr "title_player_account" ]}.

Definition demo_token_payload : Val :=
  VDict {[ "Entity" := demo_entity; "EntityToken" := VStr "t" ]}.

Definition demo_refusal : PyExc :=
  PlayFabException "Must have DeveloperSecretKey set to call this method".

(** Every call succeeds, except that title data is refused until the secret
    key is set. *)
Definition demo_vendor (api : Api) (s : State) (req : Val) : ApiOutcome :=
  match api with
  | ClientAPI_LoginWithCustomID =>
      ApiCallback (VDict {[ "NewlyCreated" := VBool false ]}) VNone true
  | EntityAPI_GetEntityToken => ApiCallback demo_token_payload VNone true
  | EntityAPI_GetObjects =>
      ApiCallback (VDict {[ "ProfileVersion" := VInt 1 ]}) VNone true
  | ServerAPI_GetTitleData =>
      match settings s !! "DeveloperSecretKey" with
      | None => ApiRaise demo_refusal
      | Some _ => ApiCallback (VDict {[ "Data" := VDict ∅ ]}) VNone true
      end
  end.

(** The token request is answered with an error object. *)
Definition failing_vendor (api : Api) (s : State) (req : Val) : ApiOutcome :=
  match api with
  | EntityAPI_GetEntityToken => ApiCallback VNone (VObj "PlayFabError") true
  | _ => demo_vendor api s req
  end.

Definition quiet_logger (s : State) (arg : Val) : option PyExc := None.

(** A vendor that leaves the requests it is handed as they are. *)
Definition no_edit (s : State) (x : string) (d : gmap string Val) : gmap string Val := d.

(** A vendor that marks every request it holds whenever its code runs. *)
Definition marking_edit (s : State) (x : string) (d : gmap string Val) :
    gmap string Val :=
  <["Seen" := VBool true]> d.

Definition demo_run : Result unit * State :=
  run demo_test_settings demo_vendor no_edit quiet_logger ∅ ∅.

Definition failing_run : Result unit * State :=
  run demo_test_settings failing_vendor no_edit quiet_logger ∅ ∅.

(** The sample run against a vendor that marks its requests. *)
Definition marking_run : Result unit * State :=
  run demo_test_settings demo_vendor marking_edit quiet_logger ∅ ∅.

(** ** The shape of a run

    The events of the module fall into six fixed segments, each ending with
    an API call, separated by what the vendor and the callback do during the
    call. *)

Definition request_dict (tid cid : Val) : gmap string Val :=
  <["LoginTitlePlayerAccountEntity" := VBool true]>
    (<["TitleId" := tid]>
       (<["CustomId" := cid]>
          (<["CreateAccount" := VBool true]> ∅))).

(* lines 14-15 *)
Definition seg_config (tid : Val) : list Event :=
  [ EvTestSettingsRead "TitleId"; EvSettingsWrite "TitleId" tid;
    EvTestSettingsRead "customId" ].

(* lines 14-30 *)
Definition seg_login (tid cid : Val) : list Event :=
  seg_config tid ++
  [ EvGlobalWrite "customId" cid;
    EvGlobalWrite "request" (VDict ∅);
    EvGlobalRead "request";
    EvGlobalRead "customId"; EvGlobalRead "request";
    EvSettingsRead "TitleId"; EvGlobalRead "request";
    EvGlobalRead "request";
    EvGlobalWrite "loginCallback" (VFun LoginCallback);
    EvGlobalRead "request"; EvGlobalRead "loginCallback";
    EvApiCall ClientAPI_LoginWithCustomID (VDict (request_dict tid cid))
              (VFun LoginCallback) ].

(* lines 32-41 *)
Definition seg_token : list Event :=
  [ EvGlobalWrite "entityTokenCallback" (VFun EntityTokenCallback);
    EvGlobalWrite "etRequest" (VDict ∅);
    EvGlobalRead "etRequest"; EvGlobalRead "entityTokenCallback";
    EvApiCall EntityAPI_GetEntityToken (VDict ∅) (VFun EntityTokenCallback) ].

(* lines 43-51; [req] is what [etRequest] holds by then *)
Definition seg_objects (req : Val) : list Event :=
  [ EvGlobalWrite "entityObjectCallback" (VFun EntityObjectCallback);
    EvGlobalWrite "eoRequest" (VDict ∅);
    EvGlobalRead "etRequest"; EvGlobalRead "entityObjectCallback";
    EvApiCall EntityAPI_GetObjects req (VFun EntityObjectCallback) ].

(* lines 53-56 *)
Definition seg_objects2 (v : Val) : list Event :=
  [ EvGlobalRead "EntityKey";
    EvGlobalWrite "eoRequest2" (VDict {["Entity" := v]});
    EvGlobalRead "eoRequest2"; EvGlobalRead "entityObjectCallback";
    EvApiCall EntityAPI_GetObjects (VDict {["Entity" := v]})
              (VFun EntityObjectCallback) ].

(* lines 58-66 *)
Definition seg_title : list Event :=
  [ EvGlobalWrite "titleDataReqCallback" (VFun TitleDataReqCallback);
    EvGlobalWrite "titleDataRequest" (VDict ∅);
    EvGlobalRead "titleDataRequest"; EvGlobalRead "titleDataReqCallback";
    EvApiCall ServerAPI_GetTitleData (VDict ∅) (VFun TitleDataReqCallback) ].

(* lines 67-69, with what happens to the name [e] *)
Definition seg_caught (e : PyExc) : list Event :=
  [ EvApiRaise ServerAPI_GetTitleData e;
    EvGlobalWrite "e" (VExc e);
    EvPrint (VStr "Caught expected error");
    EvGlobalRead "e";
    EvSettingsCall "GlobalExceptionLogger" (VExc e);
    EvGlobalWrite "e" VNone;
    EvGlobalDelete "e" ].

(* what follows the exception in [seg_caught] *)
Definition seg_handler (e : PyExc) : list Event := tail (seg_caught e).

(* lines 71-74; [req] is what [titleDataRequest] holds by then *)
Definition seg_title2 (key req : Val) : list Event :=
  [ EvTestSettingsRead "DeveloperSeceretKey";
    EvSettingsWrite "DeveloperSecretKey" key;
    EvGlobalWrite "titleDataRequest2" (VDict ∅);
    EvGlobalRead "titleDataRequest"; EvGlobalRead "titleDataReqCallback";
    EvApiCall ServerAPI_GetTitleData req (VFun TitleDataReqCallback) ].

(** What follows the call event when the call returns and the callback is one
    of the three that capture nothing. *)
Inductive plain_reply (cb : Callback) : list Event → Prop :=
| plain_silent : plain_reply cb []
| plain_called success fail :
    plain_reply cb [EvCallback cb success fail; EvPrint (selected success fail)].

(** The same for [entityTokenCallback], with the value it captured. *)
Inductive token_reply : list Event → option Val → Prop :=
| token_silent : token_reply [] None
| token_failure success fail :
    truthy fail = true →
    token_reply [EvCallback EntityTokenCallback success fail; EvPrint fail] None
| token_capture success fail v :
    truthy fail = false →
    subscript success "Entity" = Ok v →
    token_reply [EvCallback EntityTokenCallback success fail;
                 EvGlobalWrite "EntityKey" v; EvPrint success] (Some v)
| token_swallowed success fail e :
    truthy fail = false →
    subscript success "Entity" = Raise e →
    token_reply [EvCallback EntityTokenCallback success fail] None.

(** The same for the call inside the [try] statement. *)
Inductive title_reply : list Event → Prop :=
| title_plain d : plain_reply TitleDataReqCallback d → title_reply d
| title_caught e : is_PlayFabException e = true → title_reply (seg_caught e).

(** The binding of [EntityKey] after the token call. *)
Definition capture (cap : option Val) (g : gmap string Val) : gmap string Val :=
  match cap with
  | Some v => <["EntityKey" := v]> g
  | None => g
  end.

Definition entity_after (imported_key cap : option Val) : option Val :=
  match cap with
  | Some v => Some v
  | None => imported_key
  end.

Inductive after_login : list Event → Prop :=
| AfterLogin tid cid d :
    plain_reply LoginCallback d →
    after_login (seg_login tid cid ++ d).

Inductive after_token (imported_key : option Val) : option Val → list Event → Prop :=
| AfterToken tr d cap :
    after_login tr →
    token_reply d cap →
    after_token imported_key (entity_after imported_key cap) (tr ++ seg_token ++ d).

(** What [etRequest], built empty on line 40, holds on line 51: vendor code
    has run once since, during the token call. *)
Definition token_request_left (edit : State → string → gmap string Val → gmap string Val)
    (st : State) : Val :=
  VDict (edit st "etRequest" ∅).

(** What [titleDataRequest], built empty on line 65, can hold on line 74:
    vendor code has run once since, during the call of line 66, or twice,
    when the logger ran too. *)
Definition left_by (edit : State → string → gmap string Val → gmap string Val)
    (x : string) (d : gmap string Val) : Prop :=
  (∃ st, d = edit st x ∅) ∨ (∃ st st', d = edit st' x (edit st x ∅)).

Inductive after_objects (edit : State → string → gmap string Val → gmap string Val)
    (imported_key : option Val) : option Val → list Event → Prop :=
| AfterObjects key tr st d :
    after_token imported_key key tr →
    plain_reply EntityObjectCallback d →
    after_objects edit imported_key key
                  (tr ++ seg_objects (token_request_left edit st) ++ d).

Inductive after_objects2 (edit : State → string → gmap string Val → gmap string Val)
    (imported_key : option Val) : list Event → Prop :=
| AfterObjects2 v tr d :
    after_objects edit imported_key (Some v) tr →
    plain_reply EntityObjectCallback d →
    after_objects2 edit imported_key (tr ++ seg_objects2 v ++ d).

Inductive after_title (edit : State → string → gmap string Val → gmap string Val)
    (imported_key : option Val) : list Event → Prop :=
| AfterTitle tr d :
    after_objects2 edit imported_key tr →
    title_reply d →
    after_title edit imported_key (tr ++ seg_title ++ d).

(** The events up to each stage when the three plain callbacks stay silent. *)
Definition upto_token (tid cid : Val) (d : list Event) : list Event :=
  seg_login tid cid ++ seg_token ++ d.

Definition upto_objects (tid cid : Val) (d : list Event) (req : Val) : list Event :=
  upto_token tid cid d ++ seg_objects req.

Definition upto_objects2 (tid cid : Val) (d : list Event) (req v : Val) : list Event :=
  upto_objects tid cid d req ++ seg_objects2 v.

Definition upto_title (tid cid : Val) (d : list Event) (req v : Val) (d' : list Event) :
    list Event :=
  upto_objects2 tid cid d req v ++ seg_title ++ d'.

(** Every way the module can end, with the trace it leaves. *)
Inductive RunShape (edit : State → string → gmap string Val → gmap string Val)
    (imported_key : option Val) : Result unit → list Event → Prop :=
| run_no_title_id :
    RunShape edit imported_key (Raise (AttributeError "TitleId"))
             [EvTestSettingsRead "TitleId"]
| run_no_custom_id tid :
    RunShape edit imported_key (Raise (AttributeError "customId")) (seg_config tid)
| run_login_raises tid cid e :
    RunShape edit imported_key (Raise e)
             (seg_login tid cid ++ [EvApiRaise ClientAPI_LoginWithCustomID e])
| run_token_raises tr e :
    after_login tr →
    RunShape edit imported_key (Raise e)
             (tr ++ seg_token ++ [EvApiRaise EntityAPI_GetEntityToken e])
| run_token_callback_raises tr success fail e :
    after_login tr →
    truthy fail = false →
    subscript success "Entity" = Raise e →
    RunShape edit imported_key (Raise e)
             (tr ++ seg_token ++ [EvCallback EntityTokenCallback success fail])
| run_objects_raises key tr st e :
    after_token imported_key key tr →
    RunShape edit imported_key (Raise e)
             (tr ++ seg_objects (token_request_left edit st) ++
              [EvApiRaise EntityAPI_GetObjects e])
| run_entity_key_unbound tr :
    after_objects edit imported_key None tr →
    RunShape edit imported_key (Raise (NameError "EntityKey"))
             (tr ++ [EvGlobalRead "EntityKey"])
| run_objects2_raises v tr e :
    after_objects edit imported_key (Some v) tr →
    RunShape edit imported_key (Raise e)
             (tr ++ seg_objects2 v ++ [EvApiRaise EntityAPI_GetObjects e])
| run_title_raises tr e :
    after_objects2 edit imported_key tr →
    is_PlayFabException e = false →
    RunShape edit imported_key (Raise e)
             (tr ++ seg_title ++ [EvApiRaise ServerAPI_GetTitleData e])
| run_logger_raises tr e e' :
    after_objects2 edit imported_key tr →
    is_PlayFabException e = true →
    RunShape edit imported_key (Raise e') (tr ++ seg_title ++ seg_caught e)
| run_no_secret_key tr :
    after_title edit imported_key tr →
    RunShape edit imported_key (Raise (AttributeError "DeveloperSeceretKey"))
             (tr ++ [EvTestSettingsRead "DeveloperSeceretKey"])
| run_title2_raises key tr left e :
    after_title edit imported_key tr →
    left_by edit "titleDataRequest" left →
    RunShape edit imported_key (Raise e)
             (tr ++ seg_title2 key (VDict left) ++ [EvApiRaise ServerAPI_GetTitleData e])
| run_complete key tr left d :
    after_title edit imported_key tr →
    left_by edit "titleDataRequest" left →
    plain_reply TitleDataReqCallback d →
    RunShape edit imported_key (Ok tt) (tr ++ seg_title2 key (VDict left) ++ d).

(** [holds P m s]: the outcome of [m] from [s] satisfies [P]. *)
Definition holds {A} (P : Result A → State → Prop) (m : M A) (s : State) : Prop :=
  P (m s).1 (m s).2.

(** ** The shape of a run, with what the vendor answered

    The same thirteen endings, now with the final settings, the attributes
    found in [PlayFabManualTestSettings] and, for every call, the answer of
    the vendor and the settings it could see. *)

(** What follows the call event, given the answer of the vendor, for a
    callback that captures nothing. *)
Inductive plain_outcome (cb : Callback) : ApiOutcome → list Event → Prop :=
| outcome_silent : plain_outcome cb ApiReturn []
| outcome_called success fail guarded :
    plain_outcome cb (ApiCallback success fail guarded)
                  [EvCallback cb success fail; EvPrint (selected success fail)].

(** The same for [entityTokenCallback], on the paths where the call returns. *)
Inductive token_outcome : ApiOutcome → list Event → option Val → Prop :=
| toutcome_silent : token_outcome ApiReturn [] None
| toutcome_failure success fail guarded :
    truthy fail = true →
    token_outcome (ApiCallback success fail guarded)
                  [EvCallback EntityTokenCallback success fail; EvPrint fail] None
| toutcome_capture success fail guarded v :
    truthy fail = false →
    subscript success "Entity" = Ok v →
    token_outcome (ApiCallback success fail guarded)
                  [EvCallback EntityTokenCallback success fail;
                   EvGlobalWrite "EntityKey" v; EvPrint success] (Some v)
| toutcome_swallowed success fail e :
    truthy fail = false →
    subscript success "Entity" = Raise e →
    token_outcome (ApiCallback success fail true)
                  [EvCallback EntityTokenCallback success fail] None.

(** The requests of the login call with the callbacks passed along. *)
Definition logins (tr : list Event) : list (Val * Val) :=
  omap (λ ev, match ev with
              | EvApiCall ClientAPI_LoginWithCustomID req cb => Some (req, cb)
              | _ => None
              end) tr.

(** The values assigned to [PlayFabSettings.TitleId], in order. *)
Definition title_ids (tr : list Event) : list Val :=
  omap (λ ev, match ev with
              | EvSettingsWrite f v => if String.eqb f "TitleId" then Some v else None
              | _ => None
              end) tr.

(** What was handed to the global exception logger. *)
Definition logged (tr : list Event) : list Val :=
  omap (λ ev, match ev with EvSettingsCall _ arg => Some arg | _ => None end) tr.

(** A vendor that refuses title data, with a [PlayFabException], only while
    no developer secret key is set, and raises nothing else. *)
Definition raises_only_without_secret_key
    (vendor : Api → State → Val → ApiOutcome) : Prop :=
  ∀ api st req e,
    vendor api st req = ApiRaise e →
    api = ServerAPI_GetTitleData ∧ is_PlayFabException e = true ∧
    settings st !! "DeveloperSecretKey" = None.

(** A vendor that answers every token request with a success payload holding
    an entity. *)
Definition grants_entity_token (vendor : Api → State → Val → ApiOutcome) : Prop :=
  ∀ st req,
    ∃ success fail guarded v,
      vendor EntityAPI_GetEntityToken st req = ApiCallback success fail guarded ∧
      truthy fail = false ∧ subscript success "Entity" = Ok v.

(** The calls with their arguments, in order. *)
Definition call_of (ev : Event) : option (Api * Val * Val) :=
  match ev with
  | EvApiCall api req cb => Some (api, req, cb)
  | _ => None
  end.

Definition calls (tr : list Event) : list (Api * Val * Val) := omap call_of tr.

(** The six calls of the module (lines 30, 41, 51, 56, 66 and 74), given the
    identifiers of the test settings, the value of [EntityKey] and what
    [etRequest] and [titleDataRequest] hold when they are passed for the
    second time. *)
Definition script_calls (tid cid v : Val) (left3 left6 : gmap string Val) :
    list (Api * Val * Val) :=
  [ (ClientAPI_LoginWithCustomID, VDict (request_dict tid cid), VFun LoginCallback);
    (EntityAPI_GetEntityToken, VDict ∅, VFun EntityTokenCallback);
    (EntityAPI_GetObjects, VDict left3, VFun EntityObjectCallback);
    (EntityAPI_GetObjects, VDict {["Entity" := v]}, VFun EntityObjectCallback);
    (ServerAPI_GetTitleData, VDict ∅, VFun TitleDataReqCallback);
    (ServerAPI_GetTitleData, VDict left6, VFun TitleDataReqCallback) ].

(** At most one line is printed per call made and per exception logged. *)
Definition within_budget (tr : list Event) : Prop :=
  (List.length (printed tr) ≤ List.length (called tr) + List.length (logged tr))%nat.

(** A vendor that never raises and answers every token request with an
    empty success payload. *)
Definition entityless_vendor (guarded : bool) (api : Api) (s : State) (req : Val) :
    ApiOutcome :=
  match api with
  | EntityAPI_GetEntityToken => ApiCallback (VDict ∅) VNone guarded
  | _ => ApiReturn
  end.

(** Test settings without the developer secret key. *)
Definition keyless_test_settings : gmap string Val :=
  {[ "TitleId" := VStr "6195"; "customId" := VStr "tester" ]}.

(** A vendor whose login always raises the same exception. *)
Definition refusing_vendor (e : PyExc) (api : Api) (s : State) (req : Val) : ApiOutcome :=
  match api with
  | ClientAPI_LoginWithCustomID => ApiRaise e
  | _ => demo_vendor api s req
  end.

Section RunStates.

Variable test_settings : gmap string Val.
Variable vendor : Api → State → Val → ApiOutcome.
Variable edit : State → string → gmap string Val → gmap string Val.
Variable exception_logger : State → Val → option PyExc.
Variables imported vendor_settings : gmap string Val.

(** The settings once line 14 has run. *)
Definition titled (tid : Val) : gmap string Val :=
  <["TitleId" := tid]> vendor_settings.

(** The settings once line 71 has run. *)
Definition keyed (tid key : Val) : gmap string Val :=
  <["DeveloperSecretKey" := key]> (titled tid).

Inductive at_login : Val → list Event → Prop :=
| AtLogin tid cid st d :
    test_settings !! "TitleId" = Some tid →
    test_settings !! "customId" = Some cid →
    settings st = titled tid →
    plain_outcome LoginCallback
      (vendor ClientAPI_LoginWithCustomID st (VDict (request_dict tid cid))) d →
    at_login tid (seg_login tid cid ++ d).

Inductive at_token : Val → option Val → list Event → Prop :=
| AtToken tid tr st d cap :
    at_login tid tr →
    settings st = titled tid →
    token_outcome (vendor EntityAPI_GetEntityToken st (VDict ∅)) d cap →
    at_token tid (entity_after (imported !! "EntityKey") cap) (tr ++ seg_token ++ d).

Inductive at_objects : Val → option Val → list Event → Prop :=
| AtObjects tid key tr st st2 d :
    at_token tid key tr →
    settings st = titled tid →
    plain_outcome EntityObjectCallback
      (vendor EntityAPI_GetObjects st (token_request_left edit st2)) d →
    at_objects tid key (tr ++ seg_objects (token_request_left edit st2) ++ d).

Inductive at_objects2 : Val → list Event → Prop :=
| AtObjects2 tid v tr st d :
    at_objects tid (Some v) tr →
    settings st = titled tid →
    plain_outcome EntityObjectCallback
      (vendor EntityAPI_GetObjects st (VDict {["Entity" := v]})) d →
    at_objects2 tid (tr ++ seg_objects2 v ++ d).

Inductive at_title : Val → list Event → Prop :=
| AtTitle tid tr st d :
    at_objects2 tid tr →
    settings st = titled tid →
    plain_outcome TitleDataReqCallback (vendor ServerAPI_GetTitleData st (VDict ∅)) d →
    at_title tid (tr ++ seg_title ++ d)
| AtTitleCaught tid tr st st' e :
    at_objects2 tid tr →
    settings st = titled tid →
    vendor ServerAPI_GetTitleData st (VDict ∅) = ApiRaise e →
    is_PlayFabException e = true →
    exception_logger st' (VExc e) = None →
    at_title tid (tr ++ seg_title ++ seg_caught e).

(** What every stage past the login call knows about lines 14 to 30. *)
Definition login_facts (tid : Val) (tr : list Event) : Prop :=
  ∃ cid st d,
    test_settings !! "TitleId" = Some tid ∧
    test_settings !! "customId" = Some cid ∧
    settings st = titled tid ∧
    plain_outcome LoginCallback
      (vendor ClientAPI_LoginWithCustomID st (VDict (request_dict tid cid))) d ∧
    logins tr = [(VDict (request_dict tid cid), VFun LoginCallback)] ∧
    title_ids tr = [tid].

Inductive RunState : Result unit → State → Prop :=
| state_no_title_id :
    test_settings !! "TitleId" = None →
    RunState (Raise (AttributeError "TitleId"))
             (mkState imported vendor_settings [EvTestSettingsRead "TitleId"])
| state_no_custom_id tid :
    test_settings !! "TitleId" = Some tid →
    test_settings !! "customId" = None →
    RunState (Raise (AttributeError "customId"))
             (mkState imported (titled tid) (seg_config tid))
| state_login_raises g tid cid st e :
    test_settings !! "TitleId" = Some tid →
    test_settings !! "customId" = Some cid →
    settings st = titled tid →
    vendor ClientAPI_LoginWithCustomID st (VDict (request_dict tid cid)) = ApiRaise e →
    RunState (Raise e)
             (mkState g (titled tid)
                      (seg_login tid cid ++ [EvApiRaise ClientAPI_LoginWithCustomID e]))
| state_token_raises g tid tr st e :
    at_login tid tr →
    settings st = titled tid →
    vendor EntityAPI_GetEntityToken st (VDict ∅) = ApiRaise e →
    RunState (Raise e)
             (mkState g (titled tid)
                      (tr ++ seg_token ++ [EvApiRaise EntityAPI_GetEntityToken e]))
| state_token_callback_raises g tid tr st success fail e :
    at_login tid tr →
    settings st = titled tid →
    vendor EntityAPI_GetEntityToken st (VDict ∅) = ApiCallback success fail false →
    truthy fail = false →
    subscript success "Entity" = Raise e →
    RunState (Raise e)
             (mkState g (titled tid)
                      (tr ++ seg_token ++ [EvCallback EntityTokenCallback success fail]))
| state_objects_raises g tid key tr st st2 e :
    at_token tid key tr →
    settings st = titled tid →
    vendor EntityAPI_GetObjects st (token_request_left edit st2) = ApiRaise e →
    RunState (Raise e)
             (mkState g (titled tid)
                      (tr ++ seg_objects (token_request_left edit st2) ++
                       [EvApiRaise EntityAPI_GetObjects e]))
| state_entity_key_unbound g tid tr :
    at_objects tid None tr →
    RunState (Raise (NameError "EntityKey"))
             (mkState g (titled tid) (tr ++ [EvGlobalRead "EntityKey"]))
| state_objects2_raises g tid v tr st e :
    at_objects tid (Some v) tr →
    settings st = titled tid →
    vendor EntityAPI_GetObjects st (VDict {["Entity" := v]}) = ApiRaise e →
    RunState (Raise e)
             (mkState g (titled tid)
                      (tr ++ seg_objects2 v ++ [EvApiRaise EntityAPI_GetObjects e]))
| state_title_raises g tid tr st e :
    at_objects2 tid tr →
    settings st = titled tid →
    vendor ServerAPI_GetTitleData st (VDict ∅) = ApiRaise e →
    is_PlayFabException e = false →
    RunState (Raise e)
             (mkState g (titled tid)
                      (tr ++ seg_title ++ [EvApiRaise ServerAPI_GetTitleData e]))
| state_logger_raises g tid tr st st' e e' :
    at_objects2 tid tr →
    settings st = titled tid →
    vendor ServerAPI_GetTitleData st (VDict ∅) = ApiRaise e →
    is_PlayFabException e = true →
    exception_logger st' (VExc e) = Some e' →
    RunState (Raise e') (mkState g (titled tid) (tr ++ seg_title ++ seg_caught e))
| state_no_secret_key g tid tr :
    at_title tid tr →
    test_settings !! "DeveloperSeceretKey" = None →
    RunState (Raise (AttributeError "DeveloperSeceretKey"))
             (mkState g (titled tid) (tr ++ [EvTestSettingsRead "DeveloperSeceretKey"]))
| state_title2_raises g tid key tr st left e :
    at_title tid tr →
    test_settings !! "DeveloperSeceretKey" = Some key →
    settings st = keyed tid key →
    left_by edit "titleDataRequest" left →
    vendor ServerAPI_GetTitleData st (VDict left) = ApiRaise e →
    RunState (Raise e)
             (mkState g (keyed tid key)
                      (tr ++ seg_title2 key (VDict left) ++
                       [EvApiRaise ServerAPI_GetTitleData e]))
| state_complete g tid key tr st left d :
    at_title tid tr →
    test_settings !! "DeveloperSeceretKey" = Some key →
    settings st = keyed tid key →
    left_by edit "titleDataRequest" left →
    plain_outcome TitleDataReqCallback (vendor ServerAPI_GetTitleData st (VDict left)) d →
    RunState (Ok tt) (mkState g (keyed tid key) (tr ++ seg_title2 key (VDict left) ++ d)).

End RunStates.

(** * The callbacks on their own *)

Lemma printed_app (tr1 tr2 : list Event) :
  printed (tr1 ++ tr2) = printed tr1 ++ printed tr2.
Proof. apply omap_app. Qed.

(** The body shared by the three callbacks that capture nothing. *)
Lemma plain_body (cb : Callback) (success fail : Val) (s : State) :
  cb ≠ EntityTokenCallback →
  code cb success fail s = (Ok tt, log (EvPrint (selected success fail)) s).
Proof.
  intros Hcb. unfold selected.
  destruct cb; try congruence; cbn;
    unfold loginCallback, entityObjectCallback, titleDataReqCallback;
    destruct (truthy fail); reflexivity.
Qed.

Lemma token_body_fail (success fail : Val) (s : State) :
  truthy fail = true →
  entityTokenCallback success fail s = (Ok tt, log (EvPrint fail) s).
Proof. intros Hf. unfold entityTokenCallback. rewrite Hf. reflexivity. Qed.

Lemma token_body_capture (success fail v : Val) (s : State) :
  truthy fail = false →
  subscript success "Entity" = Ok v →
  entityTokenCallback success fail s =
    (Ok tt, mkState (<["EntityKey" := v]> (globals s)) (settings s)
                    (trace s ++ [EvGlobalWrite "EntityKey" v; EvPrint success])).
Proof.
  intros Hf Hv. unfold entityTokenCallback. rewrite Hf.
  unfold bind, lift, gwrite, print, log. rewrite Hv. cbn.
  by rewrite <- app_assoc.
Qed.

Lemma token_body_raise (success fail : Val) (e : PyExc) (s : State) :
  truthy fail = false →
  subscript success "Entity" = Raise e →
  entityTokenCallback success fail s = (Raise e, s).
Proof.
  intros Hf Hv. unfold entityTokenCallback. rewrite Hf.
  unfold bind, lift. by rewrite Hv.
Qed.

(** * Dictionaries handed back by the vendor *)

Lemma lookup_handed_back change (g : gmap string Val) (x : string) :
  handed_back change g !! x = retouched change x <$> g !! x.
Proof. unfold handed_back. rewrite map_lookup_imap. by destruct (g !! x). Qed.

(** Names that are not passed to the vendor keep what they are bound to. *)
Lemma lookup_handed_back_other change (g : gmap string Val) (x : string) :
  is_passed x = false → handed_back change g !! x = g !! x.
Proof.
  intros Hx. rewrite lookup_handed_back.
  destruct (g !! x) as [v|]; [|done]. cbn. unfold retouched. rewrite Hx.
  by destruct v.
Qed.

(** A dictionary under a passed name holds what the vendor made of it. *)
Lemma lookup_handed_back_dict change (g : gmap string Val) (x : string) d :
  is_passed x = true → g !! x = Some (VDict d) →
  handed_back change g !! x = Some (VDict (change x d)).
Proof.
  intros Hx Hg. rewrite lookup_handed_back, Hg. cbn. unfold retouched. by rewrite Hx.
Qed.

(** A vendor that leaves its requests alone hands the namespace back as it
    was. *)
Lemma handed_back_no_edit (g : gmap string Val) : handed_back (λ _ d, d) g = g.
Proof.
  apply map_eq. intros x. rewrite lookup_handed_back.
  destruct (g !! x) as [v|]; [|done]. cbn. unfold retouched.
  destruct v; try done. by destruct (is_passed x).
Qed.

(** * Stepping through a computation *)

Section Stepping.

Variable test_settings : gmap string Val.
Variable vendor : Api → State → Val → ApiOutcome.
Variable edit : State → string → gmap string Val → gmap string Val.
Variable exception_logger : State → Val → option PyExc.

Context {A B : Type}.
Implicit Types (P : Result B → State → Prop) (s : State).

Lemma holds_ret P (a : B) s : P (Ok a) s → holds P (ret a) s.
Proof. done. Qed.

Lemma holds_tail P (m : M B) s : holds P (bind m ret) s → holds P m s.
Proof. unfold holds, bind, ret. by destruct (m s) as [[a|e] s']. Qed.

Lemma holds_assoc {C} P (m : M C) (f : C → M A) (k : A → M B) s :
  holds P (bind m (λ x, bind (f x) k)) s → holds P (bind (bind m f) k) s.
Proof. unfold holds, bind. by destruct (m s) as [[a|e] s']. Qed.

Lemma holds_gwrite P x v (k : unit → M B) s :
  holds P (k tt) (mkState (<[x := v]> (globals s)) (settings s)
                          (trace s ++ [EvGlobalWrite x v])) →
  holds P (bind (gwrite x v) k) s.
Proof. done. Qed.

Lemma holds_gread P x v (k : Val → M B) s :
  globals s !! x = Some v →
  holds P (k v) (mkState (globals s) (settings s) (trace s ++ [EvGlobalRead x])) →
  holds P (bind (gread x) k) s.
Proof. intros Hx. unfold holds, bind, gread. by rewrite Hx. Qed.

Lemma holds_gdelete P x v (k : unit → M B) s :
  globals s !! x = Some v →
  holds P (k tt) (mkState (delete x (globals s)) (settings s)
                          (trace s ++ [EvGlobalDelete x])) →
  holds P (bind (gdelete x) k) s.
Proof. intros Hx. unfold holds, bind, gdelete. by rewrite Hx. Qed.

Lemma holds_gread_unbound P x (k : Val → M B) s :
  globals s !! x = None →
  P (Raise (NameError x))
    (mkState (globals s) (settings s) (trace s ++ [EvGlobalRead x])) →
  holds P (bind (gread x) k) s.
Proof. intros Hx. unfold holds, bind, gread. by rewrite Hx. Qed.

Lemma holds_set_item P x key v d (k : unit → M B) s :
  globals s !! x = Some (VDict d) →
  holds P (k tt) (mkState (<[x := VDict (<[key := v]> d)]> (globals s)) (settings s)
                          (trace s ++ [EvGlobalRead x])) →
  holds P (bind (set_item x key v) k) s.
Proof.
  intros Hx. unfold holds, bind, set_item, bind, gread, lift. by rewrite Hx.
Qed.

Lemma holds_settings_read P f v (k : Val → M B) s :
  settings s !! f = Some v →
  holds P (k v) (mkState (globals s) (settings s) (trace s ++ [EvSettingsRead f])) →
  holds P (bind (settings_read f) k) s.
Proof. intros Hf. unfold holds, bind, settings_read. by rewrite Hf. Qed.

Lemma holds_settings_write P f v (k : unit → M B) s :
  holds P (k tt) (mkState (globals s) (<[f := v]> (settings s))
                          (trace s ++ [EvSettingsWrite f v])) →
  holds P (bind (settings_write f v) k) s.
Proof. done. Qed.

Lemma holds_print P v (k : unit → M B) s :
  holds P (k tt) (mkState (globals s) (settings s) (trace s ++ [EvPrint v])) →
  holds P (bind (print v) k) s.
Proof. done. Qed.

Lemma holds_test_settings_read P f (k : Val → M B) s :
  (test_settings !! f = None →
   P (Raise (AttributeError f))
     (mkState (globals s) (settings s) (trace s ++ [EvTestSettingsRead f]))) →
  (∀ v, test_settings !! f = Some v →
        holds P (k v) (mkState (globals s) (settings s)
                               (trace s ++ [EvTestSettingsRead f]))) →
  holds P (bind (test_settings_read test_settings f) k) s.
Proof.
  intros Hnone Hsome. unfold holds, bind, test_settings_read.
  destruct (test_settings !! f) as [v|]; [by apply Hsome | by apply Hnone].
Qed.

(** In the lemmas on vendor code, [st] is the state in which the vendor
    hands control back: the continuation runs on the namespace with the
    passed dictionaries as [edit st] left them. *)
Lemma holds_settings_call P f arg (k : unit → M B) s :
  (∀ e' st, P (Raise e')
              (mkState (handed_back (edit st) (globals s)) (settings s)
                       (trace s ++ [EvSettingsCall f arg]))) →
  (∀ st, holds P (k tt) (mkState (handed_back (edit st) (globals s)) (settings s)
                                 (trace s ++ [EvSettingsCall f arg]))) →
  holds P (bind (settings_call edit exception_logger f arg) k) s.
Proof.
  intros Hraise Hok. unfold holds, bind, settings_call, vendor_done, log.
  destruct (exception_logger _ arg); [apply Hraise | apply Hok].
Qed.

Lemma holds_api_plain P api req cb (k : unit → M B) s :
  cb ≠ EntityTokenCallback →
  (∀ e st, P (Raise e)
             (mkState (handed_back (edit st) (globals s)) (settings s)
                      (trace s ++ [EvApiCall api req (VFun cb); EvApiRaise api e]))) →
  (∀ d st, plain_reply cb d →
        holds P (k tt) (mkState (handed_back (edit st) (globals s)) (settings s)
                                (trace s ++ EvApiCall api req (VFun cb) :: d))) →
  holds P (bind (api_call vendor edit api req (VFun cb)) k) s.
Proof.
  intros Hcb Hraise Hok. unfold holds, bind, api_call, vendor_done, log.
  destruct (vendor api _ req) as [e| |success fail guarded].
  - cbn. rewrite <- app_assoc. apply Hraise.
  - apply (Hok [] _ (plain_silent cb)).
  - unfold call_value. rewrite plain_body by done. unfold log. cbn.
    rewrite <- !app_assoc. apply (Hok _ _ (plain_called cb success fail)).
Qed.

Lemma holds_api_token P api req (k : unit → M B) s :
  (∀ e st, P (Raise e)
             (mkState (handed_back (edit st) (globals s)) (settings s)
                      (trace s ++ [EvApiCall api req (VFun EntityTokenCallback);
                                   EvApiRaise api e]))) →
  (∀ success fail e st,
      truthy fail = false →
      subscript success "Entity" = Raise e →
      P (Raise e)
        (mkState (handed_back (edit st) (globals s)) (settings s)
                 (trace s ++ [EvApiCall api req (VFun EntityTokenCallback);
                              EvCallback EntityTokenCallback success fail]))) →
  (∀ d cap st, token_reply d cap →
        holds P (k tt) (mkState (handed_back (edit st) (capture cap (globals s)))
                                (settings s)
                                (trace s ++ EvApiCall api req (VFun EntityTokenCallback) :: d))) →
  holds P (bind (api_call vendor edit api req (VFun EntityTokenCallback)) k) s.
Proof.
  intros Hraise Hcbraise Hok. unfold holds, bind, api_call, vendor_done, log.
  destruct (vendor api _ req) as [e| |success fail guarded].
  - cbn. rewrite <- app_assoc. apply Hraise.
  - apply (Hok [] None _ token_silent).
  - unfold call_value. cbn [code].
    destruct (truthy fail) eqn:Hf.
    + rewrite token_body_fail by done. unfold log. cbn. rewrite <- !app_assoc.
      apply (Hok _ None _ (token_failure success fail Hf)).
    + destruct (subscript success "Entity") as [v|e] eqn:Hv.
      * rewrite (token_body_capture _ _ v) by done. cbn. rewrite <- !app_assoc.
        apply (Hok _ (Some v) _ (token_capture success fail v Hf Hv)).
      * rewrite (token_body_raise _ _ e) by done.
        destruct guarded; unfold log; cbn; rewrite <- !app_assoc.
        -- apply (Hok _ None _ (token_swallowed success fail e Hf Hv)).
        -- by apply Hcbraise.
Qed.

End Stepping.

Lemma holds_try {B} (P : Result B → State → Prop) body x handler
    (k : unit → M B) (s : State) :
  holds (λ r s', match r with
                 | Ok _ => holds P (k tt) s'
                 | Raise e =>
                     if is_PlayFabException e
                     then holds P (bind (gwrite x (VExc e) ;;
                                         finally handler (gwrite x VNone ;; gdelete x)) k) s'
                     else P (Raise e) s'
                 end) body s →
  holds P (bind (try_except_PlayFabException body x handler) k) s.
Proof.
  unfold holds, bind, try_except_PlayFabException.
  destruct (body s) as [[[]|e] s']; cbn; [done|].
  by destruct (is_PlayFabException e).
Qed.

(** A [finally] clause: the cleanup runs after the body, and what the body
    raised is raised again unless the cleanup raises itself. *)
Lemma holds_finally {A B} (P : Result B → State → Prop) (m : M A) (cleanup : M unit)
    (k : A → M B) (s : State) :
  holds (λ r s', match r with
                 | Ok a => holds P (bind cleanup (λ _, k a)) s'
                 | Raise e =>
                     holds (λ r' s'', P (match r' with
                                         | Ok _ => Raise e
                                         | Raise e' => Raise e'
                                         end) s'') cleanup s'
                 end) m s →
  holds P (bind (finally m cleanup) k) s.
Proof.
  unfold holds, bind, finally.
  destruct (m s) as [[a|e] s']; cbn; by destruct (cleanup s') as [[[]|e'] s''].
Qed.

Lemma capture_lookup_ne (cap : option Val) (g : gmap string Val) (x : string) :
  x ≠ "EntityKey" → capture cap g !! x = g !! x.
Proof. intros Hx. destruct cap; cbn; [by rewrite lookup_insert_ne|done]. Qed.

Lemma capture_lookup_eq (cap : option Val) (g : gmap string Val) :
  capture cap g !! "EntityKey" = entity_after (g !! "EntityKey") cap.
Proof. destruct cap; cbn; [by rewrite lookup_insert_eq|done]. Qed.

Lemma RunShape_eq edit (ik : option Val) (r : Result unit) (tr tr' : list Event) :
  RunShape edit ik r tr' → tr = tr' → RunShape edit ik r tr.
Proof. by intros H ->. Qed.

Lemma left_once edit (x : string) (st : State) : left_by edit x (edit st x ∅).
Proof. left. by exists st. Qed.

Lemma left_twice edit (x : string) (st st' : State) :
  left_by edit x (edit st' x (edit st x ∅)).
Proof. right. by exists st, st'. Qed.

Ltac solve_lookup :=
  cbn [globals settings];
  repeat first
    [ rewrite lookup_insert_eq
    | rewrite lookup_insert_ne by done
    | rewrite lookup_delete_ne by done
    | rewrite capture_lookup_ne by done
    | rewrite lookup_handed_back_other by reflexivity ];
  reflexivity.

(** The lookup of [EntityKey] after the token call, given what it is bound
    to by then. *)
Ltac solve_key_lookup Hkey :=
  cbn [globals settings];
  repeat first
    [ rewrite lookup_insert_ne by done
    | rewrite lookup_delete_ne by done
    | rewrite lookup_handed_back_other by reflexivity
    | rewrite capture_lookup_eq ];
  exact Hkey.

(** The lookup of a passed name that was bound to a dictionary before vendor
    code ran. *)
Ltac solve_lookup_dict :=
  cbn [globals settings];
  repeat first
    [ rewrite lookup_insert_ne by done
    | rewrite lookup_delete_ne by done ];
  repeat (apply lookup_handed_back_dict; [reflexivity|];
          repeat first
            [ rewrite lookup_insert_ne by done
            | rewrite lookup_delete_ne by done
            | rewrite capture_lookup_ne by done ]);
  solve_lookup.

Ltac step :=
  lazymatch goal with
  | |- holds _ (bind (bind _ _) _) _ => apply holds_assoc
  | |- holds _ (bind (gwrite _ _) _) _ => apply holds_gwrite
  | |- holds _ (bind (gread _) _) _ => eapply holds_gread; [solve_lookup|]
  | |- holds _ (bind (set_item _ _ _) _) _ => eapply holds_set_item; [solve_lookup|]
  | |- holds _ (bind (settings_read _) _) _ => eapply holds_settings_read; [solve_lookup|]
  | |- holds _ (bind (settings_write _ _) _) _ => apply holds_settings_write
  | |- holds _ (bind (print _) _) _ => apply holds_print
  | |- holds _ (bind (gdelete _) _) _ => eapply holds_gdelete; [solve_lookup|]
  end; cbn [globals settings trace].

Ltac flatten_trace :=
  unfold seg_login, seg_config, seg_token, seg_objects, seg_objects2, seg_title,
    seg_caught, seg_title2, request_dict, token_request_left;
  rewrite <- ?app_assoc; cbn [app]; reflexivity.

Ltac shape c := cbn [trace]; eapply RunShape_eq; [c | flatten_trace].

Section Shape.

Variable test_settings : gmap string Val.
Variable vendor : Api → State → Val → ApiOutcome.
Variable edit : State → string → gmap string Val → gmap string Val.
Variable exception_logger : State → Val → option PyExc.
Variables imported vendor_settings : gmap string Val.

Abbreviation the_run :=
  (run test_settings vendor edit exception_logger imported vendor_settings).

Lemma tail_shape (s : State) (left : gmap string Val) :
  after_title edit (imported !! "EntityKey") (trace s) →
  left_by edit "titleDataRequest" left →
  globals s !! "titleDataRequest" = Some (VDict left) →
  globals s !! "titleDataReqCallback" = Some (VFun TitleDataReqCallback) →
  holds (λ r s', RunShape edit (imported !! "EntityKey") r (trace s'))
        (line71 test_settings ;; line73 ;; line74 vendor edit ;; ret tt) s.
Proof.
  intros Htitle Hleft Hreq Hcb.
  unfold line71, line73, line74.
  step. apply holds_test_settings_read; cbn [globals settings trace].
  { intros _. shape ltac:(eapply run_no_secret_key; exact Htitle). }
  intros key _. do 3 step.
  eapply holds_gread; [by cbn; rewrite lookup_insert_ne by done|].
  cbn [globals settings trace]. step.
  eapply holds_gread; [by cbn; rewrite lookup_insert_ne by done|].
  cbn [globals settings trace].
  apply holds_api_plain; [done| |]; cbn [globals settings trace].
  { intros e st. shape ltac:(eapply run_title2_raises; [exact Htitle|exact Hleft]). }
  intros d6 st Hd6. apply holds_ret.
  shape ltac:(eapply run_complete; [exact Htitle|exact Hleft|exact Hd6]).
Qed.

Lemma after_title_eq (tr tr' : list Event) :
  after_title edit (imported !! "EntityKey") tr' → tr = tr' →
  after_title edit (imported !! "EntityKey") tr.
Proof. by intros H ->. Qed.

Lemma run_shape : RunShape edit (imported !! "EntityKey") the_run.1 (trace the_run.2).
Proof.
  change (holds (λ r s, RunShape edit (imported !! "EntityKey") r (trace s))
                (run_module (toplevel test_settings vendor edit exception_logger))
                (mkState imported vendor_settings [])).
  unfold toplevel. cbn [run_module].
  unfold line14, line15, line17, line19, line20, line21, line22, line24, line30.
  step. apply holds_test_settings_read; cbn [globals settings trace].
  { intros _. apply run_no_title_id. }
  intros tid _. step.
  step. apply holds_test_settings_read; cbn [globals settings trace].
  { intros _. apply run_no_custom_id. }
  intros cid _. repeat step.
  apply holds_api_plain; [done| |]; cbn [globals settings trace].
  { intros e st. shape ltac:(eapply run_login_raises). }
  intros d1 st1 Hd1.
  assert (Hlogin : after_login (seg_login tid cid ++ d1)) by by constructor.
  unfold line32, line40, line41. repeat step.
  apply holds_api_token; cbn [globals settings trace].
  { intros e st. shape ltac:(eapply run_token_raises; exact Hlogin). }
  { intros success fail e st Hf Hv.
    shape ltac:(eapply run_token_callback_raises; [exact Hlogin|exact Hf|exact Hv]). }
  intros d2 cap st2 Hd2.
  pose proof (AfterToken (imported !! "EntityKey") _ _ _ Hlogin Hd2) as Htoken.
  unfold line43, line50, line51. do 3 step.
  apply (holds_gread _ _ (token_request_left edit st2)); [solve_lookup_dict|].
  cbn [globals settings trace]. repeat step.
  apply holds_api_plain; [done| |]; cbn [globals settings trace].
  { intros e st. shape ltac:(eapply run_objects_raises; exact Htoken). }
  intros d3 st3 Hd3.
  pose proof (AfterObjects edit _ _ _ st2 _ Htoken Hd3) as Hobjects.
  unfold line53. apply holds_assoc.
  destruct (entity_after (imported !! "EntityKey") cap) as [v|] eqn:Hkey.
  2:{ apply holds_gread_unbound; cbn [globals settings trace].
      - solve_key_lookup Hkey.
      - shape ltac:(eapply run_entity_key_unbound; exact Hobjects). }
  apply (holds_gread _ _ v); cbn [globals settings trace].
  { solve_key_lookup Hkey. }
  unfold line56. repeat step.
  apply holds_api_plain; [done| |]; cbn [globals settings trace].
  { intros e st. shape ltac:(eapply run_objects2_raises; exact Hobjects). }
  intros d4 st4 Hd4.
  pose proof (AfterObjects2 edit _ _ _ _ Hobjects Hd4) as Hobjects2.
  unfold line58, line64. step.
  apply holds_try. repeat step. apply holds_tail.
  apply holds_api_plain; [done| |]; cbn [globals settings trace].
  { intros e st5. destruct (is_PlayFabException e) eqn:He.
    - do 2 step. apply holds_finally. do 2 step. apply holds_tail.
      apply holds_settings_call; cbn [globals settings trace].
      + intros e' stl. cbn beta iota. step. apply holds_tail. step.
        apply holds_ret. cbn beta iota.
        shape ltac:(eapply run_logger_raises; [exact Hobjects2|exact He]).
      + intros stl. apply holds_ret. cbn beta iota. do 3 step.
        pose proof (AfterTitle edit _ _ _ Hobjects2 (title_caught e He)) as Htitle.
        apply (tail_shape _ (edit stl "titleDataRequest" (edit st5 "titleDataRequest" ∅)));
          cbn [globals settings trace].
        * eapply after_title_eq; [exact Htitle|flatten_trace].
        * apply left_twice.
        * solve_lookup_dict.
        * solve_lookup.
    - shape ltac:(eapply run_title_raises; [exact Hobjects2|exact He]). }
  intros d5 st5 Hd5. apply holds_ret.
  pose proof (AfterTitle edit _ _ _ Hobjects2 (title_plain d5 Hd5)) as Htitle.
  apply (tail_shape _ (edit st5 "titleDataRequest" ∅)); cbn [globals settings trace].
  - eapply after_title_eq; [exact Htitle|flatten_trace].
  - apply left_once.
  - solve_lookup_dict.
  - solve_lookup.
Qed.

End Shape.


(** * The skeleton of a run *)

Lemma skeleton_app (tr1 tr2 : list Event) :
  skeleton (tr1 ++ tr2) = skeleton tr1 ++ skeleton tr2.
Proof. apply omap_app. Qed.

Lemma skeleton_plain_reply (cb : Callback) (d : list Event) :
  plain_reply cb d → skeleton d = [].
Proof. by destruct 1. Qed.

Lemma skeleton_token_reply (d : list Event) (cap : option Val) :
  token_reply d cap → skeleton d = [].
Proof. by destruct 1. Qed.

Lemma skeleton_title_reply (d : list Event) : title_reply d → skeleton d = [].
Proof. destruct 1 as [d Hd|e He]; [by destruct Hd | done]. Qed.

Lemma skeleton_after_login (tr : list Event) :
  after_login tr → skeleton tr = take 15 script_skeleton.
Proof.
  destruct 1 as [tid cid d Hd].
  by rewrite skeleton_app, (skeleton_plain_reply _ _ Hd).
Qed.

Lemma skeleton_after_token ik key (tr : list Event) :
  after_token ik key tr → skeleton tr = take 20 script_skeleton.
Proof.
  destruct 1 as [tr d cap Htr Hd].
  by rewrite !skeleton_app, (skeleton_after_login _ Htr), (skeleton_token_reply _ _ Hd).
Qed.

Lemma skeleton_after_objects {edit} ik key (tr : list Event) :
  after_objects edit ik key tr → skeleton tr = take 25 script_skeleton.
Proof.
  destruct 1 as [key tr st3 d Htr Hd].
  by rewrite !skeleton_app, (skeleton_after_token _ _ _ Htr), (skeleton_plain_reply _ _ Hd).
Qed.

Lemma skeleton_after_objects2 {edit} ik (tr : list Event) :
  after_objects2 edit ik tr → skeleton tr = take 30 script_skeleton.
Proof.
  destruct 1 as [v tr d Htr Hd].
  by rewrite !skeleton_app, (skeleton_after_objects _ _ _ Htr), (skeleton_plain_reply _ _ Hd).
Qed.

Lemma skeleton_after_title {edit} ik (tr : list Event) :
  after_title edit ik tr → skeleton tr = take 35 script_skeleton.
Proof.
  destruct 1 as [tr d Htr Hd].
  by rewrite !skeleton_app, (skeleton_after_objects2 _ _ Htr), (skeleton_title_reply _ Hd).
Qed.

Lemma skeleton_run {edit} ik (r : Result unit) (tr : list Event) :
  RunShape edit ik r tr →
  ∃ n, n ∈ stops ∧ skeleton tr = take n script_skeleton ∧ (r = Ok tt → n = 41).
Proof.
  unfold stops.
  destruct 1 as [|tid|tid cid e|tr e Htr|tr su fa e Htr Hf Hv|key tr st3 e Htr|tr Htr
                 |v tr e Htr|tr e Htr He|tr e e' Htr He|tr Htr
                 |key tr left e Htr Hleft|key tr left d Htr Hleft Hd];
    rewrite ?skeleton_app;
    rewrite ?(skeleton_after_login _ Htr), ?(skeleton_after_token _ _ _ Htr),
      ?(skeleton_after_objects _ _ _ Htr), ?(skeleton_after_objects2 _ _ Htr),
      ?(skeleton_after_title _ _ Htr).
  - exists 1. split_and!; [set_solver|done|done].
  - exists 3. split_and!; [set_solver|done|done].
  - exists 15. split_and!; [set_solver|done|done].
  - exists 20. split_and!; [set_solver|done|done].
  - exists 20. split_and!; [set_solver|done|done].
  - exists 25. split_and!; [set_solver|done|done].
  - exists 26. split_and!; [set_solver|done|done].
  - exists 30. split_and!; [set_solver|done|done].
  - exists 35. split_and!; [set_solver|done|done].
  - exists 35. split_and!; [set_solver|done|done].
  - exists 36. split_and!; [set_solver|done|done].
  - exists 41. split_and!; [set_solver|done|done].
  - exists 41. rewrite (skeleton_plain_reply _ _ Hd). split_and!; [set_solver|done|done].
Qed.

Lemma omap_compose {A B C} (f : A → option B) (g' : B → option C) (g : A → option C)
    (l : list A) :
  (∀ a, g a = f a ≫= g') → omap g l = omap g' (omap f l).
Proof.
  intros Hg. induction l as [|a l IH]; [done|]. cbn.
  rewrite Hg, IH. by destruct (f a).
Qed.

Lemma omap_factor {X} (g : Event → option X) (g' : Label → option X) (tr : list Event) :
  (∀ ev, g ev = label ev ≫= g') → omap g tr = omap g' (skeleton tr).
Proof. apply omap_compose. Qed.

Lemma steps_skeleton (tr : list Event) : steps tr = omap step_of_label (skeleton tr).
Proof.
  apply omap_factor. intros [x|x v| | | | | | | | |]; try done; cbn.
  - by destruct (String.eqb x "e").
  - destruct (String.eqb_spec x "EntityKey") as [->|]; [done|].
    by destruct (String.eqb_spec x "e") as [->|].
Qed.

Ltac by_decide :=
  lazymatch goal with
  | |- ?P => apply (bool_decide_unpack P); vm_compute; exact I
  end.

Ltac stop_cases Hn :=
  unfold stops in Hn;
  repeat (apply elem_of_cons in Hn as [->|Hn]);
  [..|by apply elem_of_nil in Hn].

(** C6 (as amended): in every run the configuration assignments, dictionary
    constructions and API calls occur in the order of [script_steps]: the
    title identifier is assigned before every call, the developer secret key
    after the first five calls and before the sixth, and each dictionary is
    built just before the call that follows it; a run that completes performs
    all of them. *)
Theorem C6_order_of_configuration_and_calls
    (test_settings : gmap string Val) (vendor : Api → State → Val → ApiOutcome)
    (edit : State → string → gmap string Val → gmap string Val)
    (exception_logger : State → Val → option PyExc)
    (imported vendor_settings : gmap string Val) :
  let out := run test_settings vendor edit exception_logger imported vendor_settings in
  steps (trace out.2) `prefix_of` script_steps ∧
  (out.1 = Ok tt → steps (trace out.2) = script_steps).
Proof.
  intros out.
  destruct (skeleton_run _ _ _
              (run_shape test_settings vendor edit exception_logger imported vendor_settings))
    as (n & Hn & Hsk & Hok).
  fold out in Hsk, Hok. rewrite steps_skeleton, Hsk.
  stop_cases Hn; (split; [by eexists | by intros ?%Hok]).
Qed.

(** C6 (as stated) fails on the sample run: the developer secret key is
    assigned at position 52 of the trace, long after the login call at
    position 14. *)
Lemma C6_secret_key_assigned_after_calls : ¬ config_precedes_calls (trace demo_run.2).
Proof.
  intros H.
  assert (52 < 14); [|lia].
  apply (H 52 14 "DeveloperSecretKey" (VStr "secret") ClientAPI_LoginWithCustomID
           (VDict (request_dict (VStr "6195") (VStr "tester"))) (VFun LoginCallback));
    vm_compute; reflexivity.
Qed.

(** Each dictionary of the module is built at most once in a run, under a
    name of its own: this is what lets the entry of that name in the
    namespace stand for the object (see [Val]). *)
Lemma dictionaries_built_once
    (test_settings : gmap string Val) (vendor : Api → State → Val → ApiOutcome)
    (edit : State → string → gmap string Val → gmap string Val)
    (exception_logger : State → Val → option PyExc)
    (imported vendor_settings : gmap string Val) :
  let out := run test_settings vendor edit exception_logger imported vendor_settings in
  Forall (λ x, (List.length (filter (λ st, st = Build x) (steps (trace out.2))) ≤ 1)%nat)
         request_names.
Proof.
  intros out.
  destruct (skeleton_run _ _ _
              (run_shape test_settings vendor edit exception_logger imported
                 vendor_settings))
    as (n & Hn & Hsk & _).
  fold out in Hsk. rewrite steps_skeleton, Hsk.
  stop_cases Hn; by_decide.
Qed.

(** * Views that ignore the plain callbacks *)

Section View.

Context {X : Type} (f : Event → option X).
Hypothesis f_callback :
  ∀ cb success fail, cb ≠ EntityTokenCallback → f (EvCallback cb success fail) = None.
Hypothesis f_print : ∀ v, f (EvPrint v) = None.

Variable edit : State → string → gmap string Val → gmap string Val.

Lemma view_plain_reply (cb : Callback) (d : list Event) :
  cb ≠ EntityTokenCallback → plain_reply cb d → omap f d = [].
Proof. intros Hcb [|success fail]; [done|]. cbn. by rewrite f_callback, f_print. Qed.

Lemma view_after_login (tr : list Event) :
  after_login tr → ∃ tid cid, omap f tr = omap f (seg_login tid cid).
Proof.
  destruct 1 as [tid cid d Hd]. exists tid, cid.
  by rewrite omap_app, (view_plain_reply LoginCallback _ ltac:(done) Hd), app_nil_r.
Qed.

Lemma view_after_token ik key (tr : list Event) :
  after_token ik key tr →
  ∃ tid cid d cap,
    token_reply d cap ∧ key = entity_after ik cap ∧
    omap f tr = omap f (upto_token tid cid d).
Proof.
  destruct 1 as [tr d cap Htr Hd].
  destruct (view_after_login _ Htr) as (tid & cid & Heq).
  exists tid, cid, d, cap. split_and!; [done..|].
  unfold upto_token. by rewrite !omap_app, Heq.
Qed.

Lemma view_after_objects ik key (tr : list Event) :
  after_objects edit ik key tr →
  ∃ tid cid d cap st,
    token_reply d cap ∧ key = entity_after ik cap ∧
    omap f tr = omap f (upto_objects tid cid d (token_request_left edit st)).
Proof.
  destruct 1 as [key tr st d3 Htr Hd3].
  destruct (view_after_token _ _ _ Htr) as (tid & cid & d & cap & Hd & Hkey & Heq).
  exists tid, cid, d, cap, st. split_and!; [done..|].
  unfold upto_objects.
  by rewrite !omap_app, Heq, (view_plain_reply EntityObjectCallback _ ltac:(done) Hd3), app_nil_r.
Qed.

Lemma view_after_objects2 ik (tr : list Event) :
  after_objects2 edit ik tr →
  ∃ tid cid d cap st v,
    token_reply d cap ∧ entity_after ik cap = Some v ∧
    omap f tr = omap f (upto_objects2 tid cid d (token_request_left edit st) v).
Proof.
  destruct 1 as [v tr d4 Htr Hd4].
  destruct (view_after_objects _ _ _ Htr) as (tid & cid & d & cap & st & Hd & Hkey & Heq).
  exists tid, cid, d, cap, st, v. split_and!; [done..|].
  unfold upto_objects2.
  by rewrite !omap_app, Heq, (view_plain_reply EntityObjectCallback _ ltac:(done) Hd4), app_nil_r.
Qed.

Lemma view_after_title ik (tr : list Event) :
  after_title edit ik tr →
  ∃ tid cid d cap st v d',
    token_reply d cap ∧ entity_after ik cap = Some v ∧ title_reply d' ∧
    omap f tr = omap f (upto_title tid cid d (token_request_left edit st) v d').
Proof.
  destruct 1 as [tr d5 Htr Hd5].
  destruct (view_after_objects2 _ _ Htr)
    as (tid & cid & d & cap & st & v & Hd & Hkey & Heq).
  exists tid, cid, d, cap, st, v, d5. split_and!; [done..|].
  unfold upto_title. by rewrite !omap_app, Heq.
Qed.

End View.

(** * The settings object *)

Lemma settings_token_reply (d : list Event) (cap : option Val) :
  token_reply d cap → omap settings_access d = [].
Proof. by destruct 1. Qed.

Lemma settings_title_reply (d : list Event) :
  title_reply d →
  omap settings_access d = [] ∨
  omap settings_access d = [(Invokes, "GlobalExceptionLogger")].
Proof.
  destruct 1 as [d Hd|e He]; [left|by right].
  exact (view_plain_reply settings_access ltac:(done) ltac:(done)
           TitleDataReqCallback d ltac:(done) Hd).
Qed.

Ltac settings_view Heq Hd :=
  unfold settings_accesses in *; rewrite ?omap_app, ?Heq;
  unfold upto_title, upto_objects2, upto_objects, upto_token;
  rewrite ?omap_app, ?(settings_token_reply _ _ Hd); cbn.

Lemma settings_run {edit} ik (r : Result unit) (tr : list Event) :
  RunShape edit ik r tr →
  ∃ caught, settings_accesses tr `prefix_of` script_settings_accesses caught.
Proof.
  destruct 1 as [|tid|tid cid e|tr e Htr|tr su fa e Htr Hf Hv|key tr st3 e Htr|tr Htr
                 |v tr e Htr|tr e Htr He|tr e e' Htr He|tr Htr
                 |key tr left e Htr Hleft|key tr left d6 Htr Hleft Hd6].
  - exists false. by eexists.
  - exists false. by eexists.
  - exists false. by eexists.
  - destruct (view_after_login settings_access ltac:(done) ltac:(done) _ Htr)
      as (tid & cid & Heq).
    exists false. settings_view Heq Htr. by eexists.
  - destruct (view_after_login settings_access ltac:(done) ltac:(done) _ Htr)
      as (tid & cid & Heq).
    exists false. settings_view Heq Htr. by eexists.
  - destruct (view_after_token settings_access ltac:(done) ltac:(done) _ _ _ Htr)
      as (tid & cid & d & cap & Hd & _ & Heq).
    exists false. settings_view Heq Hd. by eexists.
  - destruct (view_after_objects settings_access ltac:(done) ltac:(done) _ _ _ _ Htr)
      as (tid & cid & d & cap & st & Hd & _ & Heq).
    exists false. settings_view Heq Hd. by eexists.
  - destruct (view_after_objects settings_access ltac:(done) ltac:(done) _ _ _ _ Htr)
      as (tid & cid & d & cap & st & Hd & _ & Heq).
    exists false. settings_view Heq Hd. by eexists.
  - destruct (view_after_objects2 settings_access ltac:(done) ltac:(done) _ _ _ Htr)
      as (tid & cid & d & cap & st & v & Hd & _ & Heq).
    exists false. settings_view Heq Hd. by eexists.
  - destruct (view_after_objects2 settings_access ltac:(done) ltac:(done) _ _ _ Htr)
      as (tid & cid & d & cap & st & v & Hd & _ & Heq).
    exists true. settings_view Heq Hd. by eexists.
  - destruct (view_after_title settings_access ltac:(done) ltac:(done) _ _ _ Htr)
      as (tid & cid & d & cap & st & v & d' & Hd & _ & Hd' & Heq).
    destruct (settings_title_reply _ Hd') as [Hs|Hs]; [exists false|exists true];
      settings_view Heq Hd; rewrite Hs; by eexists.
  - destruct (view_after_title settings_access ltac:(done) ltac:(done) _ _ _ Htr)
      as (tid & cid & d & cap & st & v & d' & Hd & _ & Hd' & Heq).
    destruct (settings_title_reply _ Hd') as [Hs|Hs]; [exists false|exists true];
      settings_view Heq Hd; rewrite Hs; by eexists.
  - destruct (view_after_title settings_access ltac:(done) ltac:(done) _ _ _ Htr)
      as (tid & cid & d & cap & st & v & d' & Hd & _ & Hd' & Heq).
    rewrite app_assoc.
    destruct (settings_title_reply _ Hd') as [Hs|Hs]; [exists false|exists true];
      settings_view Heq Hd; rewrite Hs;
      rewrite (view_plain_reply settings_access ltac:(done) ltac:(done)
                 TitleDataReqCallback _ ltac:(done) Hd6); by eexists.
Qed.

(** C7: in every run the accesses to [PlayFabSettings] are an initial part of
    [script_settings_accesses]: [TitleId] is written (and read back once, at
    line 21), [GlobalExceptionLogger] is invoked when the handler runs, and
    [DeveloperSecretKey] is written; no other field is read, written or
    invoked. *)
Theorem C7_settings_surface
    (test_settings : gmap string Val) (vendor : Api → State → Val → ApiOutcome)
    (edit : State → string → gmap string Val → gmap string Val)
    (exception_logger : State → Val → option PyExc)
    (imported vendor_settings : gmap string Val) :
  let out := run test_settings vendor edit exception_logger imported vendor_settings in
  (∃ caught, settings_accesses (trace out.2) `prefix_of` script_settings_accesses caught) ∧
  Forall (λ a, a ∈ [ (Writes, "TitleId"); (Reads, "TitleId");
                     (Writes, "DeveloperSecretKey");
                     (Invokes, "GlobalExceptionLogger") ])
         (settings_accesses (trace out.2)).
Proof.
  intros out.
  destruct (settings_run _ _ _
              (run_shape test_settings vendor edit exception_logger imported vendor_settings))
    as (caught & k & Hk).
  fold out in Hk. split; [by exists caught, k|].
  apply Forall_forall. intros a Ha.
  assert (a ∈ script_settings_accesses caught) as Hin
    by (rewrite Hk; apply elem_of_app; by left).
  destruct caught; cbn in Hin;
    repeat (apply elem_of_cons in Hin as [->|Hin]); try by_decide;
    by apply elem_of_nil in Hin.
Qed.

(** * The names read for the calls *)

Lemma uses_token_reply (d : list Event) (cap : option Val) :
  token_reply d cap → omap use_of d = [].
Proof. by destruct 1. Qed.

Lemma uses_title_reply (d : list Event) :
  title_reply d → omap use_of d = [] ∨ omap use_of d = [Name "e"].
Proof.
  destruct 1 as [d Hd|e He]; [left|by right].
  exact (view_plain_reply use_of ltac:(done) ltac:(done)
           TitleDataReqCallback d ltac:(done) Hd).
Qed.

Ltac uses_view Heq Hd :=
  unfold uses in *; rewrite ?omap_app, ?Heq;
  unfold upto_title, upto_objects2, upto_objects, upto_token;
  rewrite ?omap_app, ?(uses_token_reply _ _ Hd); cbn.

Lemma uses_run {edit} ik (r : Result unit) (tr : list Event) :
  RunShape edit ik r tr →
  ∃ caught,
    uses tr `prefix_of` script_uses caught ∧
    (r = Ok tt → uses tr = script_uses caught).
Proof.
  destruct 1 as [|tid|tid cid e|tr e Htr|tr su fa e Htr Hf Hv|key tr st3 e Htr|tr Htr
                 |v tr e Htr|tr e Htr He|tr e e' Htr He|tr Htr
                 |key tr left e Htr Hleft|key tr left d6 Htr Hleft Hd6].
  - exists false. split; [by eexists|done].
  - exists false. split; [by eexists|done].
  - exists false. split; [by eexists|done].
  - destruct (view_after_login use_of ltac:(done) ltac:(done) _ Htr)
      as (tid & cid & Heq).
    exists false. split; [|done]. uses_view Heq Htr. by eexists.
  - destruct (view_after_login use_of ltac:(done) ltac:(done) _ Htr)
      as (tid & cid & Heq).
    exists false. split; [|done]. uses_view Heq Htr. by eexists.
  - destruct (view_after_token use_of ltac:(done) ltac:(done) _ _ _ Htr)
      as (tid & cid & d & cap & Hd & _ & Heq).
    exists false. split; [|done]. uses_view Heq Hd. by eexists.
  - destruct (view_after_objects use_of ltac:(done) ltac:(done) _ _ _ _ Htr)
      as (tid & cid & d & cap & st & Hd & _ & Heq).
    exists false. split; [|done]. uses_view Heq Hd. by eexists.
  - destruct (view_after_objects use_of ltac:(done) ltac:(done) _ _ _ _ Htr)
      as (tid & cid & d & cap & st & Hd & _ & Heq).
    exists false. split; [|done]. uses_view Heq Hd. by eexists.
  - destruct (view_after_objects2 use_of ltac:(done) ltac:(done) _ _ _ Htr)
      as (tid & cid & d & cap & st & v & Hd & _ & Heq).
    exists false. split; [|done]. uses_view Heq Hd. by eexists.
  - destruct (view_after_objects2 use_of ltac:(done) ltac:(done) _ _ _ Htr)
      as (tid & cid & d & cap & st & v & Hd & _ & Heq).
    exists true. split; [|done]. uses_view Heq Hd. by eexists.
  - destruct (view_after_title use_of ltac:(done) ltac:(done) _ _ _ Htr)
      as (tid & cid & d & cap & st & v & d' & Hd & _ & Hd' & Heq).
    destruct (uses_title_reply _ Hd') as [Hs|Hs]; [exists false|exists true];
      (split; [|done]); uses_view Heq Hd; rewrite Hs; by eexists.
  - destruct (view_after_title use_of ltac:(done) ltac:(done) _ _ _ Htr)
      as (tid & cid & d & cap & st & v & d' & Hd & _ & Hd' & Heq).
    destruct (uses_title_reply _ Hd') as [Hs|Hs]; [exists false|exists true];
      (split; [|done]); uses_view Heq Hd; rewrite Hs; by eexists.
  - destruct (view_after_title use_of ltac:(done) ltac:(done) _ _ _ Htr)
      as (tid & cid & d & cap & st & v & d' & Hd & _ & Hd' & Heq).
    rewrite app_assoc.
    destruct (uses_title_reply _ Hd') as [Hs|Hs]; [exists false|exists true];
      uses_view Heq Hd; rewrite Hs;
      rewrite (view_plain_reply use_of ltac:(done) ltac:(done)
                 TitleDataReqCallback _ ltac:(done) Hd6);
      (split; [by exists []|done]).
Qed.

(** C8: the names read for each call are those of [script_uses]: the first
    call of [GetObjects] reads [etRequest] and the last call of
    [GetTitleData] reads [titleDataRequest]; [eoRequest] and
    [titleDataRequest2] are never read, so the dictionaries bound to them
    are passed to no call, although a run that completes has built both.
    (The one read that depends on the run is that of [e], by the handler of
    line 67.) *)
Theorem C8_two_requests_never_passed
    (test_settings : gmap string Val) (vendor : Api → State → Val → ApiOutcome)
    (edit : State → string → gmap string Val → gmap string Val)
    (exception_logger : State → Val → option PyExc)
    (imported vendor_settings : gmap string Val) :
  let out := run test_settings vendor edit exception_logger imported vendor_settings in
  ∃ caught,
    uses (trace out.2) `prefix_of` script_uses caught ∧
    (Name "eoRequest" ∉ uses (trace out.2)) ∧
    (Name "titleDataRequest2" ∉ uses (trace out.2)) ∧
    (out.1 = Ok tt →
     uses (trace out.2) = script_uses caught ∧
     Build "eoRequest" ∈ steps (trace out.2) ∧
     Build "titleDataRequest2" ∈ steps (trace out.2)).
Proof.
  intros out.
  destruct (uses_run _ _ _
              (run_shape test_settings vendor edit exception_logger imported
                 vendor_settings))
    as (caught & Hpre & Hall).
  destruct (skeleton_run _ _ _
              (run_shape test_settings vendor edit exception_logger imported
                 vendor_settings))
    as (n & Hn & Hsk & Hok).
  fold out in Hpre, Hall, Hsk, Hok. exists caught.
  assert (∀ u, u ∉ script_uses caught → u ∉ uses (trace out.2)) as Hnot.
  { intros u Hu Hin. destruct Hpre as [k Hk]. apply Hu. rewrite Hk.
    apply elem_of_app. by left. }
  split_and!; [done| | |].
  - apply Hnot. destruct caught; by_decide.
  - apply Hnot. destruct caught; by_decide.
  - intros Hr. split; [by apply Hall|].
    rewrite steps_skeleton, Hsk, (Hok Hr). split; by_decide.
Qed.

(** * The flow of the entity key *)

Lemma flow_token_reply (d : list Event) (cap : option Val) :
  token_reply d cap → token_flow (omap flow_of d) cap.
Proof. destruct 1; cbn; by econstructor. Qed.

Lemma flow_title_reply (d : list Event) : title_reply d → omap flow_of d = [].
Proof.
  destruct 1 as [d Hd|e He]; [|done].
  refine (view_plain_reply flow_of _ ltac:(done) TitleDataReqCallback d ltac:(done) Hd).
  by intros [].
Qed.

Lemma flow_of_callback (cb : Callback) (success fail : Val) :
  cb ≠ EntityTokenCallback → flow_of (EvCallback cb success fail) = None.
Proof. by destruct cb. Qed.

Lemma called_skeleton (tr : list Event) :
  called tr = omap (λ l, match l with LCall api => Some api | _ => None end) (skeleton tr).
Proof.
  apply omap_factor. intros [x|x v| | | | | | | | |]; try done; cbn.
  - by destruct (String.eqb x "e").
  - by destruct (String.eqb x "EntityKey" || String.eqb x "e").
Qed.

Ltac flow_view Heq :=
  unfold flow; rewrite ?omap_app, ?Heq;
  unfold upto_title, upto_objects2, upto_objects, upto_token;
  rewrite ?omap_app; cbn; rewrite <- ?app_assoc, ?app_nil_r; cbn.

Lemma flow_run {edit} ik (r : Result unit) (tr : list Event) :
  RunShape edit ik r tr →
  ∃ tok cap rest,
    flow tr = tok ++ rest ∧ token_flow tok cap ∧
    objects_flow cap (entity_after ik cap) r (called tr) rest.
Proof.
  destruct 1 as [|tid|tid cid e|tr e Htr|tr su fa e Htr Hf Hv|key tr st3 e Htr|tr Htr
                 |v tr e Htr|tr e Htr He|tr e e' Htr He|tr Htr
                 |key tr left e Htr Hleft|key tr left d6 Htr Hleft Hd6].
  - exists [], None, []. split_and!; [done|constructor|by constructor].
  - exists [], None, []. split_and!; [done|constructor|by constructor].
  - exists [], None, []. split_and!; [done|constructor|by constructor].
  - destruct (view_after_login flow_of flow_of_callback ltac:(done) _ Htr)
      as (tid & cid & Heq).
    exists [], None, []. split_and!; [by flow_view Heq|constructor|by constructor].
  - destruct (view_after_login flow_of flow_of_callback ltac:(done) _ Htr)
      as (tid & cid & Heq).
    exists [TokenCalled su fa], None, [].
    split_and!; [by flow_view Heq|by econstructor|by constructor].
  - destruct (view_after_token flow_of flow_of_callback ltac:(done) _ _ _ Htr)
      as (tid & cid & d & cap & Hd & Hkey & Heq).
    exists (omap flow_of d), cap, [ObjectsCalled (token_request_left edit st3)].
    split_and!; [by flow_view Heq|by apply flow_token_reply|].
    econstructor; [done|].
    by rewrite called_skeleton, !skeleton_app, (skeleton_after_token _ _ _ Htr).
  - destruct (view_after_objects flow_of flow_of_callback ltac:(done) _ _ _ _ Htr)
      as (tid & cid & d & cap & st & Hd & Hkey & Heq).
    exists (omap flow_of d), cap, [ObjectsCalled (token_request_left edit st); KeyRead].
    split_and!; [by flow_view Heq|by apply flow_token_reply|].
    constructor; [done..|].
    by rewrite called_skeleton, skeleton_app, (skeleton_after_objects _ _ _ Htr).
  - destruct (view_after_objects flow_of flow_of_callback ltac:(done) _ _ _ _ Htr)
      as (tid & cid & d & cap & st & Hd & Hkey & Heq).
    exists (omap flow_of d), cap,
      [ ObjectsCalled (token_request_left edit st); KeyRead; Built (VDict {["Entity" := v]});
        ObjectsCalled (VDict {["Entity" := v]}) ].
    split_and!; [by flow_view Heq|by apply flow_token_reply|by constructor].
  - destruct (view_after_objects2 flow_of flow_of_callback ltac:(done) _ _ _ Htr)
      as (tid & cid & d & cap & st & v & Hd & Hkey & Heq).
    exists (omap flow_of d), cap,
      [ ObjectsCalled (token_request_left edit st); KeyRead; Built (VDict {["Entity" := v]});
        ObjectsCalled (VDict {["Entity" := v]}) ].
    split_and!; [by flow_view Heq|by apply flow_token_reply|by constructor].
  - destruct (view_after_objects2 flow_of flow_of_callback ltac:(done) _ _ _ Htr)
      as (tid & cid & d & cap & st & v & Hd & Hkey & Heq).
    exists (omap flow_of d), cap,
      [ ObjectsCalled (token_request_left edit st); KeyRead; Built (VDict {["Entity" := v]});
        ObjectsCalled (VDict {["Entity" := v]}) ].
    split_and!; [by flow_view Heq|by apply flow_token_reply|by constructor].
  - destruct (view_after_title flow_of flow_of_callback ltac:(done) _ _ _ Htr)
      as (tid & cid & d & cap & st & v & d' & Hd & Hkey & Hd' & Heq).
    exists (omap flow_of d), cap,
      [ ObjectsCalled (token_request_left edit st); KeyRead; Built (VDict {["Entity" := v]});
        ObjectsCalled (VDict {["Entity" := v]}) ].
    split_and!; [|by apply flow_token_reply|by constructor].
    flow_view Heq. by rewrite (flow_title_reply _ Hd').
  - destruct (view_after_title flow_of flow_of_callback ltac:(done) _ _ _ Htr)
      as (tid & cid & d & cap & st & v & d' & Hd & Hkey & Hd' & Heq).
    exists (omap flow_of d), cap,
      [ ObjectsCalled (token_request_left edit st); KeyRead; Built (VDict {["Entity" := v]});
        ObjectsCalled (VDict {["Entity" := v]}) ].
    split_and!; [|by apply flow_token_reply|by constructor].
    flow_view Heq. by rewrite (flow_title_reply _ Hd').
  - destruct (view_after_title flow_of flow_of_callback ltac:(done) _ _ _ Htr)
      as (tid & cid & d & cap & st & v & d' & Hd & Hkey & Hd' & Heq).
    exists (omap flow_of d), cap,
      [ ObjectsCalled (token_request_left edit st); KeyRead; Built (VDict {["Entity" := v]});
        ObjectsCalled (VDict {["Entity" := v]}) ].
    split_and!; [|by apply flow_token_reply|by constructor].
    rewrite app_assoc. flow_view Heq. rewrite (flow_title_reply _ Hd').
    by rewrite (view_plain_reply flow_of flow_of_callback ltac:(done)
                  TitleDataReqCallback _ ltac:(done) Hd6), !app_nil_r.
Qed.

Lemma flow_of_inv (ev : Event) (x : Flow) :
  flow_of ev = Some x →
  match x with
  | TokenCalled success fail => ev = EvCallback EntityTokenCallback success fail
  | KeyWritten v => ev = EvGlobalWrite "EntityKey" v
  | KeyRead => ev = EvGlobalRead "EntityKey"
  | Built w => ev = EvGlobalWrite "eoRequest2" w
  | ObjectsCalled req => ∃ cb, ev = EvApiCall EntityAPI_GetObjects req cb
  end.
Proof.
  destruct ev as [y|y v| | | | | |api req cb| |cb su fa|]; cbn; try done.
  - destruct (String.eqb_spec y "EntityKey") as [->|]; [|done]. by intros [= <-].
  - destruct (String.eqb_spec y "EntityKey") as [->|]; [by intros [= <-]|].
    destruct (String.eqb_spec y "eoRequest2") as [->|]; [|done]. by intros [= <-].
  - destruct api; try done. intros [= <-]. by exists cb.
  - destruct cb; try done. by intros [= <-].
Qed.

Lemma elem_of_flow (ev : Event) (x : Flow) (tr : list Event) :
  ev ∈ tr → flow_of ev = Some x → x ∈ flow tr.
Proof. intros Hev Hx. apply list_elem_of_omap. by exists ev. Qed.

Lemma flow_token_called (tr : list Event) (success fail : Val) :
  TokenCalled success fail ∈ flow tr ↔ EvCallback EntityTokenCallback success fail ∈ tr.
Proof.
  split.
  - intros (ev & Hev & Hx)%list_elem_of_omap. by apply flow_of_inv in Hx as ->.
  - intros Hev. by apply (elem_of_flow _ _ _ Hev).
Qed.

Lemma flow_key_written (tr : list Event) (v : Val) :
  KeyWritten v ∈ flow tr ↔ EvGlobalWrite "EntityKey" v ∈ tr.
Proof.
  split.
  - intros (ev & Hev & Hx)%list_elem_of_omap. by apply flow_of_inv in Hx as ->.
  - intros Hev. by apply (elem_of_flow _ _ _ Hev).
Qed.

Lemma flow_key_read (tr : list Event) :
  KeyRead ∈ flow tr ↔ EvGlobalRead "EntityKey" ∈ tr.
Proof.
  split.
  - intros (ev & Hev & Hx)%list_elem_of_omap. by apply flow_of_inv in Hx as ->.
  - intros Hev. by apply (elem_of_flow _ _ _ Hev).
Qed.

Lemma flow_built (tr : list Event) (w : Val) :
  Built w ∈ flow tr ↔ EvGlobalWrite "eoRequest2" w ∈ tr.
Proof.
  split.
  - intros (ev & Hev & Hx)%list_elem_of_omap. by apply flow_of_inv in Hx as ->.
  - intros Hev. by apply (elem_of_flow _ _ _ Hev).
Qed.

Lemma objects_requests_flow (tr : list Event) :
  objects_requests tr =
  omap (λ x, match x with ObjectsCalled req => Some req | _ => None end) (flow tr).
Proof.
  apply omap_compose. intros [y|y v| | | | | |api req cb| |cb su fa|]; cbn; try done.
  - by destruct (String.eqb y "EntityKey").
  - destruct (String.eqb y "EntityKey"); [done|]. by destruct (String.eqb y "eoRequest2").
  - by destruct api.
  - by destruct cb.
Qed.


(** What a member of the token part tells about the captured value. *)
Lemma token_flow_called (tok : list Flow) (cap : option Val) (success fail : Val) :
  token_flow tok cap →
  TokenCalled success fail ∈ tok →
  (∀ v, truthy fail = false → subscript success "Entity" = Ok v → cap = Some v) ∧
  (truthy fail = true → ∀ v, KeyWritten v ∉ tok).
Proof.
  destruct 1 as [|su fa Hf|su fa v Hf Hv|su fa e Hf Hv]; intros Hin.
  - by apply elem_of_nil in Hin.
  - apply list_elem_of_singleton in Hin as [= -> ->]. split; [congruence|].
    intros _ v [=]%list_elem_of_singleton.
  - apply elem_of_cons in Hin as [[= -> ->]|[=]%list_elem_of_singleton].
    split; congruence.
  - apply list_elem_of_singleton in Hin as [= -> ->]. split; [congruence|].
    intros _ v [=]%list_elem_of_singleton.
Qed.


Lemma token_flow_other (tok : list Flow) (cap : option Val) (x : Flow) :
  token_flow tok cap → x ∈ tok →
  (∃ success fail, x = TokenCalled success fail) ∨ (∃ v, x = KeyWritten v).
Proof.
  destruct 1; intros Hin;
    repeat (apply elem_of_cons in Hin as [->|Hin]); try by apply elem_of_nil in Hin.
  all: eauto.
Qed.

Lemma objects_flow_elem {cap} key r calls (rest : list Flow) (x : Flow) :
  objects_flow cap key r calls rest → x ∈ rest →
  match x with ObjectsCalled _ => True | _ => False end ∨ x = KeyRead ∨
  ∃ v, key = Some v ∧ (x = Built (VDict {["Entity" := v]}) ∨
                       x = ObjectsCalled (VDict {["Entity" := v]})).
Proof.
  destruct 1 as [Hc|req e Hr Hc|req Hk Hr Hc|req v Hk]; intros Hin;
    repeat (apply elem_of_cons in Hin as [->|Hin]); try by apply elem_of_nil in Hin.
  all: cbn; eauto 6.
Qed.

(** A token callback seen in the trace fixes what [EntityKey] holds after the
    token call. *)
Lemma flow_captured ik (r : Result unit) calls (tok rest : list Flow) (cap : option Val)
    (success fail v : Val) :
  token_flow tok cap →
  objects_flow cap (entity_after ik cap) r calls rest →
  TokenCalled success fail ∈ tok ++ rest →
  truthy fail = false →
  subscript success "Entity" = Ok v →
  cap = Some v.
Proof.
  intros Htok Hrest [Hin|Hin]%elem_of_app Hf Hv.
  - by apply (token_flow_called _ _ _ _ Htok Hin).
  - destruct (objects_flow_elem _ _ _ _ _ Hrest Hin) as [|[|(? & _ & [|])]]; done.
Qed.

Lemma token_flow_some (tok : list Flow) (v : Val) :
  token_flow tok (Some v) →
  ∃ success fail,
    tok = [TokenCalled success fail; KeyWritten v] ∧ truthy fail = false ∧
    subscript success "Entity" = Ok v.
Proof. inversion 1; subst. eauto. Qed.

Lemma requests_token_flow (tok : list Flow) (cap : option Val) :
  token_flow tok cap →
  omap (λ x, match x with ObjectsCalled req => Some req | _ => None end) tok = [].
Proof. by destruct 1. Qed.

(** C2: with a falsy [fail] and a success payload holding ["Entity"],
    [entityTokenCallback] binds [EntityKey] to that field.  In every run in
    which the callback was invoked that way, no other dictionary is bound to
    [eoRequest2] and no other request is passed to a second [GetObjects]
    call than [{"Entity": v}] for that same value; and unless the run ends
    with an exception after the first [GetObjects] call, before line 53,
    [eoRequest2] is bound to [{"Entity": v}] and a second [GetObjects] call
    is made with that request. *)
Theorem C2_entity_key_captured_and_reused
    (test_settings : gmap string Val) (vendor : Api → State → Val → ApiOutcome)
    (edit : State → string → gmap string Val → gmap string Val)
    (exception_logger : State → Val → option PyExc)
    (imported vendor_settings : gmap string Val) (success fail v : Val) :
  truthy fail = false →
  subscript success "Entity" = Ok v →
  (∀ s, globals (entityTokenCallback success fail s).2 !! "EntityKey" = Some v) ∧
  (let out := run test_settings vendor edit exception_logger imported vendor_settings in
   EvCallback EntityTokenCallback success fail ∈ trace out.2 →
   (∀ w, EvGlobalWrite "eoRequest2" w ∈ trace out.2 → w = VDict {["Entity" := v]}) ∧
   (∀ req, objects_requests (trace out.2) !! 1 = Some req →
           req = VDict {["Entity" := v]}) ∧
   ((∃ e, out.1 = Raise e ∧
          called (trace out.2) =
            [ ClientAPI_LoginWithCustomID; EntityAPI_GetEntityToken;
              EntityAPI_GetObjects ] ∧
          EvGlobalRead "EntityKey" ∉ trace out.2) ∨
    (EvGlobalWrite "eoRequest2" (VDict {["Entity" := v]}) ∈ trace out.2 ∧
     objects_requests (trace out.2) !! 1 = Some (VDict {["Entity" := v]})))).
Proof.
  intros Hf Hv. split.
  { intros s. rewrite (token_body_capture _ _ v) by done. cbn.
    apply lookup_insert_eq. }
  intros out Hcb.
  destruct (flow_run _ _ _
              (run_shape test_settings vendor edit exception_logger imported
                 vendor_settings))
    as (tok & cap & rest & Hflow & Htok & Hrest).
  fold out in Hflow, Hrest.
  apply flow_token_called in Hcb. rewrite Hflow in Hcb.
  pose proof (flow_captured _ _ _ _ _ _ _ _ _ Htok Hrest Hcb Hf Hv) as ->.
  change (entity_after _ (Some v)) with (Some v) in Hrest. split_and!.
  - intros w Hw%flow_built. rewrite Hflow in Hw.
    apply elem_of_app in Hw as [Hw|Hw].
    + by destruct (token_flow_other _ _ _ Htok Hw) as [(? & ? & ?)|(? & ?)].
    + destruct (objects_flow_elem _ _ _ _ _ Hrest Hw) as [[]|[|(v' & [= <-] & [|])]];
        congruence.
  - intros req. rewrite objects_requests_flow, Hflow, omap_app.
    rewrite (requests_token_flow _ _ Htok).
    inversion Hrest as [|? ? ? ?|? ? ? ?|? v' [= <-]]; subst; cbn; congruence.
  - destruct (token_flow_some _ _ Htok) as (su & fa & -> & _ & _).
    inversion Hrest as [[=]|req e Hr Hc|req [=] Hr Hc|req v' [= <-]]; subst.
    + left. exists e. split_and!; [done..|].
      intros Hread%flow_key_read. rewrite Hflow in Hread.
      repeat (apply elem_of_cons in Hread as [[=]|Hread]).
      by apply elem_of_nil in Hread.
    + right. split.
      * apply flow_built. rewrite Hflow. do 4 right. by left.
      * rewrite objects_requests_flow, Hflow. reflexivity.
Qed.


Lemma entity_after_unbound (cap : option Val) : entity_after None cap = cap.
Proof. by destruct cap. Qed.

(** C10: when the imports do not bind [EntityKey], the dictionary
    [eoRequest2] is built only in runs where [entityTokenCallback] was
    invoked with a falsy [fail] and a success payload holding ["Entity"];
    a run that evaluates [EntityKey] without any assignment to it ends
    there with a [NameError], after the first three calls and before the
    other three; and a token callback invoked with a truthy [fail] leaves
    [EntityKey] unassigned. *)
Theorem C10_entity_key_must_be_captured
    (test_settings : gmap string Val) (vendor : Api → State → Val → ApiOutcome)
    (edit : State → string → gmap string Val → gmap string Val)
    (exception_logger : State → Val → option PyExc)
    (imported vendor_settings : gmap string Val) :
  imported !! "EntityKey" = None →
  let out := run test_settings vendor edit exception_logger imported vendor_settings in
  (∀ w, EvGlobalWrite "eoRequest2" w ∈ trace out.2 →
        ∃ success fail v,
          EvCallback EntityTokenCallback success fail ∈ trace out.2 ∧
          truthy fail = false ∧ subscript success "Entity" = Ok v ∧
          w = VDict {["Entity" := v]}) ∧
  ((∀ v, EvGlobalWrite "EntityKey" v ∉ trace out.2) →
   EvGlobalRead "EntityKey" ∈ trace out.2 →
   out.1 = Raise (NameError "EntityKey") ∧
   called (trace out.2) =
     [ ClientAPI_LoginWithCustomID; EntityAPI_GetEntityToken; EntityAPI_GetObjects ]) ∧
  (∀ success fail,
      EvCallback EntityTokenCallback success fail ∈ trace out.2 →
      truthy fail = true →
      ∀ v, EvGlobalWrite "EntityKey" v ∉ trace out.2).
Proof.
  intros Himp out.
  destruct (flow_run _ _ _
              (run_shape test_settings vendor edit exception_logger imported vendor_settings))
    as (tok & cap & rest & Hflow & Htok & Hrest).
  fold out in Hflow, Hrest. rewrite Himp, entity_after_unbound in Hrest.
  split_and!.
  - intros w Hw%flow_built. rewrite Hflow in Hw.
    apply elem_of_app in Hw as [Hw|Hw].
    { by destruct (token_flow_other _ _ _ Htok Hw) as [(? & ? & ?)|(? & ?)]. }
    destruct (objects_flow_elem _ _ _ _ _ Hrest Hw) as [|[|(v & -> & [[= ->]|])]];
      try done.
    destruct (token_flow_some _ _ Htok) as (su & fa & -> & Hf & Hv).
    exists su, fa, v. split_and!; [|done..].
    apply flow_token_called. rewrite Hflow. apply elem_of_app. left. by left.
  - intros Hnone Hread%flow_key_read. rewrite Hflow in Hread.
    apply elem_of_app in Hread as [Hread|Hread].
    { by destruct (token_flow_other _ _ _ Htok Hread) as [(? & ? & ?)|(? & ?)]. }
    destruct Hrest as [Hc|req e Hr Hc|req Hk Hr Hc|req v Hk].
    + by apply elem_of_nil in Hread.
    + by apply list_elem_of_singleton in Hread.
    + done.
    + subst cap. destruct (token_flow_some _ _ Htok) as (su & fa & -> & Hf & Hv).
      destruct (Hnone v). apply flow_key_written. rewrite Hflow.
      apply elem_of_app. left. right. by left.
  - intros su fa Hcb%flow_token_called Hf v Hw%flow_key_written.
    rewrite Hflow in Hcb, Hw.
    apply elem_of_app in Hcb as [Hcb|Hcb].
    2:{ by destruct (objects_flow_elem _ _ _ _ _ Hrest Hcb) as [|[|(? & _ & [|])]]. }
    apply elem_of_app in Hw as [Hw|Hw].
    + by apply (token_flow_called _ _ _ _ Htok Hcb) in Hw.
    + by destruct (objects_flow_elem _ _ _ _ _ Hrest Hw) as [|[|(? & _ & [|])]].
Qed.

(** * The callbacks *)

(** C1 (as amended): an invocation of [loginCallback],
    [entityObjectCallback] or [titleDataReqCallback], and an invocation of
    [entityTokenCallback] whose [fail] is truthy or whose success payload
    holds ["Entity"], returns after printing exactly one payload: [fail]
    when it is truthy and [success] otherwise. *)
Theorem C1_one_payload_printed
    (cb : Callback) (success fail : Val) (s : State) :
  (cb = EntityTokenCallback → truthy fail = false →
   ∃ v, subscript success "Entity" = Ok v) →
  (code cb success fail s).1 = Ok tt ∧ prints_selected_payload cb success fail s.
Proof.
  unfold prints_selected_payload. intros Hentity.
  destruct (decide (cb = EntityTokenCallback)) as [->|Hcb].
  - cbn [code]. unfold selected. destruct (truthy fail) eqn:Hf.
    + rewrite token_body_fail by done. cbn. by rewrite printed_app.
    + destruct (Hentity eq_refl eq_refl) as [v Hv].
      rewrite (token_body_capture _ _ v) by done. cbn. by rewrite printed_app.
  - rewrite plain_body by done. cbn. by rewrite printed_app.
Qed.

(** C1 (as stated) fails for [entityTokenCallback] called with [None] for
    both arguments: nothing is printed. *)
Lemma C1_token_callback_prints_nothing :
  ¬ prints_selected_payload EntityTokenCallback VNone VNone blank.
Proof. unfold prints_selected_payload. vm_compute. discriminate. Qed.

(** C5: [loginCallback], [entityObjectCallback] and [titleDataReqCallback]
    agree on every pair of arguments and every state, and all they do is
    append one print event, of [fail] when it is truthy and of [success]
    otherwise, leaving the namespace and the settings as they were. *)
Theorem C5_plain_callbacks_agree (success fail : Val) (s : State) :
  loginCallback success fail s = entityObjectCallback success fail s ∧
  entityObjectCallback success fail s = titleDataReqCallback success fail s ∧
  loginCallback success fail s =
    (Ok tt, mkState (globals s) (settings s)
                    (trace s ++ [EvPrint (if truthy fail then fail else success)])).
Proof.
  split_and!; [done..|].
  unfold loginCallback. by destruct (truthy fail).
Qed.

(** C9 (as amended): with a falsy [fail] and a success payload without an
    ["Entity"] key, [entityTokenCallback] raises and leaves the state as it
    was, so nothing is printed and [EntityKey] is not assigned; the exception
    is a [KeyError] when the payload is a dictionary and a [TypeError] when
    it is anything else, such as [None]. *)
Theorem C9_missing_entity_raises (success fail : Val) (s : State) :
  truthy fail = false →
  has_key success "Entity" = false →
  ∃ e, entityTokenCallback success fail s = (Raise e, s) ∧
       match success with
       | VDict _ => e = KeyError "Entity"
       | _ => ∃ msg, e = TypeError msg
       end.
Proof.
  intros Hf Hkey.
  assert (∃ e, subscript success "Entity" = Raise e ∧
               match success with
               | VDict _ => e = KeyError "Entity"
               | _ => ∃ msg, e = TypeError msg
               end) as (e & Hv & He).
  { destruct success as [| | | | |d| | |]; cbn in *; eauto.
    destruct (d !! "Entity"); [done|eauto]. }
  exists e. split; [by apply token_body_raise|done].
Qed.

(** C9 (as stated) fails for the payload [None]: the exception is a
    [TypeError], not a [KeyError]. *)
Lemma C9_none_payload_raises_type_error :
  truthy VNone = false ∧ has_key VNone "Entity" = false ∧
  ¬ raises_key_error VNone VNone blank.
Proof. split_and!; [done..|]. unfold raises_key_error. vm_compute. discriminate. Qed.

(** * Exceptions raised by the vendor *)

Lemma no_raise_split (tr1 tr2 : list Event) api e :
  ¬ no_raise (tr1 ++ EvApiRaise api e :: tr2).
Proof.
  unfold no_raise. rewrite Forall_app, Forall_cons. by intros (_ & ? & _).
Qed.

Lemma split_no_raise (A B tr1 tr2 : list Event) api e :
  no_raise A →
  tr1 ++ EvApiRaise api e :: tr2 = A ++ B →
  ∃ B1, tr1 = A ++ B1 ∧ B = B1 ++ EvApiRaise api e :: tr2.
Proof.
  revert tr1. induction A as [|a A IH]; intros tr1 HA Heq.
  - by exists tr1.
  - apply Forall_cons in HA as [Ha HA].
    destruct tr1 as [|t tr1]; cbn in Heq; injection Heq as <- Heq; [done|].
    destruct (IH _ HA Heq) as (B1 & -> & ->). by exists B1.
Qed.

Lemma split_app (A B tr1 tr2 : list Event) (x : Event) :
  tr1 ++ x :: tr2 = A ++ B →
  (∃ A2, A = tr1 ++ x :: A2 ∧ tr2 = A2 ++ B) ∨
  (∃ B1, tr1 = A ++ B1 ∧ B = B1 ++ x :: tr2).
Proof.
  revert tr1. induction A as [|a A IH]; intros tr1 Heq.
  - right. by exists tr1.
  - destruct tr1 as [|t tr1]; cbn in Heq; injection Heq as <- Heq.
    + left. by exists A.
    + destruct (IH _ Heq) as [(A2 & -> & ->)|(B1 & -> & ->)];
        [left; by exists A2|right; by exists B1].
Qed.

Lemma split_last (B1 tr2 : list Event) api0 e0 api e :
  [EvApiRaise api0 e0] = B1 ++ EvApiRaise api e :: tr2 →
  B1 = [] ∧ api = api0 ∧ e = e0 ∧ tr2 = [].
Proof. destruct B1 as [|b [|b' B1]]; cbn; intros [=]; by subst. Qed.

Lemma split_caught (B1 tr2 : list Event) e0 api e :
  seg_caught e0 = B1 ++ EvApiRaise api e :: tr2 →
  B1 = [] ∧ api = ServerAPI_GetTitleData ∧ e = e0 ∧ tr2 = seg_handler e0.
Proof.
  unfold seg_handler, seg_caught.
  destruct B1 as [|b1 [|b2 [|b3 [|b4 [|b5 [|b6 [|b7 [|b8 B1]]]]]]]]; cbn;
    intros [=]; by subst.
Qed.

Lemma no_raise_plain_reply (cb : Callback) (d : list Event) :
  plain_reply cb d → no_raise d.
Proof. destruct 1; repeat constructor. Qed.

Lemma no_raise_token_reply (d : list Event) (cap : option Val) :
  token_reply d cap → no_raise d.
Proof. destruct 1; repeat constructor. Qed.

Lemma no_raise_app (tr1 tr2 : list Event) :
  no_raise tr1 → no_raise tr2 → no_raise (tr1 ++ tr2).
Proof. intros. by apply Forall_app. Qed.

Lemma no_raise_after_login (tr : list Event) : after_login tr → no_raise tr.
Proof.
  destruct 1 as [tid cid d Hd].
  apply no_raise_app; [repeat constructor|by eapply no_raise_plain_reply].
Qed.

Lemma no_raise_after_token ik key (tr : list Event) :
  after_token ik key tr → no_raise tr.
Proof.
  destruct 1 as [tr d cap Htr Hd].
  repeat apply no_raise_app;
    [by apply no_raise_after_login|repeat constructor|by eapply no_raise_token_reply].
Qed.

Lemma no_raise_after_objects {edit} ik key (tr : list Event) :
  after_objects edit ik key tr → no_raise tr.
Proof.
  destruct 1 as [key tr st3 d Htr Hd].
  repeat apply no_raise_app;
    [by eapply no_raise_after_token|repeat constructor|by eapply no_raise_plain_reply].
Qed.

Lemma no_raise_after_objects2 {edit} ik (tr : list Event) :
  after_objects2 edit ik tr → no_raise tr.
Proof.
  destruct 1 as [v tr d Htr Hd].
  repeat apply no_raise_app;
    [by eapply no_raise_after_objects|repeat constructor|by eapply no_raise_plain_reply].
Qed.

Lemma called_app (tr1 tr2 : list Event) : called (tr1 ++ tr2) = called tr1 ++ called tr2.
Proof. apply omap_app. Qed.

Lemma called_after_login (tr : list Event) :
  after_login tr → List.length (called tr) = 1.
Proof. intros Htr. by rewrite called_skeleton, (skeleton_after_login _ Htr). Qed.

Lemma called_after_token ik key (tr : list Event) :
  after_token ik key tr → List.length (called tr) = 2.
Proof. intros Htr. by rewrite called_skeleton, (skeleton_after_token _ _ _ Htr). Qed.

Lemma called_after_objects {edit} ik key (tr : list Event) :
  after_objects edit ik key tr → List.length (called tr) = 3.
Proof. intros Htr. by rewrite called_skeleton, (skeleton_after_objects _ _ _ Htr). Qed.

Lemma called_after_objects2 {edit} ik (tr : list Event) :
  after_objects2 edit ik tr → List.length (called tr) = 4.
Proof. intros Htr. by rewrite called_skeleton, (skeleton_after_objects2 _ _ Htr). Qed.

Lemma called_after_title {edit} ik (tr : list Event) :
  after_title edit ik tr → List.length (called tr) = 5.
Proof. intros Htr. by rewrite called_skeleton, (skeleton_after_title _ _ Htr). Qed.

Lemma raise_in_try {edit} ik (tr tr1 tr2 B1 : list Event) e0 api e :
  after_objects2 edit ik tr →
  is_PlayFabException e0 = true →
  tr1 = (tr ++ seg_title) ++ B1 →
  seg_caught e0 = B1 ++ EvApiRaise api e :: tr2 →
  handled_by_try tr1 e = true ∧ api = ServerAPI_GetTitleData ∧ tr2 = seg_handler e.
Proof.
  intros Htr He -> (-> & -> & -> & ->)%split_caught. split_and!; [|done..].
  unfold handled_by_try. rewrite app_nil_r, called_app, length_app.
  by rewrite (called_after_objects2 _ _ Htr), He.
Qed.

Lemma raise_after_title {edit} ik (tr tr1 tr2 : list Event) api e :
  after_title edit ik tr →
  tr = tr1 ++ EvApiRaise api e :: tr2 →
  handled_by_try tr1 e = true ∧ api = ServerAPI_GetTitleData ∧ tr2 = seg_handler e.
Proof.
  destruct 1 as [tr d Htr Hd]. intros Heq. symmetry in Heq.
  rewrite app_assoc in Heq.
  apply split_no_raise in Heq as (B1 & Htr1 & HB);
    [|apply no_raise_app; [by eapply no_raise_after_objects2|repeat constructor]].
  destruct Hd as [d Hd|e0 He0].
  - apply no_raise_plain_reply in Hd. rewrite HB in Hd. by apply no_raise_split in Hd.
  - by eapply raise_in_try.
Qed.

Ltac solve_no_raise :=
  repeat first
    [ apply no_raise_app
    | by eapply no_raise_after_login
    | by eapply no_raise_after_token
    | by eapply no_raise_after_objects
    | by eapply no_raise_after_objects2
    | by eapply no_raise_plain_reply
    | by repeat constructor ].

Ltac absurd_split Heq :=
  exfalso; eapply no_raise_split; rewrite <- Heq; solve_no_raise.

Ltac last_raise Heq :=
  symmetry in Heq; rewrite ?app_assoc in Heq;
  apply split_no_raise in Heq as (B1 & -> & (-> & -> & -> & ->)%split_last);
  [|solve_no_raise];
  unfold raise_outcome, handled_by_try;
  rewrite app_nil_r, ?called_app, ?length_app.

Ltac caught_earlier Htr Hin :=
  destruct (raise_after_title _ _ _ _ _ _ Htr Hin) as (Hh & -> & ->);
  unfold raise_outcome; rewrite Hh; split; [done|by eexists].

Lemma raise_run {edit} ik (r : Result unit) (tr tr1 tr2 : list Event) api e :
  RunShape edit ik r tr →
  tr = tr1 ++ EvApiRaise api e :: tr2 →
  raise_outcome r tr1 api e tr2.
Proof.
  destruct 1 as [|tid|tid cid e0|tr e0 Htr|tr su fa e0 Htr Hf Hv|key tr st3 e0 Htr|tr Htr
                 |v tr e0 Htr|tr e0 Htr He|tr e0 e' Htr He|tr Htr|key tr left e0 Htr Hleft
                 |key tr left d6 Htr Hleft Hd6];
    intros Heq.
  - absurd_split Heq.
  - absurd_split Heq.
  - last_raise Heq. by cbn.
  - last_raise Heq. by rewrite (called_after_login _ Htr).
  - absurd_split Heq.
  - last_raise Heq. by rewrite (called_after_token _ _ _ Htr).
  - absurd_split Heq.
  - last_raise Heq. by rewrite (called_after_objects _ _ _ Htr).
  - last_raise Heq. by rewrite (called_after_objects2 _ _ Htr), He.
  - symmetry in Heq. rewrite app_assoc in Heq.
    apply split_no_raise in Heq as (B1 & Htr1 & HB); [|solve_no_raise].
    destruct (raise_in_try _ _ _ _ _ _ _ _ Htr He Htr1 HB) as (Hh & -> & ->).
    unfold raise_outcome. rewrite Hh. split; [done|by eexists].
  - symmetry in Heq. apply split_app in Heq as [(A2 & Hin & ->)|(B1 & -> & HB)].
    + caught_earlier Htr Hin.
    + absurd_split HB.
  - symmetry in Heq. apply split_app in Heq as [(A2 & Hin & ->)|(B1 & -> & HB)].
    + caught_earlier Htr Hin.
    + symmetry in HB.
      apply split_no_raise in HB as (B2 & -> & (-> & -> & -> & ->)%split_last);
        [|solve_no_raise].
      unfold raise_outcome, handled_by_try.
      rewrite app_nil_r, !called_app, !length_app, (called_after_title _ _ Htr).
      done.
  - symmetry in Heq. apply split_app in Heq as [(A2 & Hin & ->)|(B1 & -> & HB)].
    + caught_earlier Htr Hin.
    + absurd_split HB.
Qed.

(** C3: whenever an exception comes out of a vendor entry point, either it is
    a [PlayFabException] out of the fifth call (the first [GetTitleData]), in
    which case the handler runs next: the exception is bound to [e],
    "Caught expected error" is printed, [e] is read and
    [GlobalExceptionLogger] is called with that exception; or it is the last
    event of the trace and the module ends with that exception. *)
Theorem C3_only_first_title_data_call_is_guarded
    (test_settings : gmap string Val) (vendor : Api → State → Val → ApiOutcome)
    (edit : State → string → gmap string Val → gmap string Val)
    (exception_logger : State → Val → option PyExc)
    (imported vendor_settings : gmap string Val)
    (tr1 tr2 : list Event) (api : Api) (e : PyExc) :
  let out := run test_settings vendor edit exception_logger imported vendor_settings in
  trace out.2 = tr1 ++ EvApiRaise api e :: tr2 →
  if handled_by_try tr1 e
  then api = ServerAPI_GetTitleData ∧
       ∃ tr3, tr2 = EvGlobalWrite "e" (VExc e) ::
                    EvPrint (VStr "Caught expected error") ::
                    EvGlobalRead "e" ::
                    EvSettingsCall "GlobalExceptionLogger" (VExc e) :: tr3
  else tr2 = [] ∧ out.1 = Raise e.
Proof.
  intros out Heq.
  exact (raise_run _ _ _ _ _ _ _
           (run_shape test_settings vendor edit exception_logger imported vendor_settings)
           Heq).
Qed.

(** * The sample runs *)

Example demo_run_completes : demo_run.1 = Ok tt.
Proof. by vm_compute. Qed.

Example failing_run_stops : failing_run.1 = Raise (NameError "EntityKey").
Proof. by vm_compute. Qed.

Lemma C1_witness :
  (EntityTokenCallback = EntityTokenCallback → truthy VNone = false →
   ∃ v, subscript demo_token_payload "Entity" = Ok v) ∧
  (code EntityTokenCallback demo_token_payload VNone blank).1 = Ok tt ∧
  prints_selected_payload EntityTokenCallback demo_token_payload VNone blank.
Proof.
  assert (EntityTokenCallback = EntityTokenCallback → truthy VNone = false →
          ∃ v, subscript demo_token_payload "Entity" = Ok v) as H.
  { intros _ _. exists demo_entity. vm_compute. reflexivity. }
  split; [exact H|].
  exact (C1_one_payload_printed EntityTokenCallback demo_token_payload VNone blank H).
Defined.

Lemma C2_witness :
  truthy VNone = false ∧
  subscript demo_token_payload "Entity" = Ok demo_entity ∧
  EvCallback EntityTokenCallback demo_token_payload VNone ∈ trace demo_run.2 ∧
  EvGlobalWrite "eoRequest2" (VDict {["Entity" := demo_entity]}) ∈ trace demo_run.2 ∧
  objects_requests (trace demo_run.2) !! 1 = Some (VDict {["Entity" := demo_entity]}).
Proof.
  assert (truthy VNone = false) as Hf by reflexivity.
  assert (subscript demo_token_payload "Entity" = Ok demo_entity) as Hv
    by (vm_compute; reflexivity).
  assert (EvCallback EntityTokenCallback demo_token_payload VNone ∈ trace demo_run.2)
    as Hcb.
  { apply (list_elem_of_lookup_2 _ 22). vm_compute. reflexivity. }
  split_and!; [exact Hf|exact Hv|exact Hcb|..];
    destruct (proj2 (proj2 (proj2 (C2_entity_key_captured_and_reused
                                     demo_test_settings demo_vendor no_edit quiet_logger
                                     ∅ ∅ demo_token_payload VNone demo_entity Hf Hv)
                                  Hcb)))
      as [(e & He & _)|[Hbuilt Hreq]];
    first [ exact Hbuilt | exact Hreq | exfalso; revert He; vm_compute; discriminate ].
Defined.

Lemma C3_witness :
  trace demo_run.2 =
    take 44 (trace demo_run.2) ++
    EvApiRaise ServerAPI_GetTitleData demo_refusal :: drop 45 (trace demo_run.2) ∧
  ∃ tr3, drop 45 (trace demo_run.2) =
         EvGlobalWrite "e" (VExc demo_refusal) ::
         EvPrint (VStr "Caught expected error") ::
         EvGlobalRead "e" ::
         EvSettingsCall "GlobalExceptionLogger" (VExc demo_refusal) :: tr3.
Proof.
  assert (trace demo_run.2 =
            take 44 (trace demo_run.2) ++
            EvApiRaise ServerAPI_GetTitleData demo_refusal :: drop 45 (trace demo_run.2))
    as Heq by (vm_compute; reflexivity).
  split; [exact Heq|].
  pose proof (C3_only_first_title_data_call_is_guarded
                demo_test_settings demo_vendor no_edit quiet_logger ∅ ∅ _ _ _ _ Heq) as H.
  assert (handled_by_try (take 44 (trace demo_run.2)) demo_refusal = true) as Hh
    by (vm_compute; reflexivity).
  rewrite Hh in H. exact (proj2 H).
Defined.

Lemma C9_witness :
  truthy VNone = false ∧ has_key (VDict ∅) "Entity" = false ∧
  ∃ e, entityTokenCallback (VDict ∅) VNone blank = (Raise e, blank) ∧
       e = KeyError "Entity".
Proof.
  split_and!; [reflexivity..|].
  exact (C9_missing_entity_raises (VDict ∅) VNone blank eq_refl eq_refl).
Defined.

Lemma C10_witness :
  (∅ : gmap string Val) !! "EntityKey" = None ∧
  failing_run.1 = Raise (NameError "EntityKey") ∧
  called (trace failing_run.2) =
    [ ClientAPI_LoginWithCustomID; EntityAPI_GetEntityToken; EntityAPI_GetObjects ].
Proof.
  assert ((∅ : gmap string Val) !! "EntityKey" = None) as Himp by reflexivity.
  split; [exact Himp|].
  destruct (C10_entity_key_must_be_captured
              demo_test_settings failing_vendor no_edit quiet_logger ∅ ∅ Himp)
    as (_ & Hstop & Hfail).
  apply Hstop.
  - apply (Hfail VNone (VObj "PlayFabError")); [|reflexivity].
    apply (list_elem_of_lookup_2 _ 22). vm_compute. reflexivity.
  - apply (list_elem_of_lookup_2 _ 31). vm_compute. reflexivity.
Defined.

(** * Runs with the answers of the vendor *)

Section SteppingOutcomes.

Variable vendor : Api → State → Val → ApiOutcome.
Variable edit : State → string → gmap string Val → gmap string Val.
Variable exception_logger : State → Val → option PyExc.

Context {B : Type}.
Implicit Types (P : Result B → State → Prop) (s : State).

Lemma holds_settings_call_outcome P f arg (k : unit → M B) s :
  (∀ e' st, exception_logger
              (mkState (globals s) (settings s) (trace s ++ [EvSettingsCall f arg])) arg =
            Some e' →
            P (Raise e')
              (mkState (handed_back (edit st) (globals s)) (settings s)
                       (trace s ++ [EvSettingsCall f arg]))) →
  (∀ st, exception_logger
           (mkState (globals s) (settings s) (trace s ++ [EvSettingsCall f arg])) arg =
         None →
         holds P (k tt) (mkState (handed_back (edit st) (globals s)) (settings s)
                                 (trace s ++ [EvSettingsCall f arg]))) →
  holds P (bind (settings_call edit exception_logger f arg) k) s.
Proof.
  intros Hraise Hok. unfold holds, bind, settings_call, vendor_done, log.
  destruct (exception_logger _ arg) as [e'|] eqn:Hlog; [by apply Hraise|by apply Hok].
Qed.

Lemma holds_api_plain_outcome P api req cb (k : unit → M B) s :
  cb ≠ EntityTokenCallback →
  (∀ e st, vendor api (mkState (globals s) (settings s)
                               (trace s ++ [EvApiCall api req (VFun cb)])) req =
           ApiRaise e →
           P (Raise e)
             (mkState (handed_back (edit st) (globals s)) (settings s)
                      (trace s ++ [EvApiCall api req (VFun cb); EvApiRaise api e]))) →
  (∀ d st, plain_outcome cb
             (vendor api (mkState (globals s) (settings s)
                                  (trace s ++ [EvApiCall api req (VFun cb)])) req) d →
           holds P (k tt) (mkState (handed_back (edit st) (globals s)) (settings s)
                                   (trace s ++ EvApiCall api req (VFun cb) :: d))) →
  holds P (bind (api_call vendor edit api req (VFun cb)) k) s.
Proof.
  intros Hcb Hraise Hok. unfold holds, bind, api_call, vendor_done, log.
  destruct (vendor api _ req) as [e| |success fail guarded] eqn:Hv.
  - cbn. rewrite <- app_assoc. by apply Hraise.
  - apply (Hok []). try rewrite Hv. constructor.
  - unfold call_value. rewrite plain_body by done. unfold log. cbn.
    rewrite <- !app_assoc. apply Hok. try rewrite Hv. constructor.
Qed.

Lemma holds_api_token_outcome P api req (k : unit → M B) s :
  (∀ e st, vendor api (mkState (globals s) (settings s)
                               (trace s ++ [EvApiCall api req (VFun EntityTokenCallback)]))
                  req = ApiRaise e →
           P (Raise e)
             (mkState (handed_back (edit st) (globals s)) (settings s)
                      (trace s ++ [EvApiCall api req (VFun EntityTokenCallback);
                                   EvApiRaise api e]))) →
  (∀ success fail e st,
      vendor api (mkState (globals s) (settings s)
                          (trace s ++ [EvApiCall api req (VFun EntityTokenCallback)]))
             req = ApiCallback success fail false →
      truthy fail = false →
      subscript success "Entity" = Raise e →
      P (Raise e)
        (mkState (handed_back (edit st) (globals s)) (settings s)
                 (trace s ++ [EvApiCall api req (VFun EntityTokenCallback);
                              EvCallback EntityTokenCallback success fail]))) →
  (∀ d cap st,
      token_outcome
        (vendor api (mkState (globals s) (settings s)
                             (trace s ++ [EvApiCall api req (VFun EntityTokenCallback)]))
                req) d cap →
      holds P (k tt) (mkState (handed_back (edit st) (capture cap (globals s)))
                              (settings s)
                              (trace s ++ EvApiCall api req (VFun EntityTokenCallback) :: d))) →
  holds P (bind (api_call vendor edit api req (VFun EntityTokenCallback)) k) s.
Proof.
  intros Hraise Hcbraise Hok. unfold holds, bind, api_call, vendor_done, log.
  destruct (vendor api _ req) as [e| |success fail guarded] eqn:Hv.
  - cbn. rewrite <- app_assoc. by apply Hraise.
  - apply (Hok [] None). try rewrite Hv. constructor.
  - unfold call_value. cbn [code].
    destruct (truthy fail) eqn:Hf.
    + rewrite token_body_fail by done. unfold log. cbn. rewrite <- !app_assoc.
      apply (Hok _ None). try rewrite Hv. by constructor.
    + destruct (subscript success "Entity") as [v|e] eqn:Hsub.
      * rewrite (token_body_capture _ _ v) by done. cbn. rewrite <- !app_assoc.
        apply (Hok _ (Some v)). try rewrite Hv. by constructor.
      * rewrite (token_body_raise _ _ e) by done.
        destruct guarded; unfold log; cbn; rewrite <- !app_assoc.
        -- apply (Hok _ None). try rewrite Hv. by econstructor.
        -- by apply Hcbraise.
Qed.

End SteppingOutcomes.

Section States.

Variable test_settings : gmap string Val.
Variable vendor : Api → State → Val → ApiOutcome.
Variable edit : State → string → gmap string Val → gmap string Val.
Variable exception_logger : State → Val → option PyExc.
Variables imported vendor_settings : gmap string Val.

Lemma RunState_eq (r : Result unit) g stt (tr tr' : list Event) :
  RunState test_settings vendor edit exception_logger imported vendor_settings r
           (mkState g stt tr') →
  tr = tr' →
  RunState test_settings vendor edit exception_logger imported vendor_settings r
           (mkState g stt tr).
Proof. by intros H ->. Qed.

Lemma at_title_eq tid (tr tr' : list Event) :
  at_title test_settings vendor edit exception_logger imported vendor_settings tid tr' →
  tr = tr' →
  at_title test_settings vendor edit exception_logger imported vendor_settings tid tr.
Proof. by intros H ->. Qed.

Lemma tail_state tid (s : State) (left : gmap string Val) :
  at_title test_settings vendor edit exception_logger imported vendor_settings tid
           (trace s) →
  settings s = titled vendor_settings tid →
  left_by edit "titleDataRequest" left →
  globals s !! "titleDataRequest" = Some (VDict left) →
  globals s !! "titleDataReqCallback" = Some (VFun TitleDataReqCallback) →
  holds (RunState test_settings vendor edit exception_logger imported vendor_settings)
        (line71 test_settings ;; line73 ;; line74 vendor edit ;; ret tt) s.
Proof.
  intros Htitle Hset Hleft Hreq Hcb. destruct s as [g stt tr]. cbn in *. subst stt.
  unfold line71, line73, line74.
  step. apply holds_test_settings_read; cbn [globals settings trace].
  { intros Hkey. by apply state_no_secret_key. }
  intros key Hkey. do 3 step.
  eapply holds_gread; [by cbn; rewrite lookup_insert_ne by done|].
  cbn [globals settings trace]. step.
  eapply holds_gread; [by cbn; rewrite lookup_insert_ne by done|].
  cbn [globals settings trace].
  apply holds_api_plain_outcome; [done| |]; cbn [globals settings trace].
  - intros e st He. eapply RunState_eq;
      [eapply state_title2_raises; [exact Htitle|exact Hkey| |exact Hleft|exact He];
       reflexivity|flatten_trace].
  - intros d6 st Hd6. apply holds_ret. eapply RunState_eq;
      [eapply state_complete; [exact Htitle|exact Hkey| |exact Hleft|exact Hd6];
       reflexivity|flatten_trace].
Qed.

Lemma run_state :
  RunState test_settings vendor edit exception_logger imported vendor_settings
           (run test_settings vendor edit exception_logger imported vendor_settings).1
           (run test_settings vendor edit exception_logger imported vendor_settings).2.
Proof.
  change (holds (RunState test_settings vendor edit exception_logger imported
                          vendor_settings)
                (run_module (toplevel test_settings vendor edit exception_logger))
                (mkState imported vendor_settings [])).
  unfold toplevel. cbn [run_module].
  unfold line14, line15, line17, line19, line20, line21, line22, line24, line30.
  step. apply holds_test_settings_read; cbn [globals settings trace].
  { intros Htid. by apply state_no_title_id. }
  intros tid Htid. step.
  step. apply holds_test_settings_read; cbn [globals settings trace].
  { intros Hcid. by apply state_no_custom_id. }
  intros cid Hcid. repeat step.
  apply holds_api_plain_outcome; [done| |]; cbn [globals settings trace].
  { intros e st He. eapply RunState_eq;
      [eapply state_login_raises; [exact Htid|exact Hcid| |exact He]; reflexivity
      |flatten_trace]. }
  intros d1 st1 Hd1.
  assert (at_login test_settings vendor vendor_settings tid (seg_login tid cid ++ d1))
    as Hlogin.
  { eapply AtLogin; [exact Htid|exact Hcid| |exact Hd1]. reflexivity. }
  unfold line32, line40, line41. repeat step.
  apply holds_api_token_outcome; cbn [globals settings trace].
  { intros e st He. eapply RunState_eq;
      [eapply state_token_raises; [exact Hlogin| |exact He]; reflexivity|flatten_trace]. }
  { intros success fail e st He Hf Hv. eapply RunState_eq;
      [eapply state_token_callback_raises;
         [exact Hlogin| |exact He|exact Hf|exact Hv]; reflexivity
      |flatten_trace]. }
  intros d2 cap st2 Hd2.
  assert (at_token test_settings vendor imported vendor_settings tid
                   (entity_after (imported !! "EntityKey") cap)
                   ((seg_login tid cid ++ d1) ++ seg_token ++ d2)) as Htoken.
  { eapply AtToken; [exact Hlogin| |exact Hd2]. reflexivity. }
  unfold line43, line50, line51. do 3 step.
  apply (holds_gread _ _ (token_request_left edit st2)); [solve_lookup_dict|].
  cbn [globals settings trace]. repeat step.
  apply holds_api_plain_outcome; [done| |]; cbn [globals settings trace].
  { intros e st He. eapply RunState_eq;
      [eapply state_objects_raises; [exact Htoken| |exact He]; reflexivity
      |flatten_trace]. }
  intros d3 st3 Hd3.
  assert (at_objects test_settings vendor edit imported vendor_settings tid
                     (entity_after (imported !! "EntityKey") cap)
                     (((seg_login tid cid ++ d1) ++ seg_token ++ d2) ++
                      seg_objects (token_request_left edit st2) ++ d3))
    as Hobjects.
  { eapply AtObjects; [exact Htoken| |exact Hd3]. reflexivity. }
  unfold line53. apply holds_assoc.
  destruct (entity_after (imported !! "EntityKey") cap) as [v|] eqn:Hkey.
  2:{ apply holds_gread_unbound; cbn [globals settings trace].
      - solve_key_lookup Hkey.
      - eapply RunState_eq;
          [eapply state_entity_key_unbound; exact Hobjects|flatten_trace]. }
  apply (holds_gread _ _ v); cbn [globals settings trace].
  { solve_key_lookup Hkey. }
  unfold line56. repeat step.
  apply holds_api_plain_outcome; [done| |]; cbn [globals settings trace].
  { intros e st He. eapply RunState_eq;
      [eapply state_objects2_raises; [exact Hobjects| |exact He]; reflexivity
      |flatten_trace]. }
  intros d4 st4 Hd4.
  assert (at_objects2 test_settings vendor edit imported vendor_settings tid
            ((((seg_login tid cid ++ d1) ++ seg_token ++ d2) ++
              seg_objects (token_request_left edit st2) ++ d3) ++
             seg_objects2 v ++ d4)) as Hobjects2.
  { eapply AtObjects2; [exact Hobjects| |exact Hd4]. reflexivity. }
  unfold line58, line64. step.
  apply holds_try. repeat step. apply holds_tail.
  apply holds_api_plain_outcome; [done| |]; cbn [globals settings trace].
  { intros e st5 He. destruct (is_PlayFabException e) eqn:Hpf.
    - do 2 step. apply holds_finally. do 2 step. apply holds_tail.
      apply holds_settings_call_outcome; cbn [globals settings trace].
      + intros e' stl Hlog. cbn beta iota. step. apply holds_tail. step.
        apply holds_ret. cbn beta iota. eapply RunState_eq;
          [eapply state_logger_raises;
             [exact Hobjects2| |exact He|exact Hpf|exact Hlog]; reflexivity
          |flatten_trace].
      + intros stl Hlog. apply holds_ret. cbn beta iota. do 3 step.
        apply (tail_state tid _ (edit stl "titleDataRequest"
                                   (edit st5 "titleDataRequest" ∅)));
          cbn [globals settings trace].
        * eapply at_title_eq;
            [eapply AtTitleCaught;
               [exact Hobjects2| |exact He|exact Hpf|exact Hlog]; reflexivity
            |flatten_trace].
        * reflexivity.
        * apply left_twice.
        * solve_lookup_dict.
        * solve_lookup.
    - eapply RunState_eq;
        [eapply state_title_raises; [exact Hobjects2| |exact He|exact Hpf]; reflexivity
        |flatten_trace]. }
  intros d5 st5 Hd5. apply holds_ret.
  apply (tail_state tid _ (edit st5 "titleDataRequest" ∅));
    cbn [globals settings trace].
  - eapply at_title_eq;
      [eapply AtTitle; [exact Hobjects2| |exact Hd5]; reflexivity|flatten_trace].
  - reflexivity.
  - apply left_once.
  - solve_lookup_dict.
  - solve_lookup.
Qed.

End States.

(** * What the stages remember *)

Lemma plain_outcome_reply (cb : Callback) (o : ApiOutcome) (d : list Event) :
  plain_outcome cb o d → plain_reply cb d.
Proof. destruct 1; constructor. Qed.

Lemma token_outcome_reply (o : ApiOutcome) (d : list Event) (cap : option Val) :
  token_outcome o d cap → token_reply d cap.
Proof. destruct 1; by econstructor. Qed.

Section Stages.

Variable test_settings : gmap string Val.
Variable vendor : Api → State → Val → ApiOutcome.
Variable edit : State → string → gmap string Val → gmap string Val.
Variable exception_logger : State → Val → option PyExc.
Variables imported vendor_settings : gmap string Val.

Lemma at_login_after tid (tr : list Event) :
  at_login test_settings vendor vendor_settings tid tr → after_login tr.
Proof. destruct 1. constructor. by eapply plain_outcome_reply. Qed.

Lemma at_token_after tid key (tr : list Event) :
  at_token test_settings vendor imported vendor_settings tid key tr →
  after_token (imported !! "EntityKey") key tr.
Proof.
  destruct 1. constructor; [by eapply at_login_after|by eapply token_outcome_reply].
Qed.

Lemma at_objects_after tid key (tr : list Event) :
  at_objects test_settings vendor edit imported vendor_settings tid key tr →
  after_objects edit (imported !! "EntityKey") key tr.
Proof.
  destruct 1. constructor; [by eapply at_token_after|by eapply plain_outcome_reply].
Qed.

Lemma at_objects2_after tid (tr : list Event) :
  at_objects2 test_settings vendor edit imported vendor_settings tid tr →
  after_objects2 edit (imported !! "EntityKey") tr.
Proof.
  destruct 1. econstructor; [by eapply at_objects_after|by eapply plain_outcome_reply].
Qed.

Lemma at_title_after tid (tr : list Event) :
  at_title test_settings vendor edit exception_logger imported vendor_settings tid tr →
  after_title edit (imported !! "EntityKey") tr.
Proof.
  destruct 1.
  - constructor; [by eapply at_objects2_after|].
    constructor. by eapply plain_outcome_reply.
  - constructor; [by eapply at_objects2_after|by constructor].
Qed.

Lemma login_facts_app tid (tr tr' : list Event) :
  login_facts test_settings vendor vendor_settings tid tr →
  logins tr' = [] → title_ids tr' = [] →
  login_facts test_settings vendor vendor_settings tid (tr ++ tr').
Proof.
  intros (cid & st & d & Htid & Hcid & Hst & Hd & Hl & Ht) Hl' Ht'.
  exists cid, st, d. split_and!; [done..| |].
  - unfold logins in *. by rewrite omap_app, Hl, Hl'.
  - unfold title_ids in *. by rewrite omap_app, Ht, Ht'.
Qed.

Lemma logins_plain_outcome cb o (d : list Event) :
  plain_outcome cb o d → logins d = [] ∧ title_ids d = [].
Proof. by destruct 1. Qed.

Lemma logins_token_outcome o (d : list Event) cap :
  token_outcome o d cap → logins d = [] ∧ title_ids d = [].
Proof. by destruct 1. Qed.

Lemma at_login_facts tid (tr : list Event) :
  at_login test_settings vendor vendor_settings tid tr →
  login_facts test_settings vendor vendor_settings tid tr.
Proof.
  destruct 1 as [tid cid st d Htid Hcid Hst Hd].
  destruct (logins_plain_outcome _ _ _ Hd) as [Hl Ht].
  exists cid, st, d. split_and!; [done..| |].
  - unfold logins in *. by rewrite omap_app, Hl.
  - unfold title_ids in *. by rewrite omap_app, Ht.
Qed.

Lemma at_token_facts tid key (tr : list Event) :
  at_token test_settings vendor imported vendor_settings tid key tr →
  login_facts test_settings vendor vendor_settings tid tr.
Proof.
  destruct 1 as [tid tr st d cap Htr Hst Hd].
  destruct (logins_token_outcome _ _ _ Hd) as [Hl Ht].
  apply login_facts_app; [by apply at_login_facts|..].
  - unfold logins in *. by rewrite omap_app, Hl.
  - unfold title_ids in *. by rewrite omap_app, Ht.
Qed.

Lemma at_objects_facts tid key (tr : list Event) :
  at_objects test_settings vendor edit imported vendor_settings tid key tr →
  login_facts test_settings vendor vendor_settings tid tr.
Proof.
  destruct 1 as [tid key tr st st2 d Htr Hst Hd].
  destruct (logins_plain_outcome _ _ _ Hd) as [Hl Ht].
  apply login_facts_app; [by eapply at_token_facts|..].
  - unfold logins in *. by rewrite omap_app, Hl.
  - unfold title_ids in *. by rewrite omap_app, Ht.
Qed.

Lemma at_objects2_facts tid (tr : list Event) :
  at_objects2 test_settings vendor edit imported vendor_settings tid tr →
  login_facts test_settings vendor vendor_settings tid tr.
Proof.
  destruct 1 as [tid v tr st d Htr Hst Hd].
  destruct (logins_plain_outcome _ _ _ Hd) as [Hl Ht].
  apply login_facts_app; [by eapply at_objects_facts|..].
  - unfold logins in *. by rewrite omap_app, Hl.
  - unfold title_ids in *. by rewrite omap_app, Ht.
Qed.

Lemma at_title_facts tid (tr : list Event) :
  at_title test_settings vendor edit exception_logger imported vendor_settings tid tr →
  login_facts test_settings vendor vendor_settings tid tr.
Proof.
  destruct 1 as [tid tr st d Htr Hst Hd|tid tr st st' e Htr Hst He Hpf Hlog].
  - destruct (logins_plain_outcome _ _ _ Hd) as [Hl Ht].
    apply login_facts_app; [by eapply at_objects2_facts|..].
    + unfold logins in *. by rewrite omap_app, Hl.
    + unfold title_ids in *. by rewrite omap_app, Ht.
  - apply login_facts_app; [by eapply at_objects2_facts|done..].
Qed.

(** The same at the end of a run: either the run stopped on line 14 or 15,
    with no call made, or the facts hold. *)
Lemma run_login_facts (r : Result unit) (s : State) :
  RunState test_settings vendor edit exception_logger imported vendor_settings r s →
  (logins (trace s) = [] ∧ called (trace s) = []) ∨
  ∃ tid cid,
    test_settings !! "TitleId" = Some tid ∧
    test_settings !! "customId" = Some cid ∧
    logins (trace s) = [(VDict (request_dict tid cid), VFun LoginCallback)] ∧
    title_ids (trace s) = [tid].
Proof.
  destruct 1 as [Htid|tid Htid Hcid|g tid cid st e Htid Hcid Hst He
                 |g tid tr st e Htr Hst He|g tid tr st su fa e Htr Hst He Hf Hv
                 |g tid key tr st st2 e Htr Hst He|g tid tr Htr|g tid v tr st e Htr Hst He
                 |g tid tr st e Htr Hst He Hpf|g tid tr st st' e e' Htr Hst He Hpf Hlog
                 |g tid tr Htr Hkey|g tid key tr st left e Htr Hkey Hst Hleft He
                 |g tid key tr st left d Htr Hkey Hst Hleft Hd]; cbn [trace].
  1,2: by left.
  1: right; by exists tid, cid.
  all: right.
  all: first [ apply at_login_facts in Htr | apply at_token_facts in Htr
             | apply at_objects_facts in Htr | apply at_objects2_facts in Htr
             | apply at_title_facts in Htr ].
  all: try (destruct (logins_plain_outcome _ _ _ Hd) as [Hl Ht]).
  all: eapply login_facts_app in Htr as (cid & _ & _ & Htid & Hcid & _ & _ & Hl' & Ht');
    [by exists tid, cid| |].
  all: unfold logins, title_ids in *; rewrite ?omap_app, ?Hl, ?Ht; done.
Qed.

End Stages.

(** * Missing attributes of the test settings *)

(** X1: when [PlayFabManualTestSettings] has no [TitleId], the module stops
    on line 14 with an [AttributeError]: the namespace and the settings are
    as the imports left them and no call was made. *)
Theorem X1_missing_title_id_stops_at_once
    (test_settings : gmap string Val) (vendor : Api → State → Val → ApiOutcome)
    (edit : State → string → gmap string Val → gmap string Val)
    (exception_logger : State → Val → option PyExc)
    (imported vendor_settings : gmap string Val) :
  test_settings !! "TitleId" = None →
  run test_settings vendor edit exception_logger imported vendor_settings =
    (Raise (AttributeError "TitleId"),
     mkState imported vendor_settings [EvTestSettingsRead "TitleId"]).
Proof.
  intros Htid. unfold run, toplevel. cbn [run_module].
  unfold bind at 1. unfold line14, bind, test_settings_read. by rewrite Htid.
Qed.

(** X2: when it has [TitleId] but no [customId], the module stops on line 15
    with an [AttributeError]: [PlayFabSettings.TitleId] has been assigned,
    the namespace is untouched and no call was made. *)
Theorem X2_missing_custom_id_stops_before_any_call
    (test_settings : gmap string Val) (vendor : Api → State → Val → ApiOutcome)
    (edit : State → string → gmap string Val → gmap string Val)
    (exception_logger : State → Val → option PyExc)
    (imported vendor_settings : gmap string Val) (tid : Val) :
  test_settings !! "TitleId" = Some tid →
  test_settings !! "customId" = None →
  run test_settings vendor edit exception_logger imported vendor_settings =
    (Raise (AttributeError "customId"),
     mkState imported (<["TitleId" := tid]> vendor_settings)
             [ EvTestSettingsRead "TitleId"; EvSettingsWrite "TitleId" tid;
               EvTestSettingsRead "customId" ]).
Proof.
  intros Htid Hcid. unfold run, toplevel. cbn [run_module].
  unfold bind at 1. unfold line14, bind at 1, test_settings_read. rewrite Htid.
  unfold settings_write, log. cbn.
  unfold bind at 1. unfold line15, bind, test_settings_read. by rewrite Hcid.
Qed.

(** * The token answer behind every later stage *)

Section TokenAnswer.

Variable test_settings : gmap string Val.
Variable vendor : Api → State → Val → ApiOutcome.
Variable edit : State → string → gmap string Val → gmap string Val.
Variable exception_logger : State → Val → option PyExc.
Variables imported vendor_settings : gmap string Val.

Lemma at_token_answer tid key (tr : list Event) :
  at_token test_settings vendor imported vendor_settings tid key tr →
  ∃ st d cap,
    token_outcome (vendor EntityAPI_GetEntityToken st (VDict ∅)) d cap ∧
    key = entity_after (imported !! "EntityKey") cap.
Proof. destruct 1 as [tid tr st d cap Htr Hst Hd]. by exists st, d, cap. Qed.

Lemma at_objects_answer tid key (tr : list Event) :
  at_objects test_settings vendor edit imported vendor_settings tid key tr →
  ∃ st d cap,
    token_outcome (vendor EntityAPI_GetEntityToken st (VDict ∅)) d cap ∧
    key = entity_after (imported !! "EntityKey") cap.
Proof. destruct 1. by eapply at_token_answer. Qed.

Lemma at_objects2_answer tid (tr : list Event) :
  at_objects2 test_settings vendor edit imported vendor_settings tid tr →
  ∃ v st d cap,
    token_outcome (vendor EntityAPI_GetEntityToken st (VDict ∅)) d cap ∧
    Some v = entity_after (imported !! "EntityKey") cap.
Proof.
  destruct 1 as [tid v tr st d Htr Hst Hd]. exists v. by eapply at_objects_answer.
Qed.

Lemma at_title_answer tid (tr : list Event) :
  at_title test_settings vendor edit exception_logger imported vendor_settings tid tr →
  ∃ v st d cap,
    token_outcome (vendor EntityAPI_GetEntityToken st (VDict ∅)) d cap ∧
    Some v = entity_after (imported !! "EntityKey") cap.
Proof. destruct 1; by eapply at_objects2_answer. Qed.

(** A granted token binds the key. *)
Lemma granted_outcome (st : State) (req : Val) (d : list Event) (cap : option Val) :
  grants_entity_token vendor →
  token_outcome (vendor EntityAPI_GetEntityToken st req) d cap →
  is_Some cap.
Proof.
  intros Hgrant Hd. destruct (Hgrant st req) as (su & fa & g & v & Hv & Hf & Hsub).
  rewrite Hv in Hd. inversion Hd; subst; [congruence|eauto|congruence].
Qed.

(** A token answer whose payload has no entity binds nothing, and returns
    only when the vendor guards the callback. *)
Lemma missing_entity_outcome (st : State) (req success fail : Val) guarded e
    (d : list Event) (cap : option Val) :
  vendor EntityAPI_GetEntityToken st req = ApiCallback success fail guarded →
  truthy fail = false →
  subscript success "Entity" = Raise e →
  token_outcome (vendor EntityAPI_GetEntityToken st req) d cap →
  cap = None ∧ guarded = true.
Proof.
  intros Hv Hf Hsub Hd. rewrite Hv in Hd. inversion Hd; subst; by try congruence.
Qed.

End TokenAnswer.

Ltac run_state_cases H :=
  destruct H as [Htid|tid0 Htid Hcid|g tid0 cid0 st e0 Htid Hcid Hst He
                 |g tid0 tr st e0 Htr Hst He|g tid0 tr st su0 fa0 e0 Htr Hst He Hf Hv
                 |g tid0 key0 tr st st2 e0 Htr Hst He|g tid0 tr Htr
                 |g tid0 v0 tr st e0 Htr Hst He
                 |g tid0 tr st e0 Htr Hst He Hpf|g tid0 tr st st' e0 e' Htr Hst He Hpf Hlog
                 |g tid0 tr Htr Hkey|g tid0 key0 tr st left e0 Htr Hkey Hst Hleft He
                 |g tid0 key0 tr st left d0 Htr Hkey Hst Hleft Hd]; cbn [trace settings globals].

(** * The login request *)

Lemma login_request_state
    (test_settings : gmap string Val) (vendor : Api → State → Val → ApiOutcome)
    (edit : State → string → gmap string Val → gmap string Val)
    (exception_logger : State → Val → option PyExc)
    (imported vendor_settings : gmap string Val) (r : Result unit) (s : State)
    (req cb : Val) :
  RunState test_settings vendor edit exception_logger imported vendor_settings r s →
  EvApiCall ClientAPI_LoginWithCustomID req cb ∈ trace s →
  ∃ tid cid,
    test_settings !! "TitleId" = Some tid ∧
    test_settings !! "customId" = Some cid ∧
    req = VDict (request_dict tid cid) ∧
    cb = VFun LoginCallback ∧
    title_ids (trace s) = [tid].
Proof.
  intros Hrun Hin.
  assert ((req, cb) ∈ logins (trace s)) as Hl.
  { apply list_elem_of_omap. by eexists. }
  destruct (run_login_facts _ _ _ _ _ _ _ _ Hrun)
    as [[Hnone _]|(tid & cid & Htid & Hcid & Hlogins & Htitle)].
  - rewrite Hnone in Hl. by apply elem_of_nil in Hl.
  - rewrite Hlogins in Hl. apply list_elem_of_singleton in Hl as [= -> ->].
    by exists tid, cid.
Qed.

(** X3: the request of a login call is the dictionary built by lines 17 to
    22, with the custom and title identifiers of the test settings, it comes
    with [loginCallback], and its title identifier is the one value assigned
    to [PlayFabSettings.TitleId]. *)
Theorem X3_login_request_built_from_test_settings
    (test_settings : gmap string Val) (vendor : Api → State → Val → ApiOutcome)
    (edit : State → string → gmap string Val → gmap string Val)
    (exception_logger : State → Val → option PyExc)
    (imported vendor_settings : gmap string Val) (req cb : Val) :
  let out := run test_settings vendor edit exception_logger imported vendor_settings in
  EvApiCall ClientAPI_LoginWithCustomID req cb ∈ trace out.2 →
  ∃ tid cid,
    test_settings !! "TitleId" = Some tid ∧
    test_settings !! "customId" = Some cid ∧
    req = VDict {[ "CreateAccount" := VBool true; "CustomId" := cid;
                   "TitleId" := tid; "LoginTitlePlayerAccountEntity" := VBool true ]} ∧
    cb = VFun LoginCallback ∧
    title_ids (trace out.2) = [tid].
Proof.
  intros out Hin.
  destruct (login_request_state _ _ _ _ _ _ _ _ _ _
              (run_state test_settings vendor edit exception_logger imported vendor_settings)
              Hin) as (tid & cid & Htid & Hcid & -> & -> & Htitle).
  exists tid, cid. split_and!; [done..|reflexivity|done|done].
Qed.

(** * A missing developer secret key *)

Lemma no_secret_key_state
    (test_settings : gmap string Val) (vendor : Api → State → Val → ApiOutcome)
    (edit : State → string → gmap string Val → gmap string Val)
    (exception_logger : State → Val → option PyExc)
    (imported vendor_settings : gmap string Val) (r : Result unit) (s : State) :
  test_settings !! "DeveloperSeceretKey" = None →
  RunState test_settings vendor edit exception_logger imported vendor_settings r s →
  r ≠ Ok tt ∧
  (List.length (called (trace s)) ≤ 5)%nat ∧
  settings s !! "DeveloperSecretKey" = vendor_settings !! "DeveloperSecretKey".
Proof.
  intros Hnone Hrun. run_state_cases Hrun; try congruence.
  all: try (apply at_login_after in Htr as Hafter;
            apply called_after_login in Hafter).
  all: try (apply at_token_after in Htr as Hafter;
            apply called_after_token in Hafter).
  all: try (apply at_objects_after in Htr as Hafter;
            apply called_after_objects in Hafter).
  all: try (apply at_objects2_after in Htr as Hafter;
            apply called_after_objects2 in Hafter).
  all: try (apply at_title_after in Htr as Hafter;
            apply called_after_title in Hafter).
  all: split_and!; [done| |unfold titled; by rewrite ?lookup_insert_ne].
  all: rewrite ?called_app, ?length_app, ?Hafter; cbn; lia.
Qed.

(** X5: when the test settings have no [DeveloperSeceretKey], no run
    completes: at most the first five calls are made and
    [PlayFabSettings.DeveloperSecretKey] is left as the vendor had it. *)
Theorem X5_missing_secret_key_never_completes
    (test_settings : gmap string Val) (vendor : Api → State → Val → ApiOutcome)
    (edit : State → string → gmap string Val → gmap string Val)
    (exception_logger : State → Val → option PyExc)
    (imported vendor_settings : gmap string Val) :
  test_settings !! "DeveloperSeceretKey" = None →
  let out := run test_settings vendor edit exception_logger imported vendor_settings in
  out.1 ≠ Ok tt ∧
  (List.length (called (trace out.2)) ≤ 5)%nat ∧
  settings out.2 !! "DeveloperSecretKey" = vendor_settings !! "DeveloperSecretKey".
Proof.
  intros Hnone out.
  exact (no_secret_key_state _ _ _ _ _ _ _ _ Hnone
           (run_state test_settings vendor edit exception_logger imported
              vendor_settings)).
Qed.

(** * Vendors that let the run complete, and vendors that do not *)

Lemma completes_state
    (test_settings : gmap string Val) (vendor : Api → State → Val → ApiOutcome)
    (edit : State → string → gmap string Val → gmap string Val)
    (exception_logger : State → Val → option PyExc)
    (imported vendor_settings : gmap string Val) (tid cid key : Val)
    (r : Result unit) (s : State) :
  test_settings !! "TitleId" = Some tid →
  test_settings !! "customId" = Some cid →
  test_settings !! "DeveloperSeceretKey" = Some key →
  raises_only_without_secret_key vendor →
  grants_entity_token vendor →
  (∀ st e, exception_logger st e = None) →
  RunState test_settings vendor edit exception_logger imported vendor_settings r s →
  r = Ok tt ∧
  settings s = <["DeveloperSecretKey" := key]> (<["TitleId" := tid]> vendor_settings).
Proof.
  intros Htid' Hcid' Hkey' Hraise Hgrant Hquiet Hrun.
  run_state_cases Hrun; try congruence.
  - by destruct (Hraise _ _ _ _ He) as [? _].
  - by destruct (Hraise _ _ _ _ He) as [? _].
  - destruct (Hgrant st (VDict ∅)) as (su & fa & g' & v & Hans & _ & Hsub).
    congruence.
  - by destruct (Hraise _ _ _ _ He) as [? _].
  - destruct (at_objects_answer _ _ _ _ _ _ _ _ Htr) as (st & d & cap & Hd & Hcap).
    destruct (granted_outcome _ _ _ _ _ Hgrant Hd) as [v ->]. done.
  - by destruct (Hraise _ _ _ _ He) as [? _].
  - destruct (Hraise _ _ _ _ He) as (_ & ? & _). congruence.
  - destruct (Hraise _ _ _ _ He) as (_ & _ & Hunset).
    rewrite Hst in Hunset. unfold keyed in Hunset. by rewrite lookup_insert_eq in Hunset.
  - apply at_title_facts in Htr as (_ & _ & _ & Htid & _).
    split; [done|]. unfold keyed, titled. congruence.
Qed.

(** X6: when the test settings hold the three attributes, the vendor raises
    nothing but a [PlayFabException] out of [GetTitleData] while no
    developer secret key is set, every token request is answered with a
    payload holding an entity, and the logger returns, the module runs to
    its end: all six calls are made and both settings are assigned. *)
Theorem X6_run_completes
    (test_settings : gmap string Val) (vendor : Api → State → Val → ApiOutcome)
    (edit : State → string → gmap string Val → gmap string Val)
    (exception_logger : State → Val → option PyExc)
    (imported vendor_settings : gmap string Val) (tid cid key : Val) :
  test_settings !! "TitleId" = Some tid →
  test_settings !! "customId" = Some cid →
  test_settings !! "DeveloperSeceretKey" = Some key →
  raises_only_without_secret_key vendor →
  grants_entity_token vendor →
  (∀ st e, exception_logger st e = None) →
  let out := run test_settings vendor edit exception_logger imported vendor_settings in
  out.1 = Ok tt ∧
  called (trace out.2) =
    [ ClientAPI_LoginWithCustomID; EntityAPI_GetEntityToken; EntityAPI_GetObjects;
      EntityAPI_GetObjects; ServerAPI_GetTitleData; ServerAPI_GetTitleData ] ∧
  settings out.2 = <["DeveloperSecretKey" := key]> (<["TitleId" := tid]> vendor_settings).
Proof.
  intros Htid Hcid Hkey Hraise Hgrant Hquiet out.
  destruct (completes_state _ _ _ _ _ _ _ _ _ _ _ Htid Hcid Hkey Hraise Hgrant Hquiet
              (run_state test_settings vendor edit exception_logger imported vendor_settings))
    as [Hok Hset].
  fold out in Hok, Hset. split_and!; [done| |done].
  destruct (skeleton_run _ _ _
              (run_shape test_settings vendor edit exception_logger imported vendor_settings))
    as (n & _ & Hsk & Hn).
  fold out in Hsk, Hn. by rewrite called_skeleton, Hsk, (Hn Hok).
Qed.

Lemma refused_state
    (test_settings : gmap string Val) (vendor : Api → State → Val → ApiOutcome)
    (edit : State → string → gmap string Val → gmap string Val)
    (exception_logger : State → Val → option PyExc)
    (imported vendor_settings : gmap string Val) (tid cid : Val) (e : PyExc)
    (r : Result unit) (s : State) :
  test_settings !! "TitleId" = Some tid →
  test_settings !! "customId" = Some cid →
  (∀ st req, vendor ClientAPI_LoginWithCustomID st req = ApiRaise e) →
  RunState test_settings vendor edit exception_logger imported vendor_settings r s →
  r = Raise e ∧
  trace s = seg_login tid cid ++ [EvApiRaise ClientAPI_LoginWithCustomID e] ∧
  settings s = <["TitleId" := tid]> vendor_settings.
Proof.
  intros Htid' Hcid' Hrefuse Hrun.
  run_state_cases Hrun; try congruence.
  1: { rewrite Hrefuse in He. injection He as <-.
       assert (tid0 = tid) as -> by congruence.
       by assert (cid0 = cid) as -> by congruence. }
  all: first [ apply at_login_facts in Htr | apply at_token_facts in Htr
             | apply at_objects_facts in Htr | apply at_objects2_facts in Htr
             | apply at_title_facts in Htr ].
  all: destruct Htr as (? & ? & ? & _ & _ & _ & Hout & _).
  all: rewrite Hrefuse in Hout; inversion Hout.
Qed.

(** X7: when the login call raises, whatever it is asked, the module ends
    with that exception right after it: the trace is that of lines 14 to 30
    followed by the exception, so that no callback ran, nothing was printed
    and no other call was made, and [TitleId] is the only setting
    assigned. *)
Theorem X7_refused_login_ends_the_run
    (test_settings : gmap string Val) (vendor : Api → State → Val → ApiOutcome)
    (edit : State → string → gmap string Val → gmap string Val)
    (exception_logger : State → Val → option PyExc)
    (imported vendor_settings : gmap string Val) (tid cid : Val) (e : PyExc) :
  test_settings !! "TitleId" = Some tid →
  test_settings !! "customId" = Some cid →
  (∀ st req, vendor ClientAPI_LoginWithCustomID st req = ApiRaise e) →
  let out := run test_settings vendor edit exception_logger imported vendor_settings in
  out.1 = Raise e ∧
  trace out.2 = seg_login tid cid ++ [EvApiRaise ClientAPI_LoginWithCustomID e] ∧
  settings out.2 = <["TitleId" := tid]> vendor_settings.
Proof.
  intros Htid Hcid Hrefuse out.
  exact (refused_state _ _ _ _ _ _ _ _ _ _ _ Htid Hcid Hrefuse
           (run_state test_settings vendor edit exception_logger imported
              vendor_settings)).
Qed.

Lemma called_first_two (tr : list Event) (ev : Event) :
  after_login tr → label ev = None →
  called (tr ++ seg_token ++ [ev]) =
    [ClientAPI_LoginWithCustomID; EntityAPI_GetEntityToken].
Proof.
  intros Htr Hev.
  rewrite called_skeleton, !skeleton_app, (skeleton_after_login _ Htr).
  cbn. by rewrite Hev.
Qed.

Lemma called_first_three {edit} ik key (tr : list Event) :
  after_objects edit ik key tr →
  called (tr ++ [EvGlobalRead "EntityKey"]) =
    [ClientAPI_LoginWithCustomID; EntityAPI_GetEntityToken; EntityAPI_GetObjects].
Proof.
  intros Htr. by rewrite called_skeleton, !skeleton_app, (skeleton_after_objects _ _ _ Htr).
Qed.

Lemma missing_entity_state
    (test_settings : gmap string Val) (vendor : Api → State → Val → ApiOutcome)
    (edit : State → string → gmap string Val → gmap string Val)
    (exception_logger : State → Val → option PyExc)
    (imported vendor_settings : gmap string Val) (tid cid success fail : Val)
    (guarded : bool) (e : PyExc) (r : Result unit) (s : State) :
  test_settings !! "TitleId" = Some tid →
  test_settings !! "customId" = Some cid →
  imported !! "EntityKey" = None →
  (∀ api st req e', vendor api st req ≠ ApiRaise e') →
  (∀ st req, vendor EntityAPI_GetEntityToken st req = ApiCallback success fail guarded) →
  truthy fail = false →
  subscript success "Entity" = Raise e →
  RunState test_settings vendor edit exception_logger imported vendor_settings r s →
  if guarded
  then r = Raise (NameError "EntityKey") ∧
       called (trace s) =
         [ClientAPI_LoginWithCustomID; EntityAPI_GetEntityToken; EntityAPI_GetObjects]
  else r = Raise e ∧
       called (trace s) = [ClientAPI_LoginWithCustomID; EntityAPI_GetEntityToken].
Proof.
  intros Htid' Hcid' Himp Hnever Hanswer Hf' Hsub Hrun.
  run_state_cases Hrun; try congruence; try by destruct (Hnever _ _ _ _ He).
  - rewrite Hanswer in He. injection He as <- <- ->.
    split; [congruence|]. apply called_first_two; [by eapply at_login_after|done].
  - destruct (at_objects_answer _ _ _ _ _ _ _ _ Htr) as (st & d & cap & Hd & Hcap).
    destruct (missing_entity_outcome _ _ _ _ _ _ _ _ _ (Hanswer st _) Hf' Hsub Hd)
      as [-> ->].
    split; [done|]. eapply called_first_three. by eapply at_objects_after.
  - destruct (at_title_answer _ _ _ _ _ _ _ _ Htr) as (v & st & d & cap & Hd & Hcap).
    destruct (missing_entity_outcome _ _ _ _ _ _ _ _ _ (Hanswer st _) Hf' Hsub Hd)
      as [-> ->].
    cbn in Hcap. congruence.
  - destruct (at_title_answer _ _ _ _ _ _ _ _ Htr) as (v & st' & d & cap & Hd' & Hcap).
    destruct (missing_entity_outcome _ _ _ _ _ _ _ _ _ (Hanswer st' _) Hf' Hsub Hd')
      as [-> ->].
    cbn in Hcap. congruence.
Qed.

(** X8: suppose the vendor never raises, the imports do not bind
    [EntityKey], and every token request is answered with a falsy [fail] and
    a success payload without ["Entity"].  If the vendor lets the exception
    of the callback through, the module ends with it at line 41, after two
    calls; if the vendor swallows it, the module goes on and ends with a
    [NameError] at line 53, after three calls. *)
Theorem X8_payload_without_entity_ends_the_run
    (test_settings : gmap string Val) (vendor : Api → State → Val → ApiOutcome)
    (edit : State → string → gmap string Val → gmap string Val)
    (exception_logger : State → Val → option PyExc)
    (imported vendor_settings : gmap string Val) (tid cid success fail : Val)
    (guarded : bool) (e : PyExc) :
  test_settings !! "TitleId" = Some tid →
  test_settings !! "customId" = Some cid →
  imported !! "EntityKey" = None →
  (∀ api st req e', vendor api st req ≠ ApiRaise e') →
  (∀ st req, vendor EntityAPI_GetEntityToken st req = ApiCallback success fail guarded) →
  truthy fail = false →
  subscript success "Entity" = Raise e →
  let out := run test_settings vendor edit exception_logger imported vendor_settings in
  if guarded
  then out.1 = Raise (NameError "EntityKey") ∧
       called (trace out.2) =
         [ClientAPI_LoginWithCustomID; EntityAPI_GetEntityToken; EntityAPI_GetObjects]
  else out.1 = Raise e ∧
       called (trace out.2) = [ClientAPI_LoginWithCustomID; EntityAPI_GetEntityToken].
Proof.
  intros Htid Hcid Himp Hnever Hanswer Hf Hsub out.
  exact (missing_entity_state _ _ _ _ _ _ _ _ _ _ _ _ _ _
           Htid Hcid Himp Hnever Hanswer Hf Hsub
           (run_state test_settings vendor edit exception_logger imported
              vendor_settings)).
Qed.

(** * What is printed *)

Lemma logged_app (tr1 tr2 : list Event) : logged (tr1 ++ tr2) = logged tr1 ++ logged tr2.
Proof. apply omap_app. Qed.

Lemma within_budget_app (tr1 tr2 : list Event) :
  within_budget tr1 → within_budget tr2 → within_budget (tr1 ++ tr2).
Proof.
  unfold within_budget. rewrite printed_app, called_app, logged_app, !length_app. lia.
Qed.

Lemma within_budget_call (seg d : list Event) :
  printed seg = [] → (1 ≤ List.length (called seg))%nat →
  (List.length (printed d) ≤ 1 + List.length (logged d))%nat →
  within_budget (seg ++ d).
Proof.
  unfold within_budget. intros Hp Hc Hd.
  rewrite printed_app, called_app, logged_app, !length_app, Hp. cbn. lia.
Qed.

Lemma printed_plain_reply (cb : Callback) (d : list Event) :
  plain_reply cb d → (List.length (printed d) ≤ 1 + List.length (logged d))%nat.
Proof. destruct 1; cbn; lia. Qed.

Lemma printed_token_reply (d : list Event) (cap : option Val) :
  token_reply d cap → (List.length (printed d) ≤ 1 + List.length (logged d))%nat.
Proof. destruct 1; cbn; lia. Qed.

Lemma printed_title_reply (d : list Event) :
  title_reply d → (List.length (printed d) ≤ 1 + List.length (logged d))%nat.
Proof. destruct 1 as [d Hd|e He]; [by eapply printed_plain_reply|cbn; lia]. Qed.

Lemma within_budget_after_login (tr : list Event) : after_login tr → within_budget tr.
Proof.
  destruct 1 as [tid cid d Hd].
  apply within_budget_call; [done|cbn; lia|by eapply printed_plain_reply].
Qed.

Lemma within_budget_after_token ik key (tr : list Event) :
  after_token ik key tr → within_budget tr.
Proof.
  destruct 1 as [tr d cap Htr Hd].
  apply within_budget_app; [by apply within_budget_after_login|].
  apply within_budget_call; [done|cbn; lia|by eapply printed_token_reply].
Qed.

Lemma within_budget_after_objects {edit} ik key (tr : list Event) :
  after_objects edit ik key tr → within_budget tr.
Proof.
  destruct 1 as [key tr st3 d Htr Hd].
  apply within_budget_app; [by eapply within_budget_after_token|].
  apply within_budget_call; [done|cbn; lia|by eapply printed_plain_reply].
Qed.

Lemma within_budget_after_objects2 {edit} ik (tr : list Event) :
  after_objects2 edit ik tr → within_budget tr.
Proof.
  destruct 1 as [v tr d Htr Hd].
  apply within_budget_app; [by eapply within_budget_after_objects|].
  apply within_budget_call; [done|cbn; lia|by eapply printed_plain_reply].
Qed.

Lemma within_budget_after_title {edit} ik (tr : list Event) :
  after_title edit ik tr → within_budget tr.
Proof.
  destruct 1 as [tr d Htr Hd].
  apply within_budget_app; [by eapply within_budget_after_objects2|].
  apply within_budget_call; [done|cbn; lia|by eapply printed_title_reply].
Qed.

Lemma within_budget_run {edit} ik (r : Result unit) (tr : list Event) :
  RunShape edit ik r tr → within_budget tr.
Proof.
  destruct 1 as [|tid|tid cid e|tr e Htr|tr su fa e Htr Hf Hv|key tr st3 e Htr|tr Htr
                 |v tr e Htr|tr e Htr He|tr e e' Htr He|tr Htr
                 |key tr left e Htr Hleft|key tr left d6 Htr Hleft Hd6].
  1-3: unfold within_budget; cbn; lia.
  all: apply within_budget_app;
    [first [ by apply within_budget_after_login | by eapply within_budget_after_token
           | by eapply within_budget_after_objects
           | by eapply within_budget_after_objects2
           | by eapply within_budget_after_title ]|].
  1-9: unfold within_budget; cbn; lia.
  apply within_budget_call; [done|cbn; lia|by eapply printed_plain_reply].
Qed.

(** X9: in every run the number of lines printed is at most the number of
    calls made plus the number of exceptions handed to the logger: a call
    prints at most one payload and the handler prints one message; and at
    most six calls are made. *)
Theorem X9_at_most_one_line_per_call
    (test_settings : gmap string Val) (vendor : Api → State → Val → ApiOutcome)
    (edit : State → string → gmap string Val → gmap string Val)
    (exception_logger : State → Val → option PyExc)
    (imported vendor_settings : gmap string Val) :
  let out := run test_settings vendor edit exception_logger imported vendor_settings in
  (List.length (printed (trace out.2)) ≤
     List.length (called (trace out.2)) + List.length (logged (trace out.2)))%nat ∧
  (List.length (called (trace out.2)) ≤ 6)%nat.
Proof.
  intros out. split.
  - exact (within_budget_run _ _ _
             (run_shape test_settings vendor edit exception_logger imported vendor_settings)).
  - destruct (skeleton_run _ _ _
                (run_shape test_settings vendor edit exception_logger imported vendor_settings))
      as (n & Hn & Hsk & _).
    fold out in Hsk. rewrite called_skeleton, Hsk.
    stop_cases Hn; cbn; lia.
Qed.

(** * The captured key over several token callbacks *)

(** X11: once [entityTokenCallback] has captured a key, a later invocation
    replaces it only if it succeeds too: with a truthy [fail] or a payload
    without ["Entity"] the key of the earlier invocation stays bound. *)
Theorem X11_failed_token_callback_keeps_the_key
    (success1 fail1 success2 fail2 v1 : Val) (s : State) :
  truthy fail1 = false →
  subscript success1 "Entity" = Ok v1 →
  let s1 := (entityTokenCallback success1 fail1 s).2 in
  let s2 := (entityTokenCallback success2 fail2 s1).2 in
  globals s2 !! "EntityKey" =
    match truthy fail2, subscript success2 "Entity" with
    | false, Ok v2 => Some v2
    | _, _ => Some v1
    end.
Proof.
  intros Hf1 Hv1 s1 s2. subst s1 s2.
  rewrite (token_body_capture _ _ v1 s) by done. cbn [snd].
  destruct (truthy fail2) eqn:Hf2.
  - rewrite token_body_fail by done. cbn. apply lookup_insert_eq.
  - destruct (subscript success2 "Entity") as [v2|e] eqn:Hv2.
    + rewrite (token_body_capture _ _ v2) by done. cbn. apply lookup_insert_eq.
    + rewrite (token_body_raise _ _ e) by done. cbn. apply lookup_insert_eq.
Qed.

(** * A key bound by the imports *)


(** * The calls with their arguments *)

Lemma calls_token_reply (d : list Event) (cap : option Val) :
  token_reply d cap → omap call_of d = [].
Proof. by destruct 1. Qed.

Lemma calls_title_reply (d : list Event) : title_reply d → omap call_of d = [].
Proof.
  destruct 1 as [d Hd|e He]; [|done].
  exact (view_plain_reply call_of ltac:(done) ltac:(done)
           TitleDataReqCallback d ltac:(done) Hd).
Qed.

Ltac calls_view Heq Hd :=
  unfold calls in *; rewrite ?omap_app, ?Heq;
  unfold upto_title, upto_objects2, upto_objects, upto_token;
  rewrite ?omap_app, ?(calls_token_reply _ _ Hd); cbn.

Lemma calls_run {edit} ik (r : Result unit) (tr : list Event) :
  RunShape edit ik r tr →
  ∃ tid cid v st left,
    left_by edit "titleDataRequest" left ∧
    calls tr `prefix_of` script_calls tid cid v (edit st "etRequest" ∅) left.
Proof.
  pose proof (left_once edit "titleDataRequest" blank) as Hleft0.
  destruct 1 as [|tid|tid cid e|tr e Htr|tr su fa e Htr Hf Hv|key tr st3 e Htr|tr Htr
                 |v tr e Htr|tr e Htr He|tr e e' Htr He|tr Htr
                 |key tr left e Htr Hleft|key tr left d6 Htr Hleft Hd6].
  - exists VNone, VNone, VNone, blank, (edit blank "titleDataRequest" ∅).
    split; [exact Hleft0|]. by eexists.
  - exists VNone, VNone, VNone, blank, (edit blank "titleDataRequest" ∅).
    split; [exact Hleft0|]. by eexists.
  - exists tid, cid, VNone, blank, (edit blank "titleDataRequest" ∅).
    split; [exact Hleft0|]. by eexists.
  - destruct (view_after_login call_of ltac:(done) ltac:(done) _ Htr)
      as (tid & cid & Heq).
    exists tid, cid, VNone, blank, (edit blank "titleDataRequest" ∅). split; [exact Hleft0|].
    calls_view Heq Htr. by eexists.
  - destruct (view_after_login call_of ltac:(done) ltac:(done) _ Htr)
      as (tid & cid & Heq).
    exists tid, cid, VNone, blank, (edit blank "titleDataRequest" ∅). split; [exact Hleft0|].
    calls_view Heq Htr. by eexists.
  - destruct (view_after_token call_of ltac:(done) ltac:(done) _ _ _ Htr)
      as (tid & cid & d & cap & Hd & _ & Heq).
    exists tid, cid, VNone, st3, (edit blank "titleDataRequest" ∅). split; [exact Hleft0|].
    calls_view Heq Hd. by eexists.
  - destruct (view_after_objects call_of ltac:(done) ltac:(done) _ _ _ _ Htr)
      as (tid & cid & d & cap & st & Hd & _ & Heq).
    exists tid, cid, VNone, st, (edit blank "titleDataRequest" ∅). split; [exact Hleft0|].
    calls_view Heq Hd. by eexists.
  - destruct (view_after_objects call_of ltac:(done) ltac:(done) _ _ _ _ Htr)
      as (tid & cid & d & cap & st & Hd & _ & Heq).
    exists tid, cid, v, st, (edit blank "titleDataRequest" ∅). split; [exact Hleft0|].
    calls_view Heq Hd. by eexists.
  - destruct (view_after_objects2 call_of ltac:(done) ltac:(done) _ _ _ Htr)
      as (tid & cid & d & cap & st & v & Hd & _ & Heq).
    exists tid, cid, v, st, (edit blank "titleDataRequest" ∅). split; [exact Hleft0|].
    calls_view Heq Hd. by eexists.
  - destruct (view_after_objects2 call_of ltac:(done) ltac:(done) _ _ _ Htr)
      as (tid & cid & d & cap & st & v & Hd & _ & Heq).
    exists tid, cid, v, st, (edit blank "titleDataRequest" ∅). split; [exact Hleft0|].
    calls_view Heq Hd. by eexists.
  - destruct (view_after_title call_of ltac:(done) ltac:(done) _ _ _ Htr)
      as (tid & cid & d & cap & st & v & d' & Hd & _ & Hd' & Heq).
    exists tid, cid, v, st, (edit blank "titleDataRequest" ∅). split; [exact Hleft0|].
    calls_view Heq Hd. rewrite (calls_title_reply _ Hd'). by eexists.
  - destruct (view_after_title call_of ltac:(done) ltac:(done) _ _ _ Htr)
      as (tid & cid & d & cap & st & v & d' & Hd & _ & Hd' & Heq).
    exists tid, cid, v, st, left. split; [exact Hleft|].
    calls_view Heq Hd. rewrite (calls_title_reply _ Hd'). by eexists.
  - destruct (view_after_title call_of ltac:(done) ltac:(done) _ _ _ Htr)
      as (tid & cid & d & cap & st & v & d' & Hd & _ & Hd' & Heq).
    exists tid, cid, v, st, left. split; [exact Hleft|].
    rewrite app_assoc. calls_view Heq Hd.
    rewrite (calls_title_reply _ Hd').
    rewrite (view_plain_reply call_of ltac:(done) ltac:(done)
               TitleDataReqCallback _ ltac:(done) Hd6).
    by eexists.
Qed.

(** X13: in every run the calls made, with the request and the callback of
    each, are an initial part of [script_calls], and a run that completes
    makes all six.  Each entry point is given the callback defined for it.
    The login request, the token request, the second request for objects and
    the first request for title data are passed as they were just built.
    The first [GetObjects] call is passed the dictionary of the token request
    again, as vendor code left it during the token call; the last
    [GetTitleData] call is passed the dictionary of the first, as vendor code
    (that call and, when it ran, the logger) left it. *)
Theorem X13_calls_and_their_arguments
    (test_settings : gmap string Val) (vendor : Api → State → Val → ApiOutcome)
    (edit : State → string → gmap string Val → gmap string Val)
    (exception_logger : State → Val → option PyExc)
    (imported vendor_settings : gmap string Val) :
  let out := run test_settings vendor edit exception_logger imported vendor_settings in
  ∃ tid cid v left3 left6,
    calls (trace out.2) `prefix_of` script_calls tid cid v left3 left6 ∧
    (out.1 = Ok tt → calls (trace out.2) = script_calls tid cid v left3 left6) ∧
    (∃ st, left3 = edit st "etRequest" ∅) ∧
    ((∃ st, left6 = edit st "titleDataRequest" ∅) ∨
     (∃ st st', left6 = edit st' "titleDataRequest" (edit st "titleDataRequest" ∅))).
Proof.
  intros out.
  destruct (calls_run _ _ _
              (run_shape test_settings vendor edit exception_logger imported
                 vendor_settings))
    as (tid & cid & v & st & left & Hleft & k & Hk).
  fold out in Hk. exists tid, cid, v, (edit st "etRequest" ∅), left.
  split_and!; [by exists k| |by exists st|exact Hleft].
  intros Hok.
  destruct (skeleton_run _ _ _
              (run_shape test_settings vendor edit exception_logger imported
                 vendor_settings))
    as (n & _ & Hsk & Hn).
  fold out in Hsk, Hn.
  assert (List.length (calls (trace out.2)) = 6) as Hlen.
  { transitivity (List.length (called (trace out.2))).
    - unfold calls, called. generalize (trace out.2). intros tr.
      induction tr as [|[] tr IH]; cbn; congruence.
    - by rewrite called_skeleton, Hsk, (Hn Hok). }
  apply (f_equal List.length) in Hk as Hk'. rewrite length_app, Hlen in Hk'.
  destruct k; [by rewrite app_nil_r in Hk|]. cbn in Hk'. lia.
Qed.

(** The sharing at work: against a vendor that marks the requests it holds,
    the first [GetObjects] call and the last [GetTitleData] call receive a
    marked dictionary; against one that leaves them alone they receive the
    empty dictionary. *)
Example marked_requests_come_back :
  calls (trace marking_run.2) !! 2 =
    Some (EntityAPI_GetObjects, VDict {["Seen" := VBool true]},
          VFun EntityObjectCallback) ∧
  calls (trace marking_run.2) !! 5 =
    Some (ServerAPI_GetTitleData, VDict {["Seen" := VBool true]},
          VFun TitleDataReqCallback) ∧
  calls (trace demo_run.2) !! 2 =
    Some (EntityAPI_GetObjects, VDict ∅, VFun EntityObjectCallback) ∧
  calls (trace demo_run.2) !! 5 =
    Some (ServerAPI_GetTitleData, VDict ∅, VFun TitleDataReqCallback).
Proof. split_and!; vm_compute; reflexivity. Qed.

(** * Instances on the sample vendors *)

Lemma X1_witness :
  (∅ : gmap string Val) !! "TitleId" = None ∧
  run ∅ demo_vendor no_edit quiet_logger ∅ ∅ =
    (Raise (AttributeError "TitleId"), mkState ∅ ∅ [EvTestSettingsRead "TitleId"]).
Proof.
  split; [reflexivity|].
  exact (X1_missing_title_id_stops_at_once ∅ demo_vendor no_edit quiet_logger ∅ ∅ eq_refl).
Defined.

Lemma X2_witness :
  ({[ "TitleId" := VStr "6195" ]} : gmap string Val) !! "TitleId" = Some (VStr "6195") ∧
  ({[ "TitleId" := VStr "6195" ]} : gmap string Val) !! "customId" = None ∧
  run {[ "TitleId" := VStr "6195" ]} demo_vendor no_edit quiet_logger ∅ ∅ =
    (Raise (AttributeError "customId"),
     mkState ∅ (<["TitleId" := VStr "6195"]> ∅)
             [ EvTestSettingsRead "TitleId"; EvSettingsWrite "TitleId" (VStr "6195");
               EvTestSettingsRead "customId" ]).
Proof.
  split_and!; [reflexivity..|].
  exact (X2_missing_custom_id_stops_before_any_call
           {[ "TitleId" := VStr "6195" ]} demo_vendor no_edit quiet_logger ∅ ∅ (VStr "6195")
           eq_refl eq_refl).
Defined.

Lemma X3_witness :
  EvApiCall ClientAPI_LoginWithCustomID
            (VDict (request_dict (VStr "6195") (VStr "tester"))) (VFun LoginCallback)
    ∈ trace demo_run.2 ∧
  ∃ tid cid,
    demo_test_settings !! "TitleId" = Some tid ∧
    demo_test_settings !! "customId" = Some cid ∧
    VDict (request_dict (VStr "6195") (VStr "tester")) =
      VDict {[ "CreateAccount" := VBool true; "CustomId" := cid;
               "TitleId" := tid; "LoginTitlePlayerAccountEntity" := VBool true ]} ∧
    VFun LoginCallback = VFun LoginCallback ∧
    title_ids (trace demo_run.2) = [tid].
Proof.
  assert (EvApiCall ClientAPI_LoginWithCustomID
            (VDict (request_dict (VStr "6195") (VStr "tester"))) (VFun LoginCallback)
            ∈ trace demo_run.2) as Hin.
  { apply (list_elem_of_lookup_2 _ 14). vm_compute. reflexivity. }
  split; [exact Hin|].
  exact (X3_login_request_built_from_test_settings
           demo_test_settings demo_vendor no_edit quiet_logger ∅ ∅ _ _ Hin).
Defined.

Lemma X5_witness :
  keyless_test_settings !! "DeveloperSeceretKey" = None ∧
  (run keyless_test_settings demo_vendor no_edit quiet_logger ∅ ∅).1 ≠ Ok tt ∧
  (List.length
     (called (trace (run keyless_test_settings demo_vendor no_edit quiet_logger
                         ∅ ∅).2)) ≤ 5)%nat ∧
  settings (run keyless_test_settings demo_vendor no_edit quiet_logger ∅ ∅).2
    !! "DeveloperSecretKey" = (∅ : gmap string Val) !! "DeveloperSecretKey".
Proof.
  split; [reflexivity|].
  exact (X5_missing_secret_key_never_completes
           keyless_test_settings demo_vendor no_edit quiet_logger ∅ ∅ eq_refl).
Defined.

Lemma X6_witness :
  raises_only_without_secret_key demo_vendor ∧
  grants_entity_token demo_vendor ∧
  demo_run.1 = Ok tt ∧
  called (trace demo_run.2) =
    [ ClientAPI_LoginWithCustomID; EntityAPI_GetEntityToken; EntityAPI_GetObjects;
      EntityAPI_GetObjects; ServerAPI_GetTitleData; ServerAPI_GetTitleData ] ∧
  settings demo_run.2 =
    <["DeveloperSecretKey" := VStr "secret"]> (<["TitleId" := VStr "6195"]> ∅).
Proof.
  assert (raises_only_without_secret_key demo_vendor) as Hraise.
  { intros api st req e. destruct api; cbn; try discriminate.
    destruct (settings st !! "DeveloperSecretKey"); [discriminate|].
    intros [= <-]. split_and!; reflexivity. }
  assert (grants_entity_token demo_vendor) as Hgrant.
  { intros st req. exists demo_token_payload, VNone, true, demo_entity.
    split_and!; [reflexivity..|vm_compute; reflexivity]. }
  split_and!; [exact Hraise|exact Hgrant|..];
    apply (X6_run_completes demo_test_settings demo_vendor no_edit quiet_logger ∅ ∅
             (VStr "6195") (VStr "tester") (VStr "secret")
             eq_refl eq_refl eq_refl Hraise Hgrant (λ _ _, eq_refl)).
Defined.

Lemma X7_witness :
  (∀ st req,
      refusing_vendor (OtherException "ConnectionError" "unreachable")
                      ClientAPI_LoginWithCustomID st req =
      ApiRaise (OtherException "ConnectionError" "unreachable")) ∧
  (run demo_test_settings
       (refusing_vendor (OtherException "ConnectionError" "unreachable"))
       no_edit quiet_logger ∅ ∅).1 = Raise (OtherException "ConnectionError" "unreachable").
Proof.
  split; [reflexivity|].
  apply (X7_refused_login_ends_the_run
           demo_test_settings
           (refusing_vendor (OtherException "ConnectionError" "unreachable"))
           no_edit quiet_logger ∅ ∅ (VStr "6195") (VStr "tester") _
           eq_refl eq_refl (λ _ _, eq_refl)).
Defined.

Lemma X8_witness :
  (∀ api st req e', entityless_vendor true api st req ≠ ApiRaise e') ∧
  truthy VNone = false ∧
  subscript (VDict ∅) "Entity" = Raise (KeyError "Entity") ∧
  (run demo_test_settings (entityless_vendor true) no_edit quiet_logger ∅ ∅).1 =
    Raise (NameError "EntityKey") ∧
  (run demo_test_settings (entityless_vendor false) no_edit quiet_logger ∅ ∅).1 =
    Raise (KeyError "Entity").
Proof.
  assert (∀ guarded api st req e', entityless_vendor guarded api st req ≠ ApiRaise e')
    as Hnever.
  { intros guarded api st req e'. destruct api; discriminate. }
  assert ((∅ : gmap string Val) !! "EntityKey" = None) as Himp by reflexivity.
  split_and!; [apply Hnever|reflexivity..| |].
  - apply (X8_payload_without_entity_ends_the_run
             demo_test_settings (entityless_vendor true) no_edit quiet_logger ∅ ∅
             (VStr "6195") (VStr "tester") (VDict ∅) VNone true (KeyError "Entity")
             eq_refl eq_refl Himp (Hnever true) (λ _ _, eq_refl) eq_refl eq_refl).
  - apply (X8_payload_without_entity_ends_the_run
             demo_test_settings (entityless_vendor false) no_edit quiet_logger ∅ ∅
             (VStr "6195") (VStr "tester") (VDict ∅) VNone false (KeyError "Entity")
             eq_refl eq_refl Himp (Hnever false) (λ _ _, eq_refl) eq_refl eq_refl).
Defined.

Lemma X11_witness :
  truthy VNone = false ∧
  subscript demo_token_payload "Entity" = Ok demo_entity ∧
  globals (entityTokenCallback VNone (VObj "PlayFabError")
             (entityTokenCallback demo_token_payload VNone blank).2).2 !! "EntityKey" =
    Some demo_entity.
Proof.
  assert (subscript demo_token_payload "Entity" = Ok demo_entity) as Hv
    by (vm_compute; reflexivity).
  split_and!; [reflexivity|exact Hv|].
  exact (X11_failed_token_callback_keeps_the_key
           demo_token_payload VNone VNone (VObj "PlayFabError") demo_entity blank
           eq_refl Hv).
Defined.

